(** * YT_Down.py: an interactive front end of a video extraction library

    The script is a command line shim around an external library
    ([yt_dlp]): it asks the library for metadata, probes a fixed list of
    format selectors, prints a numbered menu, reads one choice and hands the
    chosen selector back to the library's download call.

    The embedding follows the script function by function.  Everything the
    script does not own is an oracle: the library ([Env]), the terminal
    input (a list of [InputEvent]) and the file system.  What the script
    prints and which library calls it makes are recorded, in order, in the
    trace of the [World]. *)

From Stdlib Require Import ZArith Lia Ascii String List Sorting.Sorted.
From stdpp Require Import base option list strings gmap pretty sorting.

Local Open Scope Z_scope.
Local Open Scope string_scope.

(** ** Python strings

    A string is held as the bytes of its UTF-8 encoding, which is taken to
    be well formed: bytes that make no character count as one character
    that is neither blank nor digit.  [in] works on the bytes.  So does
    [str.lower], which the script only uses to compare with ['q'], ['y'],
    ['yes'], ['s'] and ['si']: no character above ASCII has one of their
    letters as its lower case.  [str.strip] and [int] see characters:
    which characters above ASCII are blank, and which are decimal digits,
    is decided by tables of the interpreter, and how long a literal [int]
    reads is a setting of the interpreter; the three are the fields of
    [Interpreter]. *)

Module PyStr.

Record Interpreter : Type := {
  (** [chr(n).isspace()] for a code point above ASCII *)
  isspace : N -> bool;
  (** the decimal digit a code point above ASCII stands for, if any *)
  decimal : N -> option Z;
  (** [sys.get_int_max_str_digits()]; 0 when there is no limit *)
  int_max_str_digits : nat
}.

(** A byte [10xxxxxx], which continues a character. *)
Definition is_continuation (a : ascii) : bool :=
  let n := N_of_ascii a in ((128 <=? n) && (n <? 192))%N.

(** The code point of a first byte followed by continuation bytes; [None]
    when the bytes are no well formed character. *)
Definition code_point (a : ascii) (tail : string) : option N :=
  let n := N_of_ascii a in
  let k := String.length tail in
  let value (lead : N) : N :=
    fold_left (fun v b => (64 * v + N_of_ascii b mod 64)%N)
      (list_ascii_of_string tail) lead in
  if (n <? 128)%N then if (k =? 0)%nat then Some n else None
  else if (n <? 192)%N then None
  else if (n <? 224)%N then
    if (k =? 1)%nat then Some (value (n - 192)%N) else None
  else if (n <? 240)%N then
    if (k =? 2)%nat then Some (value (n - 224)%N) else None
  else if (n <? 248)%N then
    if (k =? 3)%nat then Some (value (n - 240)%N) else None
  else None.

(** A character: its code point and its bytes. *)
Definition Char : Type := option N * string.

(** The characters of a text, read from its end: the continuation bytes
    met so far wait for their first byte. *)
Fixpoint split (s : string) : string * list Char :=
  match s with
  | EmptyString => (EmptyString, [])
  | String a r =>
      let '(tail, cs) := split r in
      if is_continuation a then (String a tail, cs)
      else (EmptyString, (code_point a tail, String a tail) :: cs)
  end.

Definition chars (s : string) : list Char :=
  let '(stray, cs) := split s in
  match stray with
  | EmptyString => cs
  | _ => (None, stray) :: cs
  end.

Fixpoint text (cs : list Char) : string :=
  match cs with
  | c :: r => snd c ++ text r
  | [] => EmptyString
  end.

Definition within (lo hi n : N) : bool := ((lo <=? n) && (n <=? hi))%N.

(** [str.isspace] on one character: in ASCII these are TAB, LF, VT, FF, CR,
    the four separators 0x1c..0x1f and the blank. *)
Definition is_space (py : Interpreter) (c : Char) : bool :=
  match fst c with
  | Some n =>
      if (n <? 128)%N then within 9 13 n || within 28 32 n else isspace py n
  | None => false
  end.

Fixpoint lstrip (blank : Char -> bool) (cs : list Char) : list Char :=
  match cs with
  | c :: r => if blank c then lstrip blank r else cs
  | [] => []
  end.

Fixpoint rstrip (blank : Char -> bool) (cs : list Char) : list Char :=
  match cs with
  | c :: r =>
      match rstrip blank r with
      | [] => if blank c then [] else [c]
      | r' => c :: r'
      end
  | [] => []
  end.

(** [s.strip()]. *)
Definition strip (py : Interpreter) (s : string) : string :=
  text (rstrip (is_space py) (lstrip (is_space py) (chars s))).

Definition lower_ascii (a : ascii) : ascii :=
  let n := nat_of_ascii a in
  if (65 <=? n)%nat && (n <=? 90)%nat then ascii_of_nat (n + 32) else a.

Fixpoint lower (s : string) : string :=
  match s with
  | String a r => String (lower_ascii a) (lower r)
  | EmptyString => EmptyString
  end.

(** [needle in hay]. *)
Fixpoint contains (needle hay : string) : bool :=
  String.prefix needle hay ||
  match hay with
  | String _ r => contains needle r
  | EmptyString => false
  end.

(** [s.split(sep)[0]] for a one character separator. *)
Fixpoint before (sep : ascii) (s : string) : string :=
  match s with
  | String a r => if Ascii.eqb a sep then EmptyString else String a (before sep r)
  | EmptyString => EmptyString
  end.

(** The blanks [int] skips around a literal: of the ASCII characters only
    TAB, LF, VT, FF, CR and the blank. *)
Definition int_space (py : Interpreter) (c : Char) : bool :=
  match fst c with
  | Some n => if (n <? 128)%N then within 9 13 n || (n =? 32)%N else isspace py n
  | None => false
  end.

(** The value of a decimal digit, ASCII or not. *)
Definition digit_of (py : Interpreter) (c : Char) : option Z :=
  match fst c with
  | Some n =>
      if (n <? 128)%N
      then if within 48 57 n then Some (Z.of_N n - 48) else None
      else decimal py n
  | None => None
  end.

Definition is_code (n : N) (c : Char) : bool :=
  match fst c with
  | Some m => (m =? n)%N
  | None => false
  end.

(** The digits of an integer literal: one or more decimal digits, where a
    single underscore may sit between two digits.  The result is the value
    and the number of digits read. *)
Fixpoint digits (py : Interpreter) (acc : Z) (count : nat) (after_digit : bool)
    (cs : list Char) : option (Z * nat) :=
  match cs with
  | [] => if after_digit then Some (acc, count) else None
  | c :: r =>
      match digit_of py c with
      | Some d => digits py (10 * acc + d) (S count) true r
      | None =>
          if is_code 95 c && after_digit then digits py acc count false r
          else None
      end
  end.

(** A literal of more than 640 digits is refused when it has more digits
    than the interpreter's limit. *)
Definition over_limit (py : Interpreter) (count : nat) : bool :=
  negb (int_max_str_digits py =? 0)%nat
  && (Nat.max 640 (int_max_str_digits py) <? count)%nat.

Definition number (py : Interpreter) (cs : list Char) : option Z :=
  match digits py 0 0 false cs with
  | Some (v, count) => if over_limit py count then None else Some v
  | None => None
  end.

(** [int(s)] in base ten: surrounding blanks, an optional sign, digits.
    [None] stands for [ValueError]. *)
Definition int (py : Interpreter) (s : string) : option Z :=
  match rstrip (int_space py) (lstrip (int_space py) (chars s)) with
  | c :: r =>
      if is_code 45 c then Z.opp <$> number py r
      else if is_code 43 c then number py r
      else number py (c :: r)
  | [] => None
  end.

End PyStr.

(** ** The command line

    What [main] declares with [add_argument], the namespace [parse_args]
    hands back, and [parse_args] itself for command lines whose words are
    operands, options written in full, and the values of options as
    separate words.  Other forms ([--path=x], [-px], [-ap], shortened long
    options, [--], words that look like negative numbers) are left out:
    on them [parse_args] below gives no outcome. *)

Module argparse.

(** The actions used: ['store'] (the default), ['store_true'], and
    ['help'], the action of the option the parser declares itself. *)
Inductive Action : Type := store | store_true | show_help.

Record Argument : Type := {
  name_or_flags : list string;
  nargs : option string;
  default : option string;
  action : Action;
  help : string
}.

Record Namespace : Type := {
  url : option string;
  path : string;
  audio : bool;
  quality : option string;
  playlist : bool
}.

(** An argument is an option when its names start with a dash, else it is
    positional. *)
Definition is_option (a : Argument) : bool :=
  forallb (String.prefix "-") (name_or_flags a).


Record ArgumentParser : Type := {
  description : string;
  actions : list Argument
}.

Definition help_argument : Argument :=
  {| name_or_flags := ["-h"; "--help"];
     nargs := None;
     default := None;
     action := show_help;
     help := "show this help message and exit" |}.

(** [ArgumentParser(description=...)]: [add_help] is true unless the
    caller says otherwise, and the parser then starts with [-h/--help]. *)
Definition new (description : string) : ArgumentParser :=
  {| description := description; actions := [help_argument] |}.

Definition add_argument (parser : ArgumentParser) (a : Argument)
    : ArgumentParser :=
  {| description := description parser; actions := actions parser ++ [a] |}.

Definition option_strings (parser : ArgumentParser) : list string :=
  flat_map name_or_flags (filter (fun a => is_option a = true) (actions parser)).

Definition find_action (parser : ArgumentParser) (word : string)
    : option Argument :=
  find (fun a => is_option a && existsb (String.eqb word) (name_or_flags a))
       (actions parser).









(** What a word of the command line is taken for. *)
Inductive Word : Type :=
  | Operand
  | Flag (a : Argument)
  | Unknown.

(** A word that does not start with a dash is an operand, and so is a lone
    dash; a word that is the name of an option is that option.  Of the
    other words, those that no reading as a shortened or combined option,
    as a number or as a word with a blank applies to are unknown options;
    the rest is left out ([None]). *)
Definition classify (parser : ArgumentParser) (word : string) : option Word :=
  if negb (String.prefix "-" word) then Some Operand
  else
    match find_action parser word with
    | Some a => Some (Flag a)
    | None =>
        if String.eqb word "-" then Some Operand
        else if String.eqb word "--" || PyStr.contains "=" word then None
        else if
          (if String.prefix "--" word
           then existsb (String.prefix word) (option_strings parser)
           else existsb (fun o => String.eqb o (String.substring 0 2 word)
                                  || String.prefix word o)
                        (option_strings parser))
        then None
        else if
          match word with
          | String _ (String c _) =>
              bool_decide (c ∈ ["0"; "1"; "2"; "3"; "4"; "5"; "6"; "7"; "8";
                                "9"; "."]%char)
          | _ => false
          end
        then None
        else if PyStr.contains " " word then None
        else Some Unknown
    end.





End argparse.

(** ** Exceptions *)

(** The exception classes the script can meet.  [KeyboardInterrupt] and
    [SystemExit] derive from [BaseException] only; all others derive from
    [Exception].  [LibraryError] stands for the library's own error classes
    ([yt_dlp.utils.YoutubeDLError] and below). *)
Inductive exn : Type :=
  | KeyboardInterrupt
  | SystemExit (code : Z)
  | ValueError (msg : string)
  | TypeError (msg : string)
  | AttributeError (msg : string)
  | KeyError (msg : string)
  | EOFError
  | IndexError (msg : string)
  | OSError (msg : string)
  | LibraryError (msg : string).

(** [isinstance(e, Exception)]. *)
Definition is_Exception (e : exn) : bool :=
  match e with
  | KeyboardInterrupt | SystemExit _ => false
  | _ => true
  end.

Definition is_ValueError (e : exn) : bool :=
  match e with ValueError _ => true | _ => false end.

Definition is_KeyboardInterrupt (e : exn) : bool :=
  match e with KeyboardInterrupt => true | _ => false end.

(** [str(e)]. *)
Definition str_exn (e : exn) : string :=
  match e with
  | KeyboardInterrupt | EOFError => ""
  | SystemExit c => pretty c
  | ValueError m | TypeError m | AttributeError m | KeyError m
  | IndexError m | OSError m | LibraryError m => m
  end.

(** ** The library's data *)

(** A key of a dictionary handed out by the library: missing, present with
    value [None], or present with a value. *)
Inductive field (A : Type) : Type :=
  | Absent
  | PyNone
  | Val (a : A).
Arguments Absent {A}.
Arguments PyNone {A}.
Arguments Val {A} a.

(** [d.get(k)]: [None] when the key is missing. *)
Definition get {A} (f : field A) : option A :=
  match f with Val a => Some a | _ => None end.

(** [d.get(k, dflt)]: the default only when the key is missing. *)
Definition get_or {A} (dflt : A) (f : field A) : option A :=
  match f with Absent => Some dflt | PyNone => None | Val a => Some a end.

(** Truth values of the objects the script tests with [if]. *)
Definition truthy_num (o : option Z) : bool :=
  match o with Some n => negb (Z.eqb n 0) | None => false end.

Definition truthy_str (o : option string) : bool :=
  match o with Some s => negb (String.eqb s "") | None => false end.

(** [str(x)] of a value that can be [None]. *)
Definition str_opt (o : option string) : string := default "None" o.

Definition str_num (o : option Z) : string :=
  match o with Some n => pretty n | None => "None" end.

(** One format dictionary, as found in [info['formats']] and in
    [info['requested_formats']].  Numbers are taken as integers; a
    [format_id], when present, is a string. *)
Record Format : Type := {
  fmt_format_id : option string;
  fmt_height : field Z;
  fmt_width : field Z;
  fmt_fps : field Z;
  fmt_vcodec : field string;
  fmt_acodec : field string;
  fmt_ext : field string;
  fmt_filesize : field Z;
  fmt_abr : field Z
}.

(** The dictionary [extract_info] returns, restricted to the keys the script
    reads. *)
Record Info : Type := {
  info_title : field string;
  info_duration : field Z;
  info_uploader : field string;
  info_view_count : field Z;
  info_formats : field (list Format);
  info_requested_formats : field (list Format);
  info_entries : field nat;
  info_height : field Z;
  info_width : field Z;
  info_fps : field Z;
  info_vcodec : field string;
  info_acodec : field string
}.

(** Option dictionaries passed to [yt_dlp.YoutubeDL]. *)
Inductive Hook : Type := progress_hook.

Inductive OptVal : Type :=
  | OStr (s : string)
  | OBool (b : bool)
  | OStrs (l : list string)
  | OHooks (l : list Hook)
  | ODicts (l : list (list (string * string))).

Abbreviation Opts := (gmap string OptVal).

(** ** What the script builds *)

(** An element of [available_formats]. *)
Record SmartFormat : Type := {
  selector : string;
  description : string;
  resolution : string;
  height : Z;
  fps : option Z;
  codec : option string;
  type : string;
  display : string
}.

(** An element of the [combined] and [video] lists of [get_manual_formats]
    ([ve_acodec] is only stored for [combined]). *)
Record VideoEntry : Type := {
  ve_format_id : string;
  ve_height : Z;
  ve_ext : option string;
  ve_fps : option Z;
  ve_filesize : option Z;
  ve_vcodec : option string;
  ve_acodec : option (option string)
}.

(** An element of the [audio] list of [get_manual_formats]. *)
Record AudioEntry : Type := {
  ae_format_id : string;
  ae_abr : option Z;
  ae_ext : option string;
  ae_filesize : option Z;
  ae_acodec : option string
}.

Record ManualFormats : Type := {
  combined : list VideoEntry;
  video : list VideoEntry;
  audio : list AudioEntry
}.

Record SmartFormats : Type := {
  info : Info;
  available_formats : list SmartFormat
}.

(** ** The world: terminal, library, trace *)

(** One answer of the user to [input()]: a line, or Ctrl-C.  When the list
    of answers is used up, [input()] raises [EOFError]. *)
Inductive InputEvent : Type :=
  | Line (s : string)
  | CtrlC.

(** A numbered line of the menu.  The columns are kept as data; their
    padding and the rendering of sizes are not modelled. *)
Inductive Row : Type :=
  | RowSmart (f : SmartFormat)
  | RowCombined (f : VideoEntry)
  | RowVideo (f : VideoEntry)
  | RowAudio (f : AudioEntry)
  | RowQuick (description : string).

Inductive Event : Type :=
  | EvPrint (line : string)
  | EvInfo (i : Info)
  | EvRow (num : nat) (r : Row)
  | EvInput (prompt : string)
  | EvMkdir (path : string)
  | EvExtract (opts : Opts) (url : string)
  | EvDownload (opts : Opts) (urls : list string).

Inductive reply (A : Type) : Type :=
  | Returns (a : A)
  | Raises (e : exn).
Arguments Returns {A} a.
Arguments Raises {A} e.

(** Everything outside the script: the library, the file system and the
    interpreter's tables.  The first argument of a call is the number of
    calls made before it, so that the library may answer the same question
    differently each time.  A call stands for the whole
    [with yt_dlp.YoutubeDL(opts) as ydl: ydl.f(...)] block. *)
Record Env : Type := {
  extract_info : nat -> Opts -> string -> reply (option Info);
  download : nat -> Opts -> list string -> reply unit;
  mkdir : nat -> string -> reply unit;
  joinpath : string -> string -> string;
  absolute : string -> string;
  python : PyStr.Interpreter;
  format_help : argparse.ArgumentParser -> string
}.

Record World : Type := {
  stdin : list InputEvent;
  clock : nat;
  trace : list Event
}.

Definition emit (ev : Event) (w : World) : World :=
  {| stdin := stdin w; clock := clock w; trace := trace w ++ [ev] |}.

Definition tick (w : World) : World :=
  {| stdin := stdin w; clock := S (clock w); trace := trace w |}.

(** ** Computations that may raise *)

Inductive result (A : Type) : Type :=
  | Ret (a : A)
  | Exc (e : exn).
Arguments Ret {A} a.
Arguments Exc {A} e.

Definition M (A : Type) : Type := World -> result A * World.

Definition ret {A} (a : A) : M A := fun w => (Ret a, w).

Definition raise {A} (e : exn) : M A := fun w => (Exc e, w).

Definition bind {A B} (m : M A) (k : A -> M B) : M B :=
  fun w =>
    match m w with
    | (Ret a, w') => k a w'
    | (Exc e, w') => (Exc e, w')
    end.

Notation "x <- m ;; k" := (bind m (fun x => k))
  (at level 100, m at next level, right associativity).
Notation "m ;;; k" := (bind m (fun _ => k))
  (at level 100, right associativity).

(** A bare [except:] takes everything. *)
Definition anything (e : exn) : bool := true.

Definition print (line : string) : M unit :=
  fun w => (Ret tt, emit (EvPrint line) w).

Definition log (ev : Event) : M unit := fun w => (Ret tt, emit ev w).

Definition of_reply {A} (r : reply A) : M A :=
  match r with Returns a => ret a | Raises e => raise e end.

Definition of_result {A} (r : result A) : M A := fun w => (r, w).

(** [try: body] followed by [except] clauses, tried in order; an exception no
    clause takes goes on to the caller. *)
Fixpoint handle {A} (clauses : list ((exn -> bool) * (exn -> M A)))
    (e : exn) : M A :=
  match clauses with
  | [] => raise e
  | (catches, handler) :: rest =>
      if catches e then handler e else handle rest e
  end.

Definition try_ {A} (body : M A)
    (clauses : list ((exn -> bool) * (exn -> M A))) : M A :=
  fun w =>
    match body w with
    | (Exc e, w') => handle clauses e w'
    | r => r
    end.

(** [for x in l: s = body x s]. *)
Fixpoint for_each {A S} (l : list A) (body : A -> S -> M S) (s : S) : M S :=
  match l with
  | [] => ret s
  | x :: r => s' <- body x s ;; for_each r body s'
  end.

(** [input(prompt)]. *)
Definition input (prompt : string) : M string :=
  fun w =>
    let tr := (trace w ++ [EvInput prompt])%list in
    match stdin w with
    | [] => (Exc EOFError, {| stdin := []; clock := clock w; trace := tr |})
    | Line s :: r => (Ret s, {| stdin := r; clock := clock w; trace := tr |})
    | CtrlC :: r =>
        (Exc KeyboardInterrupt, {| stdin := r; clock := clock w; trace := tr |})
    end.

(** [l.sort(key=key, reverse=True)] on integer keys: a stable sort, largest
    key first. *)
Fixpoint insert_desc {A} (key : A -> Z) (x : A) (l : list A) : list A :=
  match l with
  | [] => [x]
  | y :: r => if Z.ltb (key x) (key y) then y :: insert_desc key x r else x :: l
  end.

Definition sort_desc {A} (key : A -> Z) (l : list A) : list A :=
  foldr (insert_desc key) [] l.

Definition nl : string := String (ascii_of_nat 10) "".

(** ["c" * n]. *)
Fixpoint repeat_str (s : string) (n : nat) : string :=
  match n with
  | O => ""
  | S n => s ++ repeat_str s n
  end.


(** ** The downloader *)

Section Program.

Variable E : Env.

(** One library call: it is recorded in the trace, then the library
    answers. *)
Definition call_extract (opts : Opts) (url : string) : M (option Info) :=
  fun w => of_reply (extract_info E (clock w) opts url)
             (tick (emit (EvExtract opts url) w)).

Definition call_download (opts : Opts) (urls : list string) : M unit :=
  fun w => of_reply (download E (clock w) opts urls)
             (tick (emit (EvDownload opts urls) w)).

Definition call_mkdir (path : string) : M unit :=
  fun w => of_reply (mkdir E (clock w) path) (tick (emit (EvMkdir path) w)).

Record YouTubeDownloader : Type := {
  download_path : string;
  base_opts : Opts
}.

(** [YouTubeDownloader.__init__]: the folder is created, then the base
    options are set. *)
Definition new_downloader (download_path : string) : YouTubeDownloader :=
  {| download_path := download_path;
     base_opts :=
       <["outtmpl" := OStr (joinpath E download_path "%(title)s.%(ext)s")]>
       (<["writeinfojson" := OBool true]>
       (<["writesubtitles" := OBool true]>
       (<["writeautomaticsub" := OBool true]>
       (<["subtitleslangs" := OStrs ["es"; "en"]]>
       (<["ignoreerrors" := OBool true]>
       (<["progress_hooks" := OHooks [progress_hook]]>
       (<["quiet" := OBool true]>
       (<["no_warnings" := OBool true]> ∅)))))))) |}.

Definition init (download_path : string) : M YouTubeDownloader :=
  call_mkdir download_path ;;; ret (new_downloader download_path).

(** *** test_format_availability *)

Definition test_formats : list (string * string) :=
  [ ("best", "Mejor calidad automática");
    ("bestvideo+bestaudio/best", "Mejor video + audio");
    ("worst", "Peor calidad");
    ("bestvideo[height<=2160]+bestaudio/best", "Hasta 4K (2160p)");
    ("bestvideo[height<=1440]+bestaudio/best", "Hasta 2K (1440p)");
    ("bestvideo[height<=1080]+bestaudio/best", "Hasta 1080p");
    ("bestvideo[height<=720]+bestaudio/best", "Hasta 720p");
    ("bestvideo[height<=480]+bestaudio/best", "Hasta 480p");
    ("bestvideo[height<=360]+bestaudio/best", "Hasta 360p") ].

Definition quiet_opts : Opts :=
  <["quiet" := OBool true]> (<["no_warnings" := OBool true]> ∅).

Definition test_opts : Opts :=
  <["quiet" := OBool true]>
  (<["no_warnings" := OBool true]>
  (<["simulate" := OBool true]>
  (<["forceprint" :=
       OStrs ["format_id"; "resolution"; "ext"; "filesize_approx"]]> ∅))).

(** [codec != 'none'], for a codec that may be [None]. *)
Definition not_none (codec : option string) : bool :=
  negb (bool_decide (codec = Some "none")).

(** [fmt.get(key, 'none') != 'none']. *)
Definition has_codec (c : field string) : bool := not_none (get_or "none" c).

(** The loop over [requested_formats]: the last format with a video codec.
    (The loop also records an [audio_format], which nothing reads.) *)
Definition video_format (fmts : list Format) : option Format :=
  fold_left (fun v fmt => if has_codec (fmt_vcodec fmt) then Some fmt else v)
            fmts None.

Definition fps_info (fps : option Z) : string :=
  if truthy_num fps then " @" ++ str_num fps ++ "fps" else "".

Definition codec_info (vcodec : option string) : string :=
  if truthy_str vcodec then " (" ++ PyStr.before "." (default "" vcodec) ++ ")"
  else "".

(** The entry a probe with the combined ([requested_formats]) answer adds. *)
Definition combined_entry (format_selector description : string)
    (vf : Format) : SmartFormat :=
  let height := get (fmt_height vf) in
  let width := get (fmt_width vf) in
  let fps := get (fmt_fps vf) in
  let vcodec := get_or "" (fmt_vcodec vf) in
  let resolution :=
    if truthy_num width && truthy_num height
    then str_num width ++ "x" ++ str_num height
    else if truthy_num height then str_num height ++ "p" else "N/A" in
  {| selector := format_selector;
     description := description;
     resolution := resolution;
     height := default 0 height;
     fps := fps;
     codec := vcodec;
     type := "combined_separate";
     display := resolution ++ fps_info fps ++ codec_info vcodec |}.

(** The entry a probe with a direct answer adds, for a true [height]. *)
Definition direct_entry (format_selector description : string)
    (test_info : Info) (height : Z) : SmartFormat :=
  let width := get (info_width test_info) in
  let fps := get (info_fps test_info) in
  let vcodec := get_or "" (info_vcodec test_info) in
  let acodec := get_or "" (info_acodec test_info) in
  let resolution :=
    if truthy_num width && truthy_num (Some height)
    then str_num width ++ "x" ++ pretty height
    else pretty height ++ "p" in
  let format_type :=
    if truthy_str acodec && not_none acodec
    then "combined_direct" else "video_only" in
  {| selector := format_selector;
     description := description;
     resolution := resolution;
     height := height;
     fps := fps;
     codec := vcodec;
     type := format_type;
     display := resolution ++ fps_info fps ++ codec_info vcodec |}.

(** What one probe appends to [available_formats], from the library's
    answer: nothing, one entry, or an exception. *)
Definition probe_entries (format_selector description : string)
    (test_info : option Info) : result (list SmartFormat) :=
  match test_info with
  | None => Exc (TypeError "argument of type 'NoneType' is not iterable")
  | Some test_info =>
      match info_requested_formats test_info with
      | Val fmts =>
          match video_format fmts with
          | Some vf => Ret [combined_entry format_selector description vf]
          | None => Ret []
          end
      | PyNone => Exc (TypeError "'NoneType' object is not iterable")
      | Absent =>
          match get (info_height test_info) with
          | Some h =>
              if truthy_num (Some h)
              then Ret [direct_entry format_selector description test_info h]
              else Ret []
          | None => Ret []
          end
      end
  end.

(** The body of the [for] loop over [test_formats], with its bare
    [except: continue]. *)
Definition probe (url : string) (candidate : string * string)
    (st : Opts * list SmartFormat) : M (Opts * list SmartFormat) :=
  let '(format_selector, description) := candidate in
  let '(test_opts, available_formats) := st in
  let test_opts := <["format" := OStr format_selector]> test_opts in
  try_ (test_info <- call_extract test_opts url ;;
        new <- of_result (probe_entries format_selector description test_info) ;;
        ret (test_opts, (available_formats ++ new)%list))
       [(anything, fun _ => ret (test_opts, available_formats))].

Definition test_format_availability (url : string) : M (option SmartFormats) :=
  print "🔍 Detectando calidades reales disponibles..." ;;;
  try_ (info <- call_extract quiet_opts url ;;
        match info with
        | None =>
            raise (AttributeError "'NoneType' object has no attribute 'get'")
        | Some info =>
            st <- for_each test_formats (probe url) (test_opts, []) ;;
            ret (Some {| info := info; available_formats := snd st |})
        end)
       [(is_Exception,
         fun e => print ("❌ Error al detectar formatos: " ++ str_exn e) ;;;
                  ret None)].

(** *** get_manual_formats *)

(** [f['format_id']]. *)
Definition item_format_id (f : Format) : M string :=
  match fmt_format_id f with
  | Some id => ret id
  | None => raise (KeyError "'format_id'")
  end.

(** The body of the loop over [info['formats']]. *)
Definition classify (f : Format) (acc : ManualFormats) : M ManualFormats :=
  let height := get (fmt_height f) in
  let vcodec := get_or "none" (fmt_vcodec f) in
  let acodec := get_or "none" (fmt_acodec f) in
  if not_none vcodec && not_none acodec && truthy_num height then
    id <- item_format_id f ;;
    ret {| combined :=
             combined acc ++
             [{| ve_format_id := id; ve_height := default 0 height;
                 ve_ext := get_or "unknown" (fmt_ext f);
                 ve_fps := get (fmt_fps f);
                 ve_filesize := get_or 0 (fmt_filesize f);
                 ve_vcodec := vcodec; ve_acodec := Some acodec |}];
           video := video acc; audio := audio acc |}
  else if not_none vcodec && truthy_num height then
    id <- item_format_id f ;;
    ret {| combined := combined acc;
           video :=
             video acc ++
             [{| ve_format_id := id; ve_height := default 0 height;
                 ve_ext := get_or "unknown" (fmt_ext f);
                 ve_fps := get (fmt_fps f);
                 ve_filesize := get_or 0 (fmt_filesize f);
                 ve_vcodec := vcodec; ve_acodec := None |}];
           audio := audio acc |}
  else if not_none acodec then
    id <- item_format_id f ;;
    ret {| combined := combined acc; video := video acc;
           audio :=
             audio acc ++
             [{| ae_format_id := id; ae_abr := get (fmt_abr f);
                 ae_ext := get_or "unknown" (fmt_ext f);
                 ae_filesize := get_or 0 (fmt_filesize f);
                 ae_acodec := acodec |}] |}
  else ret acc.

(** [audio_formats.sort(key=lambda x: x.get('abr', 0), reverse=True)]: every
    entry has the key, so a bitrate [None] is compared as soon as there are
    two entries, and comparing [None] raises. *)
Definition sort_audio (l : list AudioEntry) : M (list AudioEntry) :=
  if (2 <=? length l)%nat && existsb (fun x => negb (bool_decide (is_Some (ae_abr x)))) l
  then raise (TypeError "'<' not supported between instances of 'NoneType'")
  else ret (sort_desc (fun x => default 0 (ae_abr x)) l).

Definition no_formats : ManualFormats :=
  {| combined := []; video := []; audio := [] |}.

Definition get_manual_formats (url : string) : M ManualFormats :=
  try_ (info <- call_extract quiet_opts url ;;
        match info with
        | None =>
            raise (AttributeError "'NoneType' object has no attribute 'get'")
        | Some info =>
            match get_or [] (info_formats info) with
            | None => raise (TypeError "'NoneType' object is not iterable")
            | Some formats =>
                found <- for_each formats classify no_formats ;;
                audio_formats <- sort_audio (audio found) ;;
                ret {| combined := sort_desc ve_height (combined found);
                       video := sort_desc ve_height (video found);
                       audio := audio_formats |}
            end
        end)
       [(anything, fun _ => ret no_formats)].

(** *** select_quality *)

(** The menu under construction. *)
Record Menu : Type := {
  all_options : list string;
  option_num : nat
}.

(** One numbered line: print it, append its selector, count it. *)
Definition add_option (r : Row) (sel : string) (m : Menu) : M Menu :=
  log (EvRow (option_num m) r) ;;;
  ret {| all_options := all_options m ++ [sel];
         option_num := S (option_num m) |}.

(** [fmt['ext'].upper()], evaluated while the line is formatted. *)
Definition upper_ext (ext : option string) : M unit :=
  match ext with
  | Some _ => ret tt
  | None => raise (AttributeError "'NoneType' object has no attribute 'upper'")
  end.

(** The loop that removes duplicate heights, with its two accumulators. *)
Fixpoint unique_by_height (l : list SmartFormat) (seen_heights : gset Z)
    (unique_formats : list SmartFormat) : list SmartFormat :=
  match l with
  | [] => unique_formats
  | fmt :: r =>
      if Z.ltb 0 (height fmt) && negb (bool_decide (height fmt ∈ seen_heights))
      then unique_by_height r ({[height fmt]} ∪ seen_heights)
                            (unique_formats ++ [fmt])
      else unique_by_height r seen_heights unique_formats
  end.

(** The formats listed in the first section of the menu. *)
Definition unique_formats (smart_formats : SmartFormats) : list SmartFormat :=
  sort_desc height (unique_by_height (available_formats smart_formats) ∅ []).

Definition smart_row (fmt : SmartFormat) (m : Menu) : M Menu :=
  if Z.ltb 0 (height fmt) then add_option (RowSmart fmt) (selector fmt) m
  else ret m.

Definition combined_row (fmt : VideoEntry) (m : Menu) : M Menu :=
  upper_ext (ve_ext fmt) ;;; add_option (RowCombined fmt) (ve_format_id fmt) m.

Definition video_row (fmt : VideoEntry) (m : Menu) : M Menu :=
  upper_ext (ve_ext fmt) ;;;
  add_option (RowVideo fmt) (ve_format_id fmt ++ "+bestaudio") m.

Definition audio_row (fmt : AudioEntry) (m : Menu) : M Menu :=
  upper_ext (ae_ext fmt) ;;; add_option (RowAudio fmt) (ae_format_id fmt) m.

(** [if l: print(title); print(rule); for fmt in l[:5]: ...]. *)
Definition menu_section {A} (title : string) (l : list A)
    (row : A -> Menu -> M Menu) (m : Menu) : M Menu :=
  match l with
  | [] => ret m
  | _ =>
      print (nl ++ title) ;;; print (repeat_str "-" 70) ;;;
      for_each (take 5 l) row m
  end.

Definition quick_options : list (string * string) :=
  [ ("best", "🚀 Mejor calidad automática");
    ("bestvideo+bestaudio/best", "⭐ Mejor video + audio (recomendado)");
    ("worst", "📱 Calidad más baja (móvil)") ].

Definition quick_row (q : string * string) (m : Menu) : M Menu :=
  add_option (RowQuick (snd q)) (fst q) m.

(** Everything [select_quality] prints between the header and the prompt;
    the result is the list of selectors, in menu order. *)
Definition build_menu (smart_formats : SmartFormats)
    (manual_formats : ManualFormats) : M Menu :=
  print (nl ++ "🎯 CALIDADES REALES DISPONIBLES (Recomendado)") ;;;
  print (repeat_str "-" 70) ;;;
  m <- for_each (unique_formats smart_formats) smart_row
         {| all_options := []; option_num := 1 |} ;;
  m <- menu_section "📋 FORMATOS COMBINADOS DIRECTOS (De la API)"
         (combined manual_formats) combined_row m ;;
  m <- menu_section "🎥 SOLO VIDEO (Máxima calidad + audio por separado)"
         (video manual_formats) video_row m ;;
  m <- menu_section "🎵 SOLO AUDIO" (audio manual_formats) audio_row m ;;
  print (nl ++ "⚡ OPCIONES RÁPIDAS") ;;;
  print (repeat_str "-" 70) ;;;
  m <- for_each quick_options quick_row m ;;
  print (nl ++ repeat_str "=" 80) ;;;
  print "💡 NOTA: Las opciones marcadas con 🎯 muestran las calidades REALES" ;;;
  print "   disponibles, incluyendo 2K/4K que YouTube a veces oculta en la API" ;;;
  ret m.

Definition prompt (all_options : list string) : string :=
  nl ++ "Selecciona una opción (1-" ++ pretty (length all_options)
     ++ ") o 'q' para salir: ".

(** The [while True] loop of the picker, by recursion on the answers still
    to come: every turn of the loop reads one.  The result is what the turn
    prints, how the loop ends, and the answers left over.

    - no answer left: [input] raises [EOFError], which no clause takes;
    - Ctrl-C: the [except KeyboardInterrupt] clause returns [None];
    - ['q'] in either case: [None];
    - not an integer: the [except ValueError] clause prints and the loop
      goes round;
    - an integer: it is accepted when [0 <= choice_num < len(all_options)],
      else the loop prints and goes round. *)
Fixpoint ask (all_options : list string) (ins : list InputEvent)
    : list Event * result (option string) * list InputEvent :=
  let asked := EvInput (prompt all_options) in
  match ins with
  | [] => ([asked], Exc EOFError, [])
  | CtrlC :: rest =>
      ([asked; EvPrint (nl ++ nl ++ "👋 Saliendo...")], Ret None, rest)
  | Line s :: rest =>
      let choice := PyStr.strip (python E) s in
      if String.eqb (PyStr.lower choice) "q" then ([asked], Ret None, rest)
      else
        match PyStr.int (python E) choice with
        | None =>
            let '(evs, r, rest') := ask all_options rest in
            (asked :: EvPrint "❌ Por favor, introduce un número válido" :: evs,
             r, rest')
        | Some n =>
            let choice_num := n - 1 in
            if Z.leb 0 choice_num
               && Z.ltb choice_num (Z.of_nat (length all_options))
            then
              match all_options !! Z.to_nat choice_num with
              | Some selected_format =>
                  ([asked; EvPrint ("✅ Seleccionado: " ++ selected_format)],
                   Ret (Some selected_format), rest)
              | None =>
                  ([asked], Exc (IndexError "list index out of range"), rest)
              end
            else
              let '(evs, r, rest') := ask all_options rest in
              (asked
                 :: EvPrint ("❌ Opción inválida. Selecciona entre 1 y "
                             ++ pretty (length all_options))
                 :: evs,
               r, rest')
        end
  end.

Definition choose (all_options : list string) : M (option string) :=
  fun w =>
    let '(evs, r, rest) := ask all_options (stdin w) in
    (r, {| stdin := rest; clock := clock w; trace := trace w ++ evs |}).

Definition default_selector : string := "bestvideo+bestaudio/best".

Definition select_quality (url : string) : M (option string) :=
  smart_formats <- test_format_availability url ;;
  manual_formats <- get_manual_formats url ;;
  match smart_formats with
  | None =>
      print "❌ No se pudo obtener información del video" ;;;
      ret (Some default_selector)
  | Some smart_formats =>
      log (EvInfo (info smart_formats)) ;;;
      print (nl ++ repeat_str "=" 80) ;;;
      print "CALIDADES DETECTADAS" ;;;
      print (repeat_str "=" 80) ;;;
      m <- build_menu smart_formats manual_formats ;;
      choose (all_options m)
  end.

(** *** The three downloads *)

(** [format_selector = self.select_quality(url)] when none was given. *)
Definition chosen_format (url : string) (format_selector : option string)
    : M (option string) :=
  match format_selector with
  | None => select_quality url
  | Some f => ret (Some f)
  end.

Definition download_video (self : YouTubeDownloader) (url : string)
    (format_selector : option string) : M unit :=
  try_ (format_selector <- chosen_format url format_selector ;;
        match format_selector with
        | None => print "❌ Descarga cancelada"
        | Some format_selector =>
            let opts := <["format" := OStr format_selector]> (base_opts self) in
            print (nl ++ "🚀 Iniciando descarga...") ;;;
            print ("📁 Carpeta: " ++ absolute E (download_path self)) ;;;
            print ("🎯 Formato: " ++ format_selector) ;;;
            print (repeat_str "-" 50) ;;;
            call_download opts [url] ;;;
            print (nl ++ "🎉 ¡Descarga completada exitosamente!")
        end)
       [(is_Exception,
         fun e =>
           print (nl ++ "❌ Error al descargar: " ++ str_exn e) ;;;
           print "💡 Sugerencia: Intenta con 'bestvideo+bestaudio/best' como formato")].

(** [confirm.lower() not in ['y', 'yes', 's', 'si']]. *)
Definition declined (confirm : string) : bool :=
  negb (bool_decide (PyStr.lower confirm ∈ ["y"; "yes"; "s"; "si"])).

(** The look at the playlist before its download: [true] when the download
    goes ahead. *)
Definition confirm_playlist (url : string) : M bool :=
  info <- call_extract (<["quiet" := OBool true]> ∅) url ;;
  match info with
  | None => raise (TypeError "argument of type 'NoneType' is not iterable")
  | Some info =>
      match info_entries info with
      | Absent => ret true
      | PyNone =>
          print (nl ++ "📋 Playlist: " ++ str_opt (get_or "N/A" (info_title info))) ;;;
          raise (TypeError "object of type 'NoneType' has no len()")
      | Val n =>
          print (nl ++ "📋 Playlist: " ++ str_opt (get_or "N/A" (info_title info))) ;;;
          print ("📊 Videos: " ++ pretty n) ;;;
          confirm <- input (nl ++ "¿Descargar toda la playlist? (y/n): ") ;;
          if declined confirm then print "❌ Descarga cancelada" ;;; ret false
          else ret true
      end
  end.

Definition download_playlist (self : YouTubeDownloader) (url : string)
    (format_selector : option string) : M unit :=
  try_ (format_selector <- chosen_format url format_selector ;;
        match format_selector with
        | None => print "❌ Descarga cancelada"
        | Some format_selector =>
            let opts :=
              <["outtmpl" :=
                  OStr (joinpath E (download_path self)
                          "%(playlist)s/%(playlist_index)s - %(title)s.%(ext)s")]>
              (<["format" := OStr format_selector]> (base_opts self)) in
            go <- confirm_playlist url ;;
            if go : bool then
              print (nl ++ "🚀 Iniciando descarga de playlist...") ;;;
              print ("📁 Carpeta: " ++ absolute E (download_path self)) ;;;
              print ("🎯 Formato: " ++ format_selector) ;;;
              print (repeat_str "-" 50) ;;;
              call_download opts [url] ;;;
              print (nl ++ "🎉 ¡Playlist descargada completamente!")
            else ret tt
        end)
       [(is_Exception,
         fun e => print (nl ++ "❌ Error al descargar playlist: " ++ str_exn e))].

Definition audio_opts (self : YouTubeDownloader) : Opts :=
  <["format" := OStr "bestaudio/best"]>
  (<["postprocessors" :=
       ODicts [[("key", "FFmpegExtractAudio");
                ("preferredcodec", "mp3");
                ("preferredquality", "320")]]]>
   (base_opts self)).

Definition download_audio_only (self : YouTubeDownloader) (url : string)
    : M unit :=
  try_ (let opts := audio_opts self in
        print (nl ++ "🎵 Descargando audio en formato MP3...") ;;;
        print ("📁 Carpeta: " ++ absolute E (download_path self)) ;;;
        print (repeat_str "-" 50) ;;;
        call_download opts [url] ;;;
        print (nl ++ "🎉 ¡Audio descargado exitosamente!"))
       [(is_Exception,
         fun e => print (nl ++ "❌ Error al descargar audio: " ++ str_exn e))].

(** *** main *)

(** The arguments [main] declares, one for each call of [add_argument]. *)
Definition arguments : list argparse.Argument :=
  [ {| argparse.name_or_flags := ["url"];
       argparse.nargs := Some "?";
       argparse.default := None;
       argparse.action := argparse.store;
       argparse.help := "URL del video de YouTube" |};
    {| argparse.name_or_flags := ["-p"; "--path"];
       argparse.nargs := None;
       argparse.default := Some "./downloads";
       argparse.action := argparse.store;
       argparse.help := "Carpeta de descarga" |};
    {| argparse.name_or_flags := ["-a"; "--audio"];
       argparse.nargs := None;
       argparse.default := None;
       argparse.action := argparse.store_true;
       argparse.help := "Descargar solo audio (MP3)" |};
    {| argparse.name_or_flags := ["-q"; "--quality"];
       argparse.nargs := None;
       argparse.default := None;
       argparse.action := argparse.store;
       argparse.help := "Formato específico" |};
    {| argparse.name_or_flags := ["--playlist"];
       argparse.nargs := None;
       argparse.default := None;
       argparse.action := argparse.store_true;
       argparse.help := "Descargar playlist completa" |} ].

Definition banner : list string :=
  [ "🎬" ++ repeat_str "=" 78 ++ "🎬";
    "                    YOUTUBE DOWNLOADER FINAL";
    "                 Detección real de todas las calidades";
    "🎬" ++ repeat_str "=" 78 ++ "🎬" ].

Definition url_prompt : string :=
  nl ++ "📎 Introduce la URL del video de YouTube: ".

(** The test of [main] on the URL: it passes when the text holds
    ['youtube.com'] or ['youtu.be']. *)
Definition valid_url (url : string) : bool :=
  PyStr.contains "youtube.com" url || PyStr.contains "youtu.be" url.

Definition invalid_url_message : string :=
  "❌ URL no válida. Debe ser de YouTube.".

(** [args.url] after the prompt: the argument when it is given and not
    empty, else the line typed at the prompt, stripped. *)
Definition read_url (args : argparse.Namespace) : M string :=
  if truthy_str (argparse.url args) then ret (default "" (argparse.url args))
  else s <- input url_prompt ;; ret (PyStr.strip (python E) s).

(** What [main] does once the URL passed the test. *)
Definition dispatch (args : argparse.Namespace) (url : string) : M unit :=
  downloader <- init (argparse.path args) ;;
  try_ (if argparse.audio args then download_audio_only downloader url
        else if argparse.playlist args || PyStr.contains "playlist" url
        then download_playlist downloader url (argparse.quality args)
        else download_video downloader url (argparse.quality args))
       [(is_KeyboardInterrupt,
         fun _ => print (nl ++ nl ++ "👋 Descarga interrumpida por el usuario"));
        (is_Exception,
         fun e => print (nl ++ "❌ Error inesperado: " ++ str_exn e))].

(** [sys.exit(1)] raises [SystemExit(1)]; nothing in [main] takes it. *)
Definition main (args : argparse.Namespace) : M unit :=
  for_each banner (fun line _ => print line) tt ;;;
  url <- read_url args ;;
  if String.eqb url "" then print "❌ URL requerida" ;;; raise (SystemExit 1)
  else if negb (valid_url url)
  then print invalid_url_message ;;; raise (SystemExit 1)
  else dispatch args url.

(** The parser [main] builds: the constructor, then the five calls of
    [add_argument]. *)
Definition parser : argparse.ArgumentParser :=
  fold_left argparse.add_argument arguments
    (argparse.new "Descargador de YouTube con detección real de calidades").


End Program.

(** ** Notions used to state the properties *)

Section Notions.

Variable E : Env.

(** What a probe contributes, given the library's answer to it: the
    entries of an answer that went through, nothing when the library or the
    reading of its answer raised. *)
Definition kept (answer : reply (option Info)) (candidate : string * string)
    : list SmartFormat :=
  match answer with
  | Returns test_info =>
      match probe_entries (fst candidate) (snd candidate) test_info with
      | Ret entries => entries
      | Exc _ => []
      end
  | Raises _ => []
  end.

(** The entries of the probes of [candidates], the first of which is the
    library's call number [n]. *)
Fixpoint gathered (opts : Opts) (url : string) (n : nat)
    (candidates : list (string * string)) : list SmartFormat :=
  match candidates with
  | [] => []
  | c :: rest =>
      kept (extract_info E n (<["format" := OStr (fst c)]> opts) url) c
      ++ gathered opts url (S n) rest
  end.

(** The library calls of the probes of [candidates]. *)
Definition probe_calls (opts : Opts) (url : string)
    (candidates : list (string * string)) : list Event :=
  map (fun c => EvExtract (<["format" := OStr (fst c)]> opts) url) candidates.

(** The first line of detection, and the line of the fallback. *)
Definition detecting : Event :=
  EvPrint "🔍 Detectando calidades reales disponibles...".

Definition no_information : Event :=
  EvPrint "❌ No se pudo obtener información del video".

(** An answer to the picker that is neither ['q'] (in either case, blanks
    aside) nor an integer between 1 and the number of options. *)
Definition rejected (all_options : list string) (s : string) : Prop :=
  PyStr.lower (PyStr.strip (python E) s) <> "q"
  /\ (PyStr.int (python E) (PyStr.strip (python E) s) = None
      \/ exists c, PyStr.int (python E) (PyStr.strip (python E) s) = Some c
                   /\ (c < 1 \/ Z.of_nat (length all_options) < c)).

(** [f] is the first format of [l] with its height. *)
Definition first_with_height (l : list SmartFormat) (f : SmartFormat) : Prop :=
  exists l1 l2,
    l = (l1 ++ f :: l2)%list /\ Forall (fun g => height g <> height f) l1.

(** The numbered lines of the first section of the menu. *)
Definition smart_rows (first : nat) (l : list SmartFormat) : list Event :=
  imap (fun k fmt => EvRow (first + k) (RowSmart fmt)) l.

(** What the three downloads print when they catch [e]. *)
Definition video_failed (e : exn) : list Event :=
  [EvPrint (nl ++ "❌ Error al descargar: " ++ str_exn e);
   EvPrint "💡 Sugerencia: Intenta con 'bestvideo+bestaudio/best' como formato"].

Definition playlist_failed (e : exn) : list Event :=
  [EvPrint (nl ++ "❌ Error al descargar playlist: " ++ str_exn e)].

Definition audio_failed (e : exn) : list Event :=
  [EvPrint (nl ++ "❌ Error al descargar audio: " ++ str_exn e)].

(** What [download_video] prints before it calls the library. *)
Definition video_starts (self : YouTubeDownloader) (format_selector : string)
    : list Event :=
  [EvPrint (nl ++ "🚀 Iniciando descarga...");
   EvPrint ("📁 Carpeta: " ++ absolute E (download_path self));
   EvPrint ("🎯 Formato: " ++ format_selector);
   EvPrint (repeat_str "-" 50)].

(** The options [download_playlist] hands to the library. *)
Definition playlist_opts (self : YouTubeDownloader) (format_selector : string)
    : Opts :=
  <["outtmpl" :=
      OStr (joinpath E (download_path self)
              "%(playlist)s/%(playlist_index)s - %(title)s.%(ext)s")]>
  (<["format" := OStr format_selector]> (base_opts self)).

(** The event is the printing of [line]. *)
Definition prints (line : string) (ev : Event) : bool :=
  match ev with EvPrint s => String.eqb s line | _ => false end.

(** A call to the library or to the file system. *)
Definition is_call (ev : Event) : bool :=
  match ev with
  | EvMkdir _ | EvExtract _ _ | EvDownload _ _ => true
  | _ => false
  end.

(** The opening of [main]: the banner, then the URL, from the command line
    or from the prompt. *)
Definition opening (args : argparse.Namespace) : M string :=
  for_each banner (fun line _ => print line) tt ;;; read_url E args.

(** The world once the banner is printed. *)
Definition greeted (w : World) : World :=
  {| stdin := stdin w; clock := clock w;
     trace := trace w ++ map EvPrint banner |}.

(** Following the specification's words ("non-video-site URLs"): the host of
    a URL is what stands between the scheme and the first of [/ ? # :], in
    lower case; a URL is of the video site when its host is [youtube.com],
    a subdomain of it, or [youtu.be]. *)
Fixpoint after_scheme (url : string) : option string :=
  match url with
  | EmptyString => None
  | String _ r =>
      if String.prefix "://" url then Some (String.substring 3 (String.length r) url)
      else after_scheme r
  end.

Fixpoint until (stop : ascii -> bool) (s : string) : string :=
  match s with
  | String a r => if stop a then EmptyString else String a (until stop r)
  | EmptyString => EmptyString
  end.

Fixpoint ends_with (suffix s : string) : bool :=
  String.eqb suffix s
  || match s with
     | String _ r => ends_with suffix r
     | EmptyString => false
     end.

Definition url_host (url : string) : string :=
  PyStr.lower
    (until (fun a => bool_decide (a ∈ ["/"; "?"; "#"; ":"]%char))
           (default url (after_scheme url))).

Definition video_site_url (url : string) : bool :=
  let host := url_host url in
  String.eqb host "youtube.com" || String.eqb host "youtu.be"
  || ends_with ".youtube.com" host.








(** The bytes of a host as written in the URL. *)
Definition written_host (url : string) : string :=
  until (fun a => bool_decide (a ∈ ["/"; "?"; "#"; ":"]%char))
        (default url (after_scheme url)).

(** An event that reads from the terminal. *)
Definition is_input (ev : Event) : bool :=
  match ev with EvInput _ => true | _ => false end.

(** A computation that leaves the terminal input alone: it reads no answer
    and shows no prompt; all it does to the trace is to add events. *)
Definition reads_nothing {A} (m : M A) : Prop :=
  forall w,
    stdin (snd (m w)) = stdin w
    /\ exists evs,
         trace (snd (m w)) = (trace w ++ evs)%list
         /\ Forall (fun ev => is_input ev = false) evs.

End Notions.

(** ** Sample libraries and worlds, for concrete runs *)

Module Sample.

(** A help text. *)
Definition help_text (parser : argparse.ArgumentParser) : string :=
  "usage: YT_Down.py [-h] [-p PATH] [-a] [-q QUALITY] [--playlist] [url]"
  ++ nl ++ nl ++ argparse.description parser.

(** An interpreter with its usual limit of 4300 digits.  Of the tables it
    has the blanks above ASCII and, of the digits above ASCII, the
    Arabic-Indic and the fullwidth ones. *)
Definition cpython : PyStr.Interpreter :=
  {| PyStr.isspace := fun n =>
       existsb (N.eqb n) [133; 160; 5760; 8232; 8233; 8239; 8287; 12288]%N
       || PyStr.within 8192 8202 n;
     PyStr.decimal := fun n =>
       if PyStr.within 1632 1641 n then Some (Z.of_N n - 1632)
       else if PyStr.within 65296 65305 n then Some (Z.of_N n - 65296)
       else None;
     PyStr.int_max_str_digits := 4300 |}.

(** A direct 1280x720 answer. *)
Definition hd_info : Info :=
  {| info_title := Val "clip"; info_duration := Val 10;
     info_uploader := Absent; info_view_count := Absent;
     info_formats := Absent; info_requested_formats := Absent;
     info_entries := Absent;
     info_height := Val 720; info_width := Val 1280; info_fps := Val 30;
     info_vcodec := Val "avc1.64"; info_acodec := Val "mp4a" |}.

(** A library whose calls number 2 and 5 raise, the first with Ctrl-C, and
    whose downloads succeed. *)
Definition flaky : Env :=
  {| extract_info := fun n _ _ =>
       if (n =? 2)%nat then Raises KeyboardInterrupt
       else if (n =? 5)%nat then Raises (LibraryError "format not available")
       else Returns (Some hd_info);
     download := fun _ _ _ => Returns tt;
     mkdir := fun _ _ => Returns tt;
     joinpath := fun a b => a ++ "/" ++ b;
     absolute := fun a => a;
     python := cpython;
     format_help := help_text |}.

(** A library that answers every question and fails every download. *)
Definition failing (e : exn) : Env :=
  {| extract_info := fun _ _ _ => Returns (Some hd_info);
     download := fun _ _ _ => Raises e;
     mkdir := fun _ _ => Returns tt;
     joinpath := fun a b => a ++ "/" ++ b;
     absolute := fun a => a;
     python := cpython;
     format_help := help_text |}.

(** A library that knows nothing about any URL. *)
Definition offline : Env :=
  {| extract_info := fun _ _ _ => Raises (LibraryError "unable to connect");
     download := fun _ _ _ => Raises (LibraryError "unable to connect");
     mkdir := fun _ _ => Returns tt;
     joinpath := fun a b => a ++ "/" ++ b;
     absolute := fun a => a;
     python := cpython;
     format_help := help_text |}.

Definition typing (answers : list InputEvent) : World :=
  {| stdin := answers; clock := 0; trace := [] |}.

Definition video_url : string := "https://youtu.be/dQw4w9WgXcQ".

(** A page of another site that mentions the video site in its query. *)
Definition other_site_url : string :=
  "https://example.com/watch?from=youtube.com".

(** A video of the video site, its address written in capitals. *)
Definition capitals_url : string :=
  "HTTPS://WWW.YOUTUBE.COM/watch?v=dQw4w9WgXcQ".

(** The command line [YT_Down.py <url> -q best]. *)
Definition command_line (url : string) : argparse.Namespace :=
  {| argparse.url := Some url; argparse.path := "./downloads";
     argparse.audio := false; argparse.quality := Some "best";
     argparse.playlist := false |}.

(** The command line [YT_Down.py] with no argument at all. *)
Definition bare_command_line : argparse.Namespace :=
  {| argparse.url := None; argparse.path := "./downloads";
     argparse.audio := false; argparse.quality := None;
     argparse.playlist := false |}.

Definition forbidden : exn := LibraryError "HTTP Error 403: Forbidden".

(** The downloader [main] builds for the default folder. *)
Definition downloader (E : Env) : YouTubeDownloader :=
  new_downloader E "./downloads".

End Sample.

(** ** Notions for the rest of the script *)

(** A format that [get_manual_formats] puts in one of its three lists:
    video with a height, or audio. *)
Definition listed (f : Format) : bool :=
  (not_none (get_or "none" (fmt_vcodec f)) && truthy_num (get (fmt_height f)))
  || not_none (get_or "none" (fmt_acodec f)).

(** A format that goes to the audio list. *)
Definition audio_only (f : Format) : bool :=
  negb (not_none (get_or "none" (fmt_vcodec f))
        && truthy_num (get (fmt_height f)))
  && not_none (get_or "none" (fmt_acodec f)).

(** The three lists, one after the other. *)
Definition join_lists (a b : ManualFormats) : ManualFormats :=
  {| combined := combined a ++ combined b;
     video := video a ++ video b;
     audio := audio a ++ audio b |}.

(** The selector behind a line of the menu; a quick option is recognised
    by its description. *)
Definition row_selector (r : Row) : string :=
  match r with
  | RowSmart f => selector f
  | RowCombined f => ve_format_id f
  | RowVideo f => ve_format_id f ++ "+bestaudio"
  | RowAudio f => ae_format_id f
  | RowQuick d =>
      default "" (fst <$> find (fun q => String.eqb (snd q) d) quick_options)
  end.

(** The numbered lines among some events: number and selector. *)
Definition menu_rows (evs : list Event) : list (nat * string) :=
  omap (fun ev =>
          match ev with
          | EvRow n r => Some (n, row_selector r)
          | _ => None
          end) evs.

(** The options, counted from one. *)
Definition numbered (options : list string) : list (nat * string) :=
  imap (fun k s => (S k, s)) options.

(** The lines printed so far are the options gathered so far, numbered from
    one, and the counter is one ahead. *)
Definition aligned (m : Menu) (evs : list Event) : Prop :=
  menu_rows evs = numbered (all_options m)
  /\ option_num m = S (length (all_options m)).

(** A step of the construction of the menu that keeps lines and options
    aligned, when it ends normally. *)
Definition keeps_aligned (c : Menu -> M Menu) : Prop :=
  forall m w evs m' w',
    aligned m evs ->
    c m w = (Ret m', w') ->
    exists evs', trace w' = (trace w ++ evs')%list /\ aligned m' (evs ++ evs').

(** Sample formats: two audio tracks, the second without a bitrate, and a
    video stream without identifier. *)
Module More.

Definition audio_track (id : string) (abr : field Z) : Format :=
  {| fmt_format_id := Some id; fmt_height := PyNone; fmt_width := PyNone;
     fmt_fps := PyNone; fmt_vcodec := Val "none"; fmt_acodec := Val "mp4a.40.2";
     fmt_ext := Val "m4a"; fmt_filesize := Val 3000000; fmt_abr := abr |}.

Definition video_stream (id : option string) (h : Z) : Format :=
  {| fmt_format_id := id; fmt_height := Val h; fmt_width := Val (h * 16 / 9);
     fmt_fps := Val 30; fmt_vcodec := Val "avc1.640028"; fmt_acodec := Val "none";
     fmt_ext := Val "mp4"; fmt_filesize := Absent; fmt_abr := Absent |}.

Definition info_with (formats : list Format) : Info :=
  {| info_title := Val "clip"; info_duration := Val 10;
     info_uploader := Absent; info_view_count := Absent;
     info_formats := Val formats; info_requested_formats := Absent;
     info_entries := Absent;
     info_height := Val 720; info_width := Val 1280; info_fps := Val 30;
     info_vcodec := Val "avc1.64"; info_acodec := Val "mp4a" |}.

(** A library that answers every query with the given formats. *)
Definition serving (formats : list Format) : Env :=
  {| extract_info := fun _ _ _ => Returns (Some (info_with formats));
     download := fun _ _ _ => Returns tt;
     mkdir := fun _ _ => Returns tt;
     joinpath := fun a b => a ++ "/" ++ b;
     absolute := fun a => a;
     python := Sample.cpython;
     format_help := Sample.help_text |}.

Definition nameless : list Format :=
  [video_stream (Some "137") 1080; video_stream None 720].

Definition two_tracks : list Format :=
  [video_stream (Some "137") 1080; audio_track "140" (Val 128);
   audio_track "139" Absent].

End More.

(** An ASCII character as the text functions see it, the ASCII digits, and
    the number a row of them writes. *)
Definition plain (a : ascii) : PyStr.Char :=
  (Some (N_of_ascii a), String a EmptyString).

Definition is_digit (a : ascii) : bool := PyStr.within 48 57 (N_of_ascii a).

Definition read_digits (l : list ascii) (acc : Z) : Z :=
  fold_left (fun v a => 10 * v + (Z.of_N (N_of_ascii a) - 48)) l acc.

(** What the picker may do with an answer that ends the loop. *)
Inductive Decision : Type :=
  | Quit
  | Pick (selected_format : string).

(** An answer that ends the loop of the picker, and how: Ctrl-C or ['q']
    quit; an integer in range picks the option at its index. *)
Definition decides (E : Env) (all_options : list string) (a : InputEvent)
    (d : Decision) : Prop :=
  match a with
  | CtrlC => d = Quit
  | Line s =>
      if String.eqb (PyStr.lower (PyStr.strip (python E) s)) "q" then d = Quit
      else exists c,
          PyStr.int (python E) (PyStr.strip (python E) s) = Some c
          /\ 1 <= c <= Z.of_nat (length all_options)
          /\ Some d = Pick <$> all_options !! Z.to_nat (c - 1)
  end.

Definition decision_result (d : Decision) : result (option string) :=
  match d with
  | Quit => Ret None
  | Pick selected_format => Ret (Some selected_format)
  end.

(** A menu to try the construction on: one stream, one track. *)
Module Menus.

Definition detected : SmartFormats :=
  {| info := Sample.hd_info;
     available_formats :=
       [ {| selector := "best"; description := "Mejor calidad automática";
            resolution := "1280x720"; height := 720; fps := Some 30;
            codec := Some "avc1.64"; type := "combined_direct";
            display := "1280x720 @30fps (avc1)" |} ] |}.

Definition manual : ManualFormats :=
  {| combined := [];
     video := [ {| ve_format_id := "137"; ve_height := 1080;
                   ve_ext := Some "mp4"; ve_fps := Some 30;
                   ve_filesize := None; ve_vcodec := Some "avc1.640028";
                   ve_acodec := None |} ];
     audio := [ {| ae_format_id := "140"; ae_abr := Some 128;
                   ae_ext := Some "m4a"; ae_filesize := Some 3000000;
                   ae_acodec := Some "mp4a.40.2" |} ] |}.

Definition options : list string :=
  ["best"; "137+bestaudio"; "140"; "best"; "bestvideo+bestaudio/best"; "worst"].

End Menus.

(** The line of a cancelled download. *)
Definition cancelled : Event := EvPrint "❌ Descarga cancelada".

(** What [download_playlist] shows before it asks for confirmation. *)
Definition playlist_shown (url : string) (i : Info) (n : nat) : list Event :=
  [EvExtract (<["quiet" := OBool true]> ∅) url;
   EvPrint (nl ++ "📋 Playlist: " ++ str_opt (get_or "N/A" (info_title i)));
   EvPrint ("📊 Videos: " ++ pretty n);
   EvInput (nl ++ "¿Descargar toda la playlist? (y/n): ")].

(** What [download_playlist] prints before it calls the library. *)
Definition playlist_starts (E : Env) (self : YouTubeDownloader)
    (format_selector : string) : list Event :=
  [EvPrint (nl ++ "🚀 Iniciando descarga de playlist...");
   EvPrint ("📁 Carpeta: " ++ absolute E (download_path self));
   EvPrint ("🎯 Formato: " ++ format_selector);
   EvPrint (repeat_str "-" 50)].

(** A playlist of three videos. *)
Definition three_videos : Info :=
  {| info_title := Val "mix"; info_duration := Absent;
     info_uploader := Absent; info_view_count := Absent;
     info_formats := Absent; info_requested_formats := Absent;
     info_entries := Val 3%nat;
     info_height := Absent; info_width := Absent; info_fps := Absent;
     info_vcodec := Absent; info_acodec := Absent |}.

Definition playlist_site : Env :=
  {| extract_info := fun _ _ _ => Returns (Some three_videos);
     download := fun _ _ _ => Returns tt;
     mkdir := fun _ _ => Returns tt;
     joinpath := fun a b => a ++ "/" ++ b;
     absolute := fun a => a;
     python := Sample.cpython;
     format_help := Sample.help_text |}.

(** A library interrupted at its first call, and a disk that is full. *)
Definition interrupted : Env :=
  {| extract_info := fun _ _ _ => Raises KeyboardInterrupt;
     download := fun _ _ _ => Raises KeyboardInterrupt;
     mkdir := fun _ _ => Returns tt;
     joinpath := fun a b => a ++ "/" ++ b;
     absolute := fun a => a;
     python := Sample.cpython;
     format_help := Sample.help_text |}.

Definition read_only_disk : Env :=
  {| extract_info := fun _ _ _ => Returns (Some Sample.hd_info);
     download := fun _ _ _ => Returns tt;
     mkdir := fun _ _ => Raises (OSError "[Errno 30] Read-only file system");
     joinpath := fun a b => a ++ "/" ++ b;
     absolute := fun a => a;
     python := Sample.cpython;
     format_help := Sample.help_text |}.

(** ** The progress hook

    Here the length of a text matters, and Python counts code points: a
    text is a list of code points. *)

Module Hook.

Local Open Scope list_scope.

Definition text : Type := list N.

(** An ASCII literal. *)
Definition lit (s : string) : text := N_of_ascii <$> list_ascii_of_string s.

Definition slash : N := 47.
Definition inbox_tray : N := 128229.
Definition check_mark : N := 9989.

(** The dictionary the library hands to a progress hook, restricted to the
    keys the hook reads. *)
Record Progress : Type := {
  status : field text;
  _percent_str : field text;
  _speed_str : field text;
  _total_bytes_str : field text;
  _total_bytes_estimate_str : field text;
  filename : field text
}.

(** [str(x)] inside an f-string. *)
Definition str_text (o : option text) : text := default (lit "None") o.

(** [os.path.basename] on a POSIX path: what follows the last slash. *)
Fixpoint basename (p : text) : text :=
  match p with
  | [] => []
  | _ :: r => if bool_decide (slash ∈ p) then basename r else p
  end.

(** [if len(filename) > limit: filename = filename[:keep] + "..."]. *)
Definition shorten (limit keep : nat) (filename : text) : text :=
  if (limit <? length filename)%nat then take keep filename ++ lit "..."
  else filename.

(** [os.path.basename(d.get('filename', ''))]; a [None] is no path. *)
Definition file_of (d : Progress) : result text :=
  match get_or [] (filename d) with
  | Some p => Ret (basename p)
  | None =>
      Exc (TypeError "expected str, bytes or os.PathLike object, not NoneType")
  end.

(** [d.get('_total_bytes_str', d.get('_total_bytes_estimate_str', 'N/A'))]. *)
Definition size_of (d : Progress) : option text :=
  match _total_bytes_str d with
  | Absent => get_or (lit "N/A") (_total_bytes_estimate_str d)
  | PyNone => None
  | Val t => Some t
  end.

(** [_progress_hook]: what it writes to the terminal, if anything.  The
    progress line ends without a newline; the closing line ends with
    one. *)
Definition _progress_hook (d : Progress) : result (option text) :=
  match status d with
  | Absent => Exc (KeyError "'status'")
  | PyNone => Ret None
  | Val s =>
      if bool_decide (s = lit "downloading") then
        let percent := get_or (lit "N/A") (_percent_str d) in
        let speed := get_or (lit "N/A") (_speed_str d) in
        let size := size_of d in
        match file_of d with
        | Exc e => Exc e
        | Ret filename =>
            let filename := shorten 40 37 filename in
            Ret (Some ([13%N; inbox_tray] ++ lit " " ++ filename ++ lit " | "
                       ++ str_text percent ++ lit " | " ++ str_text speed
                       ++ lit " | " ++ str_text size))
        end
      else if bool_decide (s = lit "finished") then
        match file_of d with
        | Exc e => Exc e
        | Ret filename =>
            let filename := shorten 50 47 filename in
            Ret (Some ([13%N; check_mark] ++ lit " Completado: " ++ filename
                       ++ replicate 20 32%N ++ [10%N]))
        end
      else Ret None
  end.

(** The progress of a download to a long path. *)
Definition long_download : Progress :=
  {| status := Val (lit "downloading");
     _percent_str := Val (lit " 42.0%");
     _speed_str := Val (lit "1.21MiB/s");
     _total_bytes_str := Absent;
     _total_bytes_estimate_str := Val (lit "~10.00MiB");
     filename :=
       Val (lit "downloads/A very long title of a video that goes on and on.f137.mp4") |}.

End Hook.

(** ** format_filesize

    The sizes handled here are [None] or whole numbers of bytes below
    2^53 in absolute value.  On these the float arithmetic of the source
    is exact: a division by [1024.0] changes the exponent only, and the
    rendering with one decimal rounds the exact value, ties to even.  A
    size that went through [k] divisions is kept as a numerator over
    [1024^k]. *)

Module Filesize.

Record Scaled : Type := { num : Z; den : Z }.

(** [f"{x:.1f}"], counted in tenths. *)
Definition tenths (x : Scaled) : Z :=
  let q := (10 * num x) / den x in
  let r := (10 * num x) mod den x in
  if Z.ltb (2 * r) (den x) then q
  else if Z.ltb (den x) (2 * r) then q + 1
  else if Z.even q then q else q + 1.

(** The digits of a number of tenths. *)
Definition render (t : Z) : string :=
  (if Z.ltb t 0 then "-" else "")
  ++ pretty (Z.abs t / 10) ++ "." ++ pretty (Z.abs t mod 10).

(** The loop over the units: the first unit in which the size is below
    1024; after the last one, terabytes. *)
Fixpoint scale (units : list string) (size : Scaled) : string * Scaled :=
  match units with
  | [] => ("TB", size)
  | unit :: rest =>
      if Z.ltb (num size) (1024 * den size) then (unit, size)
      else scale rest {| num := num size; den := 1024 * den size |}
  end.

Definition units : list string := ["B"; "KB"; "MB"; "GB"].

Definition format_filesize (size : option Z) : string :=
  match size with
  | None => "~N/A"
  | Some n =>
      if Z.eqb n 0 then "~N/A"
      else
        let '(unit, scaled) := scale units {| num := n; den := 1 |} in
        "~" ++ render (tenths scaled) ++ " " ++ unit
  end.

End Filesize.

(** The selectors of the three manual sections of the menu: five formats
    of each list at most. *)
Definition manual_options (manual_formats : ManualFormats) : list string :=
  (map ve_format_id (take 5 (combined manual_formats))
   ++ map (fun f => (ve_format_id f ++ "+bestaudio")%string)
          (take 5 (video manual_formats))
   ++ map ae_format_id (take 5 (audio manual_formats)))%list.

(** The command line [YT_Down.py <url> -a]. *)
Definition audio_command_line (url : string) : argparse.Namespace :=
  {| argparse.url := Some url; argparse.path := "./downloads";
     argparse.audio := true; argparse.quality := None;
     argparse.playlist := false |}.

(** ** Format probing *)

Section Probing.

Variable E : Env.

Lemma gathered_insert opts url sel n candidates :
  gathered E (<["format" := sel]> opts) url n candidates
  = gathered E opts url n candidates.
Proof.
  revert n; induction candidates as [|c rest IH]; intros n; simpl; [done|].
  by rewrite insert_insert_eq, IH.
Qed.

Lemma probe_calls_insert opts url sel candidates :
  probe_calls (<["format" := sel]> opts) url candidates
  = probe_calls opts url candidates.
Proof.
  unfold probe_calls. apply map_ext. intros c. by rewrite insert_insert_eq.
Qed.

(** One turn of the loop never raises: it makes one call and keeps what the
    call gave. *)
Lemma probe_turn url c opts available w :
  probe E url c (opts, available) w
  = (Ret (<["format" := OStr (fst c)]> opts,
          (available
           ++ kept (extract_info E (clock w)
                      (<["format" := OStr (fst c)]> opts) url) c)%list),
     {| stdin := stdin w; clock := S (clock w);
        trace := trace w
                 ++ [EvExtract (<["format" := OStr (fst c)]> opts) url] |}).
Proof.
  destruct c as [format_selector description].
  unfold probe, try_, bind, call_extract, kept; simpl.
  destruct (extract_info E (clock w) _ url) as [test_info|e]; simpl.
  - unfold of_result.
    destruct (probe_entries format_selector description test_info); simpl.
    + done.
    + by rewrite app_nil_r.
  - by rewrite app_nil_r.
Qed.

(** The whole loop: every candidate is probed, in order, whatever the
    earlier probes did. *)
Lemma probe_loop url candidates : forall opts available w,
  exists opts',
    for_each candidates (probe E url) (opts, available) w
    = (Ret (opts',
            (available ++ gathered E opts url (clock w) candidates)%list),
       {| stdin := stdin w;
          clock := (clock w + length candidates)%nat;
          trace := trace w ++ probe_calls opts url candidates |}).
Proof.
  induction candidates as [|c rest IH]; intros opts available w; simpl.
  - exists opts. unfold ret. rewrite !app_nil_r, Nat.add_0_r.
    by destruct w.
  - unfold bind. rewrite probe_turn.
    destruct (IH (<["format" := OStr (fst c)]> opts)
                 (available
                  ++ kept (extract_info E (clock w)
                             (<["format" := OStr (fst c)]> opts) url) c)%list
                 {| stdin := stdin w; clock := S (clock w);
                    trace := trace w
                      ++ [EvExtract (<["format" := OStr (fst c)]> opts) url] |})
      as [opts' ->].
    exists opts'. simpl.
    rewrite gathered_insert, probe_calls_insert, <- !app_assoc. simpl.
    by rewrite Nat.add_succ_r.
Qed.

End Probing.

Section Detection.

Variable E : Env.

(** With metadata at hand, detection is the metadata call followed by the
    probes, and it returns what the probes gathered. *)
Lemma detection_runs url w i :
  extract_info E (clock w) quiet_opts url = Returns (Some i) ->
  test_format_availability E url w
  = (Ret (Some {| info := i;
                  available_formats :=
                    gathered E test_opts url (S (clock w)) test_formats |}),
     {| stdin := stdin w;
        clock := (S (clock w) + length test_formats)%nat;
        trace := trace w
                 ++ detecting :: EvExtract quiet_opts url
                    :: probe_calls test_opts url test_formats |}).
Proof.
  intros Hmeta.
  unfold test_format_availability, try_, bind, print, call_extract.
  cbn -[for_each test_formats].
  rewrite Hmeta. cbn -[for_each test_formats].
  destruct (probe_loop E url test_formats test_opts []
              (tick (emit (EvExtract quiet_opts url) (emit detecting w))))
    as [opts' Hloop].
  unfold detecting in *. rewrite Hloop.
  cbn -[test_formats gathered probe_calls].
  by rewrite <- !app_assoc.
Qed.

(** C7. Quality detection asks the library for metadata and then probes a
    fixed list of nine (selector, label) candidates, in the order of the
    list, from ['best'] down to ['bestvideo[height<=360]+bestaudio/best']:
    whatever the library answers to the probes, the calls made are the
    metadata call followed by one call per candidate, each with the
    candidate's selector as ['format']. *)
Theorem fixed_probe_list url w i :
  extract_info E (clock w) quiet_opts url = Returns (Some i) ->
  length test_formats = 9%nat
  /\ head test_formats = Some ("best", "Mejor calidad automática")
  /\ last test_formats
     = Some ("bestvideo[height<=360]+bestaudio/best", "Hasta 360p")
  /\ trace (snd (test_format_availability E url w))
     = (trace w
        ++ detecting :: EvExtract quiet_opts url
           :: map (fun c => EvExtract (<["format" := OStr (fst c)]> test_opts) url)
                  test_formats)%list.
Proof.
  intros Hmeta. rewrite (detection_runs url w i Hmeta). done.
Qed.

(** C3. While probing, an exception raised for one candidate skips that
    candidate only: all nine candidates are probed, and the function
    returns the entries gathered from the probes that went through. *)
Theorem probing_skips_and_continues url w i :
  extract_info E (clock w) quiet_opts url = Returns (Some i) ->
  exists w',
    test_format_availability E url w
    = (Ret (Some {| info := i;
                    available_formats :=
                      gathered E test_opts url (S (clock w)) test_formats |}),
       w')
    /\ clock w' = (clock w + 10)%nat.
Proof.
  intros Hmeta. rewrite (detection_runs url w i Hmeta).
  eexists; split; [done|]. simpl. lia.
Qed.

End Detection.

(** A run where the second probe is interrupted and the fifth fails: the
    other seven are made all the same. *)
Lemma fixed_probe_list_flaky :
  length test_formats = 9%nat
  /\ head test_formats = Some ("best", "Mejor calidad automática")
  /\ last test_formats
     = Some ("bestvideo[height<=360]+bestaudio/best", "Hasta 360p")
  /\ trace (snd (test_format_availability Sample.flaky Sample.video_url
                   (Sample.typing [])))
     = (detecting :: EvExtract quiet_opts Sample.video_url
          :: map (fun c =>
                    EvExtract (<["format" := OStr (fst c)]> test_opts)
                              Sample.video_url)
                 test_formats)%list.
Proof.
  apply (fixed_probe_list Sample.flaky Sample.video_url (Sample.typing [])
           Sample.hd_info).
  reflexivity.
Defined.

Lemma probing_skips_and_continues_flaky :
  exists w',
    test_format_availability Sample.flaky Sample.video_url (Sample.typing [])
    = (Ret (Some {| info := Sample.hd_info;
                    available_formats :=
                      gathered Sample.flaky test_opts Sample.video_url 1
                               test_formats |}),
       w')
    /\ clock w' = 10%nat.
Proof.
  apply (probing_skips_and_continues Sample.flaky Sample.video_url
           (Sample.typing []) Sample.hd_info).
  reflexivity.
Defined.

(** ** Computations that leave the terminal input alone *)

Section Quiet.

Context {A : Type}.

Lemma quiet_ret (a : A) : reads_nothing (ret a).
Proof. intros w. split; [done|]. exists []. by rewrite app_nil_r. Qed.

Lemma quiet_raise (e : exn) : reads_nothing (@raise A e).
Proof. intros w. split; [done|]. exists []. by rewrite app_nil_r. Qed.

Lemma quiet_of_result (r : result A) : reads_nothing (of_result r).
Proof. intros w. split; [done|]. exists []. by rewrite app_nil_r. Qed.

Lemma quiet_bind {B} (m : M B) (k : B -> M A) :
  reads_nothing m -> (forall b, reads_nothing (k b)) -> reads_nothing (bind m k).
Proof.
  intros Hm Hk w. unfold bind.
  destruct (Hm w) as (Hin & evs & Htr & Hevs).
  destruct (m w) as [[b|e] w1]; simpl in *.
  - destruct (Hk b w1) as (Hin' & evs' & Htr' & Hevs').
    split; [congruence|]. exists (evs ++ evs')%list.
    rewrite Htr', Htr, app_assoc. split; [done|]. by apply Forall_app.
  - split; [done|]. by exists evs.
Qed.

Lemma quiet_handle clauses (e : exn) :
  Forall (fun c : (exn -> bool) * (exn -> M A) =>
            forall e, reads_nothing (snd c e)) clauses ->
  reads_nothing (handle clauses e).
Proof.
  induction 1 as [|[catches handler] rest Hc _ IH]; simpl.
  - apply quiet_raise.
  - destruct (catches e); [apply Hc | apply IH].
Qed.

Lemma quiet_try (body : M A) clauses :
  reads_nothing body ->
  Forall (fun c : (exn -> bool) * (exn -> M A) =>
            forall e, reads_nothing (snd c e)) clauses ->
  reads_nothing (try_ body clauses).
Proof.
  intros Hb Hc w. unfold try_.
  destruct (Hb w) as (Hin & evs & Htr & Hevs).
  destruct (body w) as [[a|e] w1]; simpl in *.
  - split; [done|]. by exists evs.
  - destruct (quiet_handle clauses e Hc w1) as (Hin' & evs' & Htr' & Hevs').
    split; [congruence|]. exists (evs ++ evs')%list.
    rewrite Htr', Htr, app_assoc. split; [done|]. by apply Forall_app.
Qed.

Lemma quiet_for_each {X} (body : X -> A -> M A) (l : list X) :
  (forall x s, reads_nothing (body x s)) ->
  forall s, reads_nothing (for_each l body s).
Proof.
  intros Hb. induction l as [|x l IH]; intros s; simpl.
  - apply quiet_ret.
  - apply quiet_bind; [apply Hb | apply IH].
Qed.

End Quiet.

Lemma quiet_log (ev : Event) : is_input ev = false -> reads_nothing (log ev).
Proof.
  intros Hev w. split; [done|]. exists [ev]. split; [done|].
  by apply Forall_singleton.
Qed.

Lemma quiet_print (line : string) : reads_nothing (print line).
Proof. by apply (quiet_log (EvPrint line)). Qed.

Lemma quiet_call {A} (answer : reply A) (ev : Event) :
  is_input ev = false ->
  reads_nothing (fun w => of_reply answer (tick (emit ev w))).
Proof.
  intros Hev w. destruct answer; simpl;
    (split; [done|]; exists [ev]; split; [done|]; by apply Forall_singleton).
Qed.

Lemma quiet_call_extract E opts url : reads_nothing (call_extract E opts url).
Proof.
  intros w. unfold call_extract.
  destruct (extract_info E (clock w) opts url); simpl;
    (split; [done|]; eexists [_]; split; [done|]; by apply Forall_singleton).
Qed.

(** The routine steps of such proofs. *)
Ltac quiet_step :=
  match goal with
  | |- reads_nothing (bind _ _) => apply quiet_bind
  | |- reads_nothing (ret _) => apply quiet_ret
  | |- reads_nothing (raise _) => apply quiet_raise
  | |- reads_nothing (of_result _) => apply quiet_of_result
  | |- reads_nothing (print _) => apply quiet_print
  | |- reads_nothing (log _) => apply quiet_log; reflexivity
  | |- reads_nothing (call_extract _ _ _) => apply quiet_call_extract
  | |- reads_nothing (try_ _ _) => apply quiet_try
  | |- reads_nothing (for_each _ _ _) => apply quiet_for_each
  | |- reads_nothing (match ?x with _ => _ end) => destruct x
  | |- Forall _ (_ :: _) => apply Forall_cons; split
  | |- Forall _ [] => apply Forall_nil
  | |- True => exact I
  | |- forall _, _ => intros
  | |- _ => progress simpl
  end.

Ltac quiet := repeat quiet_step.

Lemma quiet_detection E url : reads_nothing (test_format_availability E url).
Proof. unfold test_format_availability, probe. quiet. Qed.

Lemma quiet_manual E url : reads_nothing (get_manual_formats E url).
Proof.
  unfold get_manual_formats, classify, sort_audio, item_format_id. quiet.
Qed.

Lemma quiet_menu sf mf : reads_nothing (build_menu sf mf).
Proof.
  unfold build_menu, menu_section, smart_row, combined_row, video_row,
    audio_row, quick_row, add_option, upper_ext.
  quiet.
Qed.

(** ** The fallback of [select_quality] *)

(** [get_manual_formats] returns whatever happens inside it. *)
Lemma manual_returns E url w :
  exists manual_formats, fst (get_manual_formats E url w) = Ret manual_formats.
Proof.
  unfold get_manual_formats, try_.
  match goal with |- context [bind ?m ?k w] => destruct (bind m k w) as [[a|e] w1] end;
    simpl; eauto.
Qed.

(** Detection gives [None] when the metadata call raises an [Exception]. *)
Lemma detection_fails E url w e :
  extract_info E (clock w) quiet_opts url = Raises e ->
  is_Exception e = true ->
  fst (test_format_availability E url w) = Ret None.
Proof.
  intros Hmeta He.
  unfold test_format_availability, try_, bind, print, call_extract.
  cbn -[for_each test_formats]. rewrite Hmeta. simpl. by rewrite He.
Qed.

(** C9. When detection fails entirely ([test_format_availability] returns
    [None]), [select_quality] neither fails nor prompts: it prints an error
    message and returns the selector ['bestvideo+bestaudio/best']. *)
Theorem fallback_on_detection_failure E url w :
  fst (test_format_availability E url w) = Ret None ->
  exists w',
    select_quality E url w = (Ret (Some "bestvideo+bestaudio/best"), w')
    /\ stdin w' = stdin w
    /\ exists evs,
         trace w' = (trace w ++ evs ++ [no_information])%list
         /\ Forall (fun ev => is_input ev = false) evs.
Proof.
  intros Hnone. unfold select_quality, bind.
  destruct (quiet_detection E url w) as (Hin1 & evs1 & Htr1 & Hq1).
  destruct (test_format_availability E url w) as [r w1]; simpl in *. subst r.
  destruct (manual_returns E url w1) as [manual_formats Hret].
  destruct (quiet_manual E url w1) as (Hin2 & evs2 & Htr2 & Hq2).
  destruct (get_manual_formats E url w1) as [r w2]; simpl in *. subst r.
  eexists. split; [reflexivity|]. simpl. split; [congruence|].
  exists (evs1 ++ evs2)%list. split.
  - by rewrite Htr2, Htr1, <- !app_assoc.
  - by apply Forall_app.
Qed.

(** With a library that cannot reach the site, the picker falls back
    without reading the answers that are waiting. *)
Lemma fallback_on_detection_failure_offline :
  exists w',
    select_quality Sample.offline Sample.video_url (Sample.typing [Line "1"])
    = (Ret (Some "bestvideo+bestaudio/best"), w')
    /\ stdin w' = [Line "1"]
    /\ exists evs,
         trace w' = (evs ++ [no_information])%list
         /\ Forall (fun ev => is_input ev = false) evs.
Proof.
  apply (fallback_on_detection_failure Sample.offline Sample.video_url
           (Sample.typing [Line "1"])).
  reflexivity.
Defined.

(** ** The menu *)

(** The last loop of the menu adds the three quick options. *)
Lemma quick_loop m w :
  for_each quick_options quick_row m w
  = (Ret {| all_options :=
              (all_options m ++ ["best"; "bestvideo+bestaudio/best"; "worst"])%list;
            option_num := S (S (S (option_num m))) |},
     {| stdin := stdin w; clock := clock w;
        trace :=
          trace w
          ++ [EvRow (option_num m) (RowQuick "🚀 Mejor calidad automática");
              EvRow (S (option_num m))
                    (RowQuick "⭐ Mejor video + audio (recomendado)");
              EvRow (S (S (option_num m)))
                    (RowQuick "📱 Calidad más baja (móvil)")] |}).
Proof.
  unfold quick_options, quick_row, add_option, for_each, bind, log, ret, emit.
  cbn. by rewrite <- !app_assoc.
Qed.

(** The quick options close every menu that gets built. *)
Lemma menu_ends_with_quick sf mf w m w' :
  build_menu sf mf w = (Ret m, w') ->
  exists detected,
    all_options m
    = (detected ++ ["best"; "bestvideo+bestaudio/best"; "worst"])%list.
Proof.
  unfold build_menu, bind, print.
  cbn -[for_each unique_formats menu_section quick_options].
  do 4 match goal with
       | |- context [match ?x with (_, _) => _ end] =>
           destruct x as [[?m|?e] ?w]; try discriminate
       end.
  rewrite quick_loop. cbn. intros [= <- _]. cbn. eauto.
Qed.

(** How a run of [select_quality] goes: either it builds a menu and hands
    its options to the picker, or it ends before any prompt. *)
Lemma select_quality_cases E url w :
  (exists sf mf w0 m w1,
      build_menu sf mf w0 = (Ret m, w1)
      /\ select_quality E url w = choose E (all_options m) w1
      /\ stdin w1 = stdin w
      /\ exists evs, trace w1 = (trace w ++ evs)%list
                     /\ Forall (fun ev => is_input ev = false) evs)
  \/ (stdin (snd (select_quality E url w)) = stdin w
      /\ exists evs,
           trace (snd (select_quality E url w)) = (trace w ++ evs)%list
           /\ Forall (fun ev => is_input ev = false) evs).
Proof.
  unfold select_quality, bind.
  destruct (quiet_detection E url w) as (Hin1 & evs1 & Htr1 & Hq1).
  destruct (test_format_availability E url w) as [[smart|e] w1]; simpl in *;
    [|right; eauto].
  destruct (quiet_manual E url w1) as (Hin2 & evs2 & Htr2 & Hq2).
  destruct (get_manual_formats E url w1) as [[mf|e] w2]; simpl in *;
    [|right; split; [congruence|];
      exists (evs1 ++ evs2)%list; rewrite Htr2, Htr1, app_assoc;
      split; [done|by apply Forall_app]].
  destruct smart as [sf|]; simpl.
  - set (w0 := emit _ (emit _ (emit _ (emit _ w2)))).
    destruct (quiet_menu sf mf w0) as (Hin3 & evs3 & Htr3 & Hq3).
    assert (Hw0 : exists evs0, trace w0 = (trace w ++ evs0)%list
                   /\ Forall (fun ev => is_input ev = false) evs0).
    { subst w0; simpl. rewrite Htr2, Htr1, <- !app_assoc.
      eexists. split; [reflexivity|].
      rewrite !Forall_app. split; [done|]. split; [done|].
      by repeat constructor. }
    destruct Hw0 as (evs0 & Htr0 & Hq0).
    assert (Hs0 : stdin w0 = stdin w) by (subst w0; simpl; congruence).
    destruct (build_menu sf mf w0) as [[m|e] w3] eqn:Hmenu; simpl in *.
    + left. exists sf, mf, w0, m, w3. split; [done|]. split; [done|].
      split; [congruence|]. exists (evs0 ++ evs3)%list.
      rewrite Htr3, Htr0, app_assoc. split; [done|by apply Forall_app].
    + right. split; [congruence|]. exists (evs0 ++ evs3)%list.
      rewrite Htr3, Htr0, app_assoc. split; [done|by apply Forall_app].
  - right. split; [congruence|].
    exists ((evs1 ++ evs2) ++ [no_information])%list.
    rewrite Htr2, Htr1, <- !app_assoc. split; [done|].
    rewrite !Forall_app. repeat split; try done.
    by apply Forall_singleton.
Qed.

(** C10. In every run of [select_quality] that reaches the prompt, the
    option list has at least three entries: the quick options ['best'],
    ['bestvideo+bestaudio/best'] and ['worst'] are appended after all the
    detected sections, also when nothing was detected. *)
Theorem menu_never_empty E url w evs :
  trace (snd (select_quality E url w)) = (trace w ++ evs)%list ->
  existsb is_input evs = true ->
  (exists sf mf w0 m w1 detected,
      build_menu sf mf w0 = (Ret m, w1)
      /\ select_quality E url w = choose E (all_options m) w1
      /\ all_options m
         = (detected ++ ["best"; "bestvideo+bestaudio/best"; "worst"])%list
      /\ (3 <= length (all_options m))%nat)
  /\ forall i w0,
       fst (build_menu {| info := i; available_formats := [] |} no_formats w0)
       = Ret {| all_options := ["best"; "bestvideo+bestaudio/best"; "worst"];
                option_num := 4 |}.
Proof.
  intros Htrace Hprompt. split; [|done].
  destruct (select_quality_cases E url w)
    as [(sf & mf & w0 & m & w1 & Hmenu & Hrun & _)|(_ & evs' & Htr & Hq)].
  - destruct (menu_ends_with_quick sf mf w0 m w1 Hmenu) as [detected Hopts].
    exists sf, mf, w0, m, w1, detected. repeat split; try done.
    rewrite Hopts, length_app. simpl. lia.
  - rewrite Htrace in Htr. apply app_inv_head in Htr. subst evs'.
    apply existsb_exists in Hprompt as (ev & Hev & Hinput).
    rewrite Forall_forall in Hq. apply list_elem_of_In in Hev.
    rewrite (Hq ev Hev) in Hinput. discriminate.
Qed.

(** A run that reaches the prompt, where the user then quits. *)
Lemma menu_never_empty_quit :
  (exists sf mf w0 m w1 detected,
      build_menu sf mf w0 = (Ret m, w1)
      /\ select_quality Sample.flaky Sample.video_url (Sample.typing [Line "q"])
         = choose Sample.flaky (all_options m) w1
      /\ all_options m
         = (detected ++ ["best"; "bestvideo+bestaudio/best"; "worst"])%list
      /\ (3 <= length (all_options m))%nat)
  /\ forall i w0,
       fst (build_menu {| info := i; available_formats := [] |} no_formats w0)
       = Ret {| all_options := ["best"; "bestvideo+bestaudio/best"; "worst"];
                option_num := 4 |}.
Proof.
  apply (menu_never_empty Sample.flaky Sample.video_url
           (Sample.typing [Line "q"])
           (trace (snd (select_quality Sample.flaky Sample.video_url
                          (Sample.typing [Line "q"]))))).
  - vm_compute. reflexivity.
  - vm_compute. reflexivity.
Defined.

(** ** The picker *)

Section Picker.

Variable E : Env.
Variable all_options : list string.

Lemma in_range_lookup (c : Z) :
  Z.leb 0 (c - 1) && Z.ltb (c - 1) (Z.of_nat (length all_options)) = true ->
  1 <= c <= Z.of_nat (length all_options)
  /\ is_Some (all_options !! Z.to_nat (c - 1)).
Proof.
  intros Hr. apply andb_true_iff in Hr as [Hlo Hhi].
  apply Z.leb_le in Hlo. apply Z.ltb_lt in Hhi.
  split; [lia|]. apply lookup_lt_is_Some. lia.
Qed.

(** Every turn starts with the prompt. *)
Lemma ask_prompts ins :
  exists evs, fst (fst (ask E all_options ins)) = EvInput (prompt all_options) :: evs.
Proof.
  destruct ins as [|[s|] rest]; simpl; eauto.
  destruct (String.eqb _ "q"); simpl; eauto.
  destruct (PyStr.int _) as [c|]; simpl.
  - destruct (Z.leb 0 (c - 1) && _); simpl.
    + destruct (all_options !! _); simpl; eauto.
    + destruct (ask E all_options rest) as [[evs r] rest']; simpl; eauto.
  - destruct (ask E all_options rest) as [[evs r] rest']; simpl; eauto.
Qed.

Lemma ask_returns ins : forall evs sel rest,
  ask E all_options ins = (evs, Ret (Some sel), rest) ->
  exists k s c,
    ins !! k = Some (Line s)
    /\ PyStr.int (python E) (PyStr.strip (python E) s) = Some c
    /\ 1 <= c <= Z.of_nat (length all_options)
    /\ all_options !! Z.to_nat (c - 1) = Some sel
    /\ rest = drop (S k) ins.
Proof.
  induction ins as [|[s|] ins IH]; intros evs sel rest; simpl.
  - discriminate.
  - destruct (String.eqb _ "q"); [discriminate|].
    destruct (PyStr.int (python E) (PyStr.strip (python E) s)) as [c|] eqn:Hint.
    + destruct (Z.leb 0 (c - 1) && _) eqn:Hr.
      * destruct (in_range_lookup c Hr) as [Hc [sel' Hsel]].
        rewrite Hsel. intros [= _ <- <-].
        exists 0%nat, s, c. by rewrite drop_0.
      * destruct (ask E all_options ins) as [[evs' r] rest'] eqn:Hask.
        intros [= _ -> ->].
        destruct (IH _ _ _ eq_refl) as (k & s' & c' & ? & ? & ? & ? & ?).
        exists (S k), s', c'. done.
    + destruct (ask E all_options ins) as [[evs' r] rest'] eqn:Hask.
      intros [= _ -> ->].
      destruct (IH _ _ _ eq_refl) as (k & s' & c' & ? & ? & ? & ? & ?).
      exists (S k), s', c'. done.
  - discriminate.
Qed.

(** The list is never read out of range. *)
Lemma ask_in_range ins msg :
  snd (fst (ask E all_options ins)) <> Exc (IndexError msg).
Proof.
  induction ins as [|[s|] ins IH]; simpl; try done.
  destruct (String.eqb _ "q"); [done|].
  destruct (PyStr.int (python E) (PyStr.strip (python E) s)) as [c|].
  - destruct (Z.leb 0 (c - 1) && _) eqn:Hr.
    + destruct (in_range_lookup c Hr) as [_ [sel' ->]]. done.
    + by destruct (ask E all_options ins) as [[evs' r] rest'].
  - by destruct (ask E all_options ins) as [[evs' r] rest'].
Qed.

Lemma ask_rejects s ins :
  rejected E all_options s ->
  exists msg evs r rest,
    ask E all_options ins = (EvInput (prompt all_options) :: evs, r, rest)
    /\ ask E all_options (Line s :: ins)
       = (EvInput (prompt all_options) :: EvPrint msg
            :: EvInput (prompt all_options) :: evs, r, rest).
Proof.
  intros [Hq Hbad].
  destruct (ask_prompts ins) as [evs Hevs]. simpl.
  destruct (ask E all_options ins) as [[evs' r] rest]. simpl in Hevs. subst evs'.
  apply String.eqb_neq in Hq. rewrite Hq.
  destruct Hbad as [->|(c & -> & Hc)].
  - eauto 6.
  - assert (Z.leb 0 (c - 1) && Z.ltb (c - 1) (Z.of_nat (length all_options))
            = false) as ->.
    { apply andb_false_iff. rewrite Z.leb_gt, Z.ltb_ge. lia. }
    eauto 6.
Qed.

End Picker.

(** C1 (as amended). For a menu of [n] options, the picker only returns a
    selector read at the index of an accepted integer choice [c] with
    [1 <= c <= n], and never reads the option list out of range; an integer
    outside that range, or an answer that [int] does not read and that is
    not ['q'] in either case (blanks around it aside), is answered with an
    error message and the prompt is shown again.  Blanks and digits are the
    interpreter's: a no-break space is a blank, a fullwidth digit is a
    digit. *)
Theorem picker_index_in_range (E : Env) (all_options : list string)
    (ins : list InputEvent) :
  (forall evs sel rest,
      ask E all_options ins = (evs, Ret (Some sel), rest) ->
      exists k s c,
        ins !! k = Some (Line s)
        /\ PyStr.int (python E) (PyStr.strip (python E) s) = Some c
        /\ 1 <= c <= Z.of_nat (length all_options)
        /\ all_options !! Z.to_nat (c - 1) = Some sel
        /\ rest = drop (S k) ins)
  /\ (forall msg, snd (fst (ask E all_options ins)) <> Exc (IndexError msg))
  /\ (forall s,
        rejected E all_options s ->
        exists msg evs r rest,
          ask E all_options ins = (EvInput (prompt all_options) :: evs, r, rest)
          /\ ask E all_options (Line s :: ins)
             = (EvInput (prompt all_options) :: EvPrint msg
                  :: EvInput (prompt all_options) :: evs, r, rest)).
Proof.
  split; [apply ask_returns|]. split; [intros msg; apply ask_in_range|].
  intros s. apply ask_rejects.
Qed.

(** Three options; the user types a word, then a fullwidth 7, then a
    fullwidth 2 between a blank and a no-break space.  Before that, a 0 is
    refused. *)
Lemma picker_index_in_range_sample :
  (exists k s c,
      [Line "x"; Line "７"; Line " ２ "] !! k = Some (Line s)
      /\ PyStr.int (python Sample.offline)
           (PyStr.strip (python Sample.offline) s) = Some c
      /\ 1 <= c <= Z.of_nat (length ["best"; "bestvideo+bestaudio/best"; "worst"])
      /\ ["best"; "bestvideo+bestaudio/best"; "worst"] !! Z.to_nat (c - 1)
         = Some "bestvideo+bestaudio/best"
      /\ [] = drop (S k) [Line "x"; Line "７"; Line " ２ "])
  /\ (exists msg evs r rest,
        ask Sample.offline ["best"; "bestvideo+bestaudio/best"; "worst"]
            [Line "x"; Line "７"; Line " ２ "]
        = (EvInput (prompt ["best"; "bestvideo+bestaudio/best"; "worst"]) :: evs,
           r, rest)
        /\ ask Sample.offline ["best"; "bestvideo+bestaudio/best"; "worst"]
               [Line "0"; Line "x"; Line "７"; Line " ２ "]
           = (EvInput (prompt ["best"; "bestvideo+bestaudio/best"; "worst"])
                :: EvPrint msg
                :: EvInput (prompt ["best"; "bestvideo+bestaudio/best"; "worst"])
                :: evs,
              r, rest)).
Proof.
  destruct (picker_index_in_range Sample.offline
              ["best"; "bestvideo+bestaudio/best"; "worst"]
              [Line "x"; Line "７"; Line " ２ "]) as (Hret & _ & Hrej).
  split.
  - eapply Hret. vm_compute. reflexivity.
  - apply Hrej. split.
    + vm_compute. discriminate.
    + right. exists 0. split; [vm_compute; reflexivity|]. left. lia.
Defined.

(** The claim as first stated fails on a capital [Q]: it is not an integer
    and it is not ['q'], yet the picker prints no error and does not prompt
    again; it returns [None] and leaves the next answer unread. *)
Lemma picker_quits_on_capital_q :
  "Q" <> "q"
  /\ PyStr.int (python Sample.offline) "Q" = None
  /\ ask Sample.offline ["best"; "bestvideo+bestaudio/best"; "worst"]
       [Line "Q"; Line "1"]
     = ([EvInput (prompt ["best"; "bestvideo+bestaudio/best"; "worst"])],
        Ret None, [Line "1"]).
Proof. split; [discriminate|]. split; reflexivity. Qed.

(** What is typed above ASCII: a fullwidth 2 picks the second option, a
    [q] after a no-break space quits, and a numeral of 4301 digits is
    refused whatever its value. *)
Example picker_reads_characters :
  ask Sample.offline ["best"; "bestvideo+bestaudio/best"; "worst"] [Line "２"]
  = ([EvInput (prompt ["best"; "bestvideo+bestaudio/best"; "worst"]);
      EvPrint "✅ Seleccionado: bestvideo+bestaudio/best"],
     Ret (Some "bestvideo+bestaudio/best"), [])
  /\ ask Sample.offline ["best"; "bestvideo+bestaudio/best"; "worst"]
       [Line " q"; Line "1"]
     = ([EvInput (prompt ["best"; "bestvideo+bestaudio/best"; "worst"])],
        Ret None, [Line "1"])
  /\ rejected Sample.offline ["best"; "bestvideo+bestaudio/best"; "worst"]
       (repeat_str "0" 4300 ++ "2").
Proof.
  split; [vm_compute; reflexivity|]. split; [vm_compute; reflexivity|].
  split; [vm_compute; discriminate|]. left. vm_compute. reflexivity.
Qed.

(** ** Sorting and removing duplicates *)

Section Sorting.

Context {A : Type} (key : A -> Z).

Lemma insert_desc_perm x l : insert_desc key x l ≡ₚ x :: l.
Proof.
  induction l as [|y l IH]; simpl; [done|].
  destruct (Z.ltb (key x) (key y)); [|done].
  by rewrite IH, Permutation_swap.
Qed.

Lemma sort_desc_perm l : sort_desc key l ≡ₚ l.
Proof.
  induction l as [|x l IH]; simpl; [done|].
  unfold sort_desc in *. simpl. by rewrite insert_desc_perm, IH.
Qed.



End Sorting.

Section Unique.

Implicit Types (l : list SmartFormat) (seen : gset Z).

Lemma unique_acc l : forall seen acc,
  unique_by_height l seen acc = (acc ++ unique_by_height l seen [])%list.
Proof.
  induction l as [|fmt l IH]; intros seen acc; simpl.
  - by rewrite app_nil_r.
  - destruct (Z.ltb 0 (height fmt) && _).
    + rewrite (IH _ (acc ++ [fmt])%list), (IH _ [fmt]).
      by rewrite <- app_assoc.
    + apply IH.
Qed.

(** Whether the loop keeps a format. *)
Lemma keeps_iff fmt seen :
  Z.ltb 0 (height fmt) && negb (bool_decide (height fmt ∈ seen)) = true
  <-> 0 < height fmt /\ height fmt ∉ seen.
Proof.
  rewrite andb_true_iff, Z.ltb_lt, negb_true_iff, bool_decide_eq_false. done.
Qed.

Lemma unique_spec l : forall seen f,
  f ∈ unique_by_height l seen []
  <-> 0 < height f /\ (height f ∉ seen) /\ first_with_height l f.
Proof.
  induction l as [|fmt l IH]; intros seen f; simpl.
  - split.
    + intros H. by apply elem_of_nil in H.
    + intros (_ & _ & l1 & l2 & Heq & _). by destruct l1.
  - destruct (Z.ltb 0 (height fmt) && _) eqn:Hkeep.
    + apply keeps_iff in Hkeep as [Hpos Hnew].
      rewrite unique_acc. simpl. rewrite elem_of_cons, IH.
      rewrite not_elem_of_union, not_elem_of_singleton. split.
      * intros [->|(Hf & [Hne Hseen] & l1 & l2 & -> & Hl1)].
        -- repeat split; try done. by exists [], l.
        -- repeat split; try done.
           exists (fmt :: l1), l2. split; [done|].
           constructor; [congruence|done].
      * intros (Hf & Hseen & l1 & l2 & Heq & Hl1).
        destruct l1 as [|g l1]; simplify_eq/=; [by left|].
        right. apply Forall_cons in Hl1 as [Hg Hl1].
        repeat split; try done; try congruence. by exists l1, l2.
    + rewrite IH. split.
      * intros (Hf & Hseen & l1 & l2 & -> & Hl1).
        repeat split; try done. exists (fmt :: l1), l2. split; [done|].
        constructor; [|done]. intros Heq.
        assert (Z.ltb 0 (height fmt)
                && negb (bool_decide (height fmt ∈ seen)) = true)
          by (apply keeps_iff; rewrite Heq; done).
        congruence.
      * intros (Hf & Hseen & l1 & l2 & Heq & Hl1).
        destruct l1 as [|g l1]; simplify_eq/=.
        -- assert (Z.ltb 0 (height f)
                   && negb (bool_decide (height f ∈ seen)) = true)
             by (by apply keeps_iff).
           congruence.
        -- apply Forall_cons in Hl1 as [Hg Hl1].
           repeat split; try done. by exists l1, l2.
Qed.


End Unique.

(** ** The first section of the menu *)

(** The loop over formats of positive height prints one line for each, in
    the order of the list. *)
Lemma smart_loop l : Forall (fun f => 0 < height f) l -> forall m w,
  for_each l smart_row m w
  = (Ret {| all_options := (all_options m ++ map selector l)%list;
            option_num := (option_num m + length l)%nat |},
     {| stdin := stdin w; clock := clock w;
        trace := trace w ++ smart_rows (option_num m) l |}).
Proof.
  induction 1 as [|f l Hf _ IH]; intros m w; simpl.
  - unfold ret. rewrite !app_nil_r, Nat.add_0_r. by destruct m, w.
  - unfold bind, smart_row. apply Z.ltb_lt in Hf. rewrite Hf.
    unfold add_option, bind, log, ret. simpl. rewrite IH. simpl.
    rewrite <- !app_assoc. simpl. rewrite Nat.add_succ_r.
    unfold smart_rows. simpl. rewrite Nat.add_0_r.
    do 4 f_equal. apply imap_ext. intros k g _. simpl.
    by rewrite Nat.add_succ_r.
Qed.

Lemma unique_formats_spec sf f :
  f ∈ unique_formats sf
  <-> 0 < height f /\ first_with_height (available_formats sf) f.
Proof.
  unfold unique_formats. rewrite sort_desc_perm, unique_spec.
  pose proof (not_elem_of_empty (C := gset Z) (height f)). tauto.
Qed.


(** ** The three downloads *)

Section Downloads.

Variable E : Env.
Variable self : YouTubeDownloader.

(** A [try] whose only clause takes every [Exception] and ends normally
    lets no [Exception] through. *)
Lemma try_lets_no_Exception {A} (body : M A) (handler : exn -> M A) w e :
  (forall e w, exists a, fst (handler e w) = Ret a) ->
  fst (try_ body [(is_Exception, handler)] w) = Exc e ->
  is_Exception e = false.
Proof.
  intros Hh. unfold try_.
  destruct (body w) as [[a|e'] w1]; simpl; [discriminate|].
  destruct (is_Exception e') eqn:He'.
  - destruct (Hh e' w1) as [a Ha]. rewrite Ha. discriminate.
  - unfold raise. simpl. by intros [= <-].
Qed.

Lemma video_lets_no_Exception url fs w e :
  fst (download_video E self url fs w) = Exc e -> is_Exception e = false.
Proof.
  unfold download_video. apply try_lets_no_Exception.
  intros e' w'. by exists tt.
Qed.

Lemma playlist_lets_no_Exception url fs w e :
  fst (download_playlist E self url fs w) = Exc e -> is_Exception e = false.
Proof.
  unfold download_playlist. apply try_lets_no_Exception.
  intros e' w'. by exists tt.
Qed.

Lemma audio_lets_no_Exception url w e :
  fst (download_audio_only E self url w) = Exc e -> is_Exception e = false.
Proof.
  unfold download_audio_only. apply try_lets_no_Exception.
  intros e' w'. by exists tt.
Qed.

(** [download_video] from the point where the format is known: the
    announcement, the library call with the format set, and one of three
    endings. *)
Lemma video_run url fs w f w1 :
  chosen_format E url fs w = (Ret (Some f), w1) ->
  let opts := <["format" := OStr f]> (base_opts self) in
  let called := (trace w1 ++ video_starts E self f ++ [EvDownload opts [url]])%list in
  download_video E self url fs w
  = match download E (clock w1) opts [url] with
    | Returns _ =>
        (Ret tt,
         {| stdin := stdin w1; clock := S (clock w1);
            trace := called
                     ++ [EvPrint (nl ++ "🎉 ¡Descarga completada exitosamente!")] |})
    | Raises e =>
        if is_Exception e
        then (Ret tt,
              {| stdin := stdin w1; clock := S (clock w1);
                 trace := called ++ video_failed e |})
        else (Exc e,
              {| stdin := stdin w1; clock := S (clock w1); trace := called |})
    end.
Proof.
  intros Hf opts called. subst opts called.
  unfold download_video, try_, bind. rewrite Hf.
  unfold print, call_download, video_starts, video_failed, emit, tick.
  cbn -[nl repeat_str].
  destruct (download E (clock w1) _ [url]) as [[]|e]; cbn -[nl repeat_str].
  - by rewrite <- !app_assoc.
  - destruct (is_Exception e); cbn -[nl repeat_str]; by rewrite <- !app_assoc.
Qed.

Lemma playlist_run url fs w f w1 w2 :
  chosen_format E url fs w = (Ret (Some f), w1) ->
  confirm_playlist E url w1 = (Ret true, w2) ->
  let opts := playlist_opts E self f in
  let called :=
    (trace w2
     ++ [EvPrint (nl ++ "🚀 Iniciando descarga de playlist...");
         EvPrint ("📁 Carpeta: " ++ absolute E (download_path self));
         EvPrint ("🎯 Formato: " ++ f);
         EvPrint (repeat_str "-" 50);
         EvDownload opts [url]])%list in
  download_playlist E self url fs w
  = match download E (clock w2) opts [url] with
    | Returns _ =>
        (Ret tt,
         {| stdin := stdin w2; clock := S (clock w2);
            trace := called
                     ++ [EvPrint (nl ++ "🎉 ¡Playlist descargada completamente!")] |})
    | Raises e =>
        if is_Exception e
        then (Ret tt,
              {| stdin := stdin w2; clock := S (clock w2);
                 trace := called ++ playlist_failed e |})
        else (Exc e,
              {| stdin := stdin w2; clock := S (clock w2); trace := called |})
    end.
Proof.
  intros Hf Hgo opts called. subst opts called.
  unfold download_playlist, try_, bind. rewrite Hf. rewrite Hgo.
  unfold print, call_download, playlist_opts, playlist_failed, emit, tick.
  cbn -[nl repeat_str].
  destruct (download E (clock w2) _ [url]) as [[]|e]; cbn -[nl repeat_str].
  - by rewrite <- !app_assoc.
  - destruct (is_Exception e); cbn -[nl repeat_str]; by rewrite <- !app_assoc.
Qed.

Lemma audio_run url w :
  let called :=
    (trace w
     ++ [EvPrint (nl ++ "🎵 Descargando audio en formato MP3...");
         EvPrint ("📁 Carpeta: " ++ absolute E (download_path self));
         EvPrint (repeat_str "-" 50);
         EvDownload (audio_opts self) [url]])%list in
  download_audio_only E self url w
  = match download E (clock w) (audio_opts self) [url] with
    | Returns _ =>
        (Ret tt,
         {| stdin := stdin w; clock := S (clock w);
            trace := called
                     ++ [EvPrint (nl ++ "🎉 ¡Audio descargado exitosamente!")] |})
    | Raises e =>
        if is_Exception e
        then (Ret tt,
              {| stdin := stdin w; clock := S (clock w);
                 trace := called ++ audio_failed e |})
        else (Exc e,
              {| stdin := stdin w; clock := S (clock w); trace := called |})
    end.
Proof.
  intros called. subst called.
  unfold download_audio_only, try_, bind.
  unfold print, call_download, audio_failed, emit, tick.
  cbn -[nl repeat_str audio_opts].
  destruct (download E (clock w) _ [url]) as [[]|e];
    cbn -[nl repeat_str audio_opts].
  - by rewrite <- !app_assoc.
  - destruct (is_Exception e); cbn -[nl repeat_str audio_opts];
      by rewrite <- !app_assoc.
Qed.

End Downloads.

(** C5 (as amended). An exception deriving from [Exception] that the
    library raises during the download is caught and printed:
    [download_video], [download_playlist] and [download_audio_only] then
    print their error message and return normally; and none of the three
    ever hands an exception deriving from [Exception] on to its caller.
    (The library's error classes derive from [Exception];
    [KeyboardInterrupt] and [SystemExit] do not.) *)
Theorem library_exceptions_caught E self url e :
  is_Exception e = true ->
  (forall fs w f w1,
      chosen_format E url fs w = (Ret (Some f), w1) ->
      download E (clock w1) (<["format" := OStr f]> (base_opts self)) [url]
      = Raises e ->
      exists w' evs,
        download_video E self url fs w = (Ret tt, w')
        /\ trace w' = (trace w1 ++ evs ++ video_failed e)%list)
  /\ (forall fs w f w1 w2,
        chosen_format E url fs w = (Ret (Some f), w1) ->
        confirm_playlist E url w1 = (Ret true, w2) ->
        download E (clock w2) (playlist_opts E self f) [url] = Raises e ->
        exists w' evs,
          download_playlist E self url fs w = (Ret tt, w')
          /\ trace w' = (trace w2 ++ evs ++ playlist_failed e)%list)
  /\ (forall w,
        download E (clock w) (audio_opts self) [url] = Raises e ->
        exists w' evs,
          download_audio_only E self url w = (Ret tt, w')
          /\ trace w' = (trace w ++ evs ++ audio_failed e)%list)
  /\ (forall fs w e',
        fst (download_video E self url fs w) = Exc e'
        \/ fst (download_playlist E self url fs w) = Exc e'
        \/ fst (download_audio_only E self url w) = Exc e' ->
        is_Exception e' = false).
Proof.
  intros He. repeat split.
  - intros fs w f w1 Hf Hraise.
    rewrite (video_run E self url fs w f w1 Hf), Hraise, He.
    exists {| stdin := stdin w1; clock := S (clock w1);
              trace := (trace w1 ++ video_starts E self f
                        ++ [EvDownload (<["format" := OStr f]> (base_opts self))
                                       [url]])
                       ++ video_failed e |},
           (video_starts E self f
            ++ [EvDownload (<["format" := OStr f]> (base_opts self)) [url]])%list.
    split; [reflexivity|]. cbn [trace]. by rewrite <- !app_assoc.
  - intros fs w f w1 w2 Hf Hgo Hraise.
    rewrite (playlist_run E self url fs w f w1 w2 Hf Hgo), Hraise, He.
    eexists _, [_; _; _; _; _]. split; [reflexivity|].
    cbn [trace]. rewrite <- app_assoc. reflexivity.
  - intros w Hraise.
    rewrite (audio_run E self url w), Hraise, He.
    eexists _, [_; _; _; _]. split; [reflexivity|].
    cbn [trace]. rewrite <- app_assoc. reflexivity.
  - intros fs w e' [H|[H|H]].
    + by apply video_lets_no_Exception in H.
    + by apply playlist_lets_no_Exception in H.
    + by apply audio_lets_no_Exception in H.
Qed.

(** The site refuses every download; and, apart from that, a download
    interrupted with Ctrl-C is the caller's business. *)
Lemma library_exceptions_caught_forbidden :
  (exists w' evs,
      download_video (Sample.failing Sample.forbidden)
        (Sample.downloader (Sample.failing Sample.forbidden))
        Sample.video_url (Some "best") (Sample.typing [])
      = (Ret tt, w')
      /\ trace w'
         = (trace (Sample.typing []) ++ evs
            ++ video_failed Sample.forbidden)%list)
  /\ (exists w' evs,
        download_playlist (Sample.failing Sample.forbidden)
          (Sample.downloader (Sample.failing Sample.forbidden))
          Sample.video_url (Some "best") (Sample.typing [])
        = (Ret tt, w')
        /\ trace w'
           = (trace (snd (confirm_playlist (Sample.failing Sample.forbidden)
                            Sample.video_url (Sample.typing [])))
              ++ evs ++ playlist_failed Sample.forbidden)%list)
  /\ (exists w' evs,
        download_audio_only (Sample.failing Sample.forbidden)
          (Sample.downloader (Sample.failing Sample.forbidden))
          Sample.video_url (Sample.typing [])
        = (Ret tt, w')
        /\ trace w'
           = (trace (Sample.typing []) ++ evs
              ++ audio_failed Sample.forbidden)%list)
  /\ is_Exception KeyboardInterrupt = false.
Proof.
  destruct (library_exceptions_caught (Sample.failing Sample.forbidden)
              (Sample.downloader (Sample.failing Sample.forbidden))
              Sample.video_url Sample.forbidden eq_refl)
    as (Hvideo & Hplaylist & Haudio & _).
  destruct (library_exceptions_caught (Sample.failing KeyboardInterrupt)
              (Sample.downloader (Sample.failing KeyboardInterrupt))
              Sample.video_url Sample.forbidden eq_refl)
    as (_ & _ & _ & Hnever).
  split; [|split; [|split]].
  - apply (Hvideo (Some "best") (Sample.typing []) "best" (Sample.typing []));
      reflexivity.
  - apply (Hplaylist (Some "best") (Sample.typing []) "best" (Sample.typing [])
             (snd (confirm_playlist (Sample.failing Sample.forbidden)
                     Sample.video_url (Sample.typing []))));
      vm_compute; reflexivity.
  - apply (Haudio (Sample.typing [])). reflexivity.
  - apply (Hnever None (Sample.typing []) KeyboardInterrupt).
    right; right. vm_compute. reflexivity.
Defined.

(** The claim as first stated fails on Ctrl-C: a [KeyboardInterrupt] that
    the library raises during the download is not caught by any of the
    three.  Each hands it on to its caller, and the last thing in its trace
    is the library's download call: no error message is printed. *)
Lemma interrupt_leaves_the_downloads :
  download (Sample.failing KeyboardInterrupt) 0
    (audio_opts (Sample.downloader (Sample.failing KeyboardInterrupt)))
    [Sample.video_url]
  = Raises KeyboardInterrupt
  /\ (exists w',
        download_video (Sample.failing KeyboardInterrupt)
          (Sample.downloader (Sample.failing KeyboardInterrupt))
          Sample.video_url (Some "best") (Sample.typing [])
        = (Exc KeyboardInterrupt, w')
        /\ last (trace w')
           = Some (EvDownload
                     (<["format" := OStr "best"]>
                        (base_opts
                           (Sample.downloader (Sample.failing KeyboardInterrupt))))
                     [Sample.video_url]))
  /\ (exists w',
        download_playlist (Sample.failing KeyboardInterrupt)
          (Sample.downloader (Sample.failing KeyboardInterrupt))
          Sample.video_url (Some "best") (Sample.typing [])
        = (Exc KeyboardInterrupt, w')
        /\ last (trace w')
           = Some (EvDownload
                     (playlist_opts (Sample.failing KeyboardInterrupt)
                        (Sample.downloader (Sample.failing KeyboardInterrupt))
                        "best")
                     [Sample.video_url]))
  /\ (exists w',
        download_audio_only (Sample.failing KeyboardInterrupt)
          (Sample.downloader (Sample.failing KeyboardInterrupt))
          Sample.video_url (Sample.typing [])
        = (Exc KeyboardInterrupt, w')
        /\ last (trace w')
           = Some (EvDownload
                     (audio_opts
                        (Sample.downloader (Sample.failing KeyboardInterrupt)))
                     [Sample.video_url])).
Proof.
  split; [reflexivity|].
  split; [|split]; eexists; (split; [vm_compute; reflexivity|]);
    vm_compute; reflexivity.
Qed.

(** C6. The chosen selector goes unchanged into the library's download
    call: without an explicit format, [download_video] sets ['format'] to
    the string [select_quality] returned, leaves the other base options as
    they are, and calls the library's download with these options and the
    given URL. *)
Theorem selector_passthrough E self url w s w1 :
  select_quality E url w = (Ret (Some s), w1) ->
  let opts := <["format" := OStr s]> (base_opts self) in
  opts !! "format" = Some (OStr s)
  /\ (forall k, k <> "format" -> opts !! k = base_opts self !! k)
  /\ exists rest,
       trace (snd (download_video E self url None w))
       = (trace w1 ++ video_starts E self s ++ EvDownload opts [url] :: rest)%list.
Proof.
  intros Hsel opts. split; [apply lookup_insert_eq|].
  split; [intros k Hk; by apply lookup_insert_ne|].
  rewrite (video_run E self url None w s w1 Hsel). fold opts.
  destruct (download E (clock w1) opts [url]) as [[]|e]; cbn [snd trace].
  - exists [EvPrint (nl ++ "🎉 ¡Descarga completada exitosamente!")].
    rewrite <- app_assoc. reflexivity.
  - destruct (is_Exception e); cbn [snd trace].
    + exists (video_failed e). rewrite <- app_assoc. reflexivity.
    + exists []. reflexivity.
Qed.

(** The user picks the first line of the menu; the selector behind it is
    what the library is asked to download. *)
Lemma selector_passthrough_first_option :
  let self := Sample.downloader Sample.flaky in
  let w1 := snd (select_quality Sample.flaky Sample.video_url
                   (Sample.typing [Line "1"])) in
  let opts := <["format" := OStr "best"]> (base_opts self) in
  opts !! "format" = Some (OStr "best")
  /\ (forall k, k <> "format" -> opts !! k = base_opts self !! k)
  /\ exists rest,
       trace (snd (download_video Sample.flaky self Sample.video_url None
                     (Sample.typing [Line "1"])))
       = (trace w1 ++ video_starts Sample.flaky self "best"
          ++ EvDownload opts [Sample.video_url] :: rest)%list.
Proof.
  intros self w1.
  apply (selector_passthrough Sample.flaky self Sample.video_url
           (Sample.typing [Line "1"]) "best" w1).
  vm_compute. reflexivity.
Defined.

(** ** main *)

Lemma banner_printed w :
  for_each banner (fun line _ => print line) tt w = (Ret tt, greeted w).
Proof.
  unfold greeted, banner, for_each, bind, print, ret, emit.
  cbn -[repeat_str]. by rewrite <- !app_assoc.
Qed.

(** The opening: the URL of the command line when there is one, else the
    line typed at the prompt, stripped. *)
Lemma opening_runs E args w :
  opening E args w
  = if truthy_str (argparse.url args)
    then (Ret (default "" (argparse.url args)), greeted w)
    else
      let asked := (trace (greeted w) ++ [EvInput url_prompt])%list in
      match stdin w with
      | [] => (Exc EOFError, {| stdin := []; clock := clock w; trace := asked |})
      | Line s :: rest =>
          (Ret (PyStr.strip (python E) s),
           {| stdin := rest; clock := clock w; trace := asked |})
      | CtrlC :: rest =>
          (Exc KeyboardInterrupt,
           {| stdin := rest; clock := clock w; trace := asked |})
      end.
Proof.
  unfold opening, bind. rewrite banner_printed. unfold read_url.
  destruct (truthy_str (argparse.url args)); [done|].
  unfold bind, input. cbn -[banner url_prompt].
  by destruct (stdin w) as [|[s|] rest].
Qed.

(** The opening calls neither the library nor the file system. *)
Lemma opening_makes_no_call E args w :
  clock (snd (opening E args w)) = clock w
  /\ exists evs,
       trace (snd (opening E args w)) = (trace w ++ evs)%list
       /\ Forall (fun ev => is_call ev = false) evs.
Proof.
  rewrite opening_runs.
  assert (Hbanner : Forall (fun ev => is_call ev = false) (map EvPrint banner))
    by (by repeat constructor).
  destruct (truthy_str (argparse.url args)).
  - split; [done|]. by exists (map EvPrint banner).
  - assert (Forall (fun ev => is_call ev = false)
              (map EvPrint banner ++ [EvInput url_prompt]))
      by (apply Forall_app; split; [done|by repeat constructor]).
    destruct (stdin w) as [|[s|] rest]; (split; [done|]);
      exists (map EvPrint banner ++ [EvInput url_prompt])%list;
      (split; [cbn [snd trace greeted]; by rewrite <- app_assoc|done]).
Qed.

(** [main], from the opening on. *)
Lemma main_after_opening E args w :
  main E args w
  = match opening E args w with
    | (Ret url, w1) =>
        if String.eqb url ""
        then (Exc (SystemExit 1), emit (EvPrint "❌ URL requerida") w1)
        else if negb (valid_url url)
        then (Exc (SystemExit 1), emit (EvPrint invalid_url_message) w1)
        else dispatch E args url w1
    | (Exc e, w1) => (Exc e, w1)
    end.
Proof.
  unfold main, opening, bind. rewrite banner_printed.
  destruct (read_url E args (greeted w)) as [[url|e] w1]; [|done].
  destruct (String.eqb url ""); [done|].
  by destruct (negb (valid_url url)).
Qed.

(** *** Texts inside texts *)

Lemma prefix_refl (s : string) : String.prefix s s = true.
Proof.
  induction s as [|a s IH]; [done|]. simpl.
  by destruct (ascii_dec a a).
Qed.

Lemma prefix_lower (n : string) : forall h,
  String.prefix n h = true ->
  String.prefix (PyStr.lower n) (PyStr.lower h) = true.
Proof.
  induction n as [|a n IH]; intros [|b h]; simpl; try done.
  destruct (ascii_dec a b) as [->|]; [|done]. intros Hp.
  destruct (ascii_dec (PyStr.lower_ascii b) (PyStr.lower_ascii b)); [|done].
  by apply IH.
Qed.

(** A text found in a URL is found, in lower case, in the URL put in lower
    case. *)
Lemma contains_lower (n h : string) :
  PyStr.contains n h = true ->
  PyStr.contains (PyStr.lower n) (PyStr.lower h) = true.
Proof.
  induction h as [|b h IH]; cbn [PyStr.contains PyStr.lower];
    intros Hc; apply orb_true_iff in Hc as [Hp|Hc].
  - by destruct n.
  - done.
  - apply (prefix_lower n (String b h)) in Hp. cbn [PyStr.lower] in Hp.
    by rewrite Hp.
  - by rewrite (IH Hc), orb_true_r.
Qed.

Lemma contains_app (n pre s : string) :
  PyStr.contains n s = true -> PyStr.contains n (pre ++ s) = true.
Proof.
  intros Hs. induction pre as [|a pre IH]; [done|].
  change (String a pre ++ s) with (String a (pre ++ s)).
  cbn [PyStr.contains]. by rewrite IH, orb_true_r.
Qed.

Lemma contains_tail (a : ascii) (n : string) : forall s,
  PyStr.contains (String a n) s = true -> PyStr.contains n s = true.
Proof.
  induction s as [|b s IH]; cbn [PyStr.contains]; intros Hc;
    apply orb_true_iff in Hc as [Hp|Hc]; try done.
  - cbn [String.prefix] in Hp. destruct (ascii_dec a b); [|done].
    destruct s as [|c s]; cbn [PyStr.contains]; rewrite Hp;
      by rewrite ?orb_true_r.
  - by rewrite (IH Hc), orb_true_r.
Qed.

Lemma prefix_until (stop : ascii -> bool) (n : string) : forall s,
  String.prefix n (until stop s) = true -> String.prefix n s = true.
Proof.
  induction n as [|a n IH]; intros [|b s]; simpl; try done.
  destruct (stop b); [done|]. simpl.
  destruct (ascii_dec a b); [|done]. apply IH.
Qed.

Lemma contains_until (stop : ascii -> bool) (n : string) : forall s,
  PyStr.contains n (until stop s) = true -> PyStr.contains n s = true.
Proof.
  induction s as [|b s IH]; [done|].
  cbn [until]. destruct (stop b) eqn:Hstop.
  - cbn [PyStr.contains]. rewrite orb_false_r.
    destruct n as [|a n]; [done|discriminate].
  - cbn [PyStr.contains]. intros Hc. apply orb_true_iff in Hc as [Hp|Hc].
    + assert (String.prefix n (until stop (String b s)) = true) as Hp'
        by (cbn [until]; by rewrite Hstop).
      by rewrite (prefix_until _ _ _ Hp').
    + by rewrite (IH Hc), orb_true_r.
Qed.

Lemma ends_with_contains (suffix : string) : forall s,
  ends_with suffix s = true -> PyStr.contains suffix s = true.
Proof.
  induction s as [|b s IH]; cbn [ends_with PyStr.contains]; intros He;
    apply orb_true_iff in He as [He|He]; try done.
  - apply String.eqb_eq in He as ->. done.
  - apply String.eqb_eq in He as ->. by rewrite prefix_refl.
  - by rewrite (IH He), orb_true_r.
Qed.

Lemma substring_all : forall (s : string) (m : nat),
  (String.length s <= m)%nat -> String.substring 0 m s = s.
Proof.
  induction s as [|a s IH]; intros [|m] Hm; simpl in *; try done; try lia.
  rewrite IH; [done|lia].
Qed.

(** What follows the scheme is the end of the URL. *)
Lemma after_scheme_suffix : forall (url rest : string),
  after_scheme url = Some rest -> exists pre, url = pre ++ rest.
Proof.
  induction url as [|a r IH]; intros rest; [done|].
  cbn [after_scheme]. destruct (String.prefix "://" (String a r)) eqn:Hp.
  - intros [= <-].
    destruct r as [|b [|c r]]; cbn [String.prefix] in Hp;
      repeat match type of Hp with
             | context [ascii_dec ?x ?y] => destruct (ascii_dec x y)
             end; try done.
    exists (String a (String b (String c ""))).
    change (String a (String b (String c "")) ++ ?x)
      with (String a (String b (String c x))).
    cbn [String.length String.substring].
    rewrite substring_all; [done|lia].
  - intros Hrest. destruct (IH rest Hrest) as [pre ->].
    by exists (String a pre).
Qed.

(** A text found in the host is found in the URL. *)
Lemma contains_host (n url : string) :
  PyStr.contains n (written_host url) = true -> PyStr.contains n url = true.
Proof.
  unfold written_host. intros Hc. apply contains_until in Hc.
  destruct (after_scheme url) as [rest|] eqn:Hrest; [|done].
  destruct (after_scheme_suffix url rest Hrest) as [pre ->].
  by apply contains_app.
Qed.

(** A host of the video site, written in lower case, holds one of the two
    texts [main] looks for, and so does its URL. *)
Lemma video_site_valid (url : string) :
  video_site_url url = true ->
  written_host url = url_host url ->
  valid_url url = true.
Proof.
  unfold video_site_url, valid_url.
  change (url_host url) with (PyStr.lower (written_host url)).
  intros Hsite Hlow. rewrite <- Hlow in Hsite.
  apply orb_true_iff in Hsite as [Hsite|Hsub];
    [apply orb_true_iff in Hsite as [Hcom|Hbe]|].
  - apply String.eqb_eq in Hcom.
    rewrite (contains_host "youtube.com" url); [done|]. by rewrite Hcom.
  - apply String.eqb_eq in Hbe.
    rewrite (contains_host "youtu.be" url); [by rewrite orb_true_r|].
    by rewrite Hbe.
  - rewrite (contains_host "youtube.com" url); [done|].
    eapply contains_tail, ends_with_contains, Hsub.
Qed.

(** C2 (as amended). A URL, from the command line or typed at the prompt,
    that is not empty and holds neither ['youtube.com'] nor ['youtu.be'] in
    any letter case is refused: [main] prints the invalid-URL message and
    exits with status 1, having called neither the file system (no
    downloader is built) nor the library.  A URL that holds one of the two
    texts as written passes, and [main] goes on to build the downloader;
    so does every URL of the video site whose host is written in lower
    case. *)
Theorem url_validation E args w url w1 :
  opening E args w = (Ret url, w1) ->
  url <> "" ->
  (PyStr.contains "youtube.com" (PyStr.lower url) = false ->
   PyStr.contains "youtu.be" (PyStr.lower url) = false ->
     main E args w
     = (Exc (SystemExit 1), emit (EvPrint invalid_url_message) w1)
     /\ clock w1 = clock w
     /\ exists evs, trace w1 = (trace w ++ evs)%list
                    /\ Forall (fun ev => is_call ev = false) evs)
  /\ (PyStr.contains "youtube.com" url = true
      \/ PyStr.contains "youtu.be" url = true ->
      main E args w = dispatch E args url w1)
  /\ (video_site_url url = true ->
      written_host url = url_host url ->
      main E args w = dispatch E args url w1).
Proof.
  intros Hopen Hurl. rewrite main_after_opening.
  pose proof (opening_makes_no_call E args w) as Hquiet.
  rewrite Hopen in *. simpl in Hquiet.
  apply String.eqb_neq in Hurl. rewrite Hurl.
  split; [|split].
  - intros Hcom Hbe.
    assert (valid_url url = false) as ->; [|by split].
    unfold valid_url. apply orb_false_iff. split.
    + destruct (PyStr.contains "youtube.com" url) eqn:Hc; [|done].
      apply contains_lower in Hc.
      change (PyStr.lower "youtube.com") with "youtube.com" in Hc. congruence.
    + destruct (PyStr.contains "youtu.be" url) eqn:Hc; [|done].
      apply contains_lower in Hc.
      change (PyStr.lower "youtu.be") with "youtu.be" in Hc. congruence.
  - intros Hvalid. assert (valid_url url = true) as ->; [|done].
    unfold valid_url. apply orb_true_iff. exact Hvalid.
  - intros Hsite Hlow. by rewrite (video_site_valid url Hsite Hlow).
Qed.

(** A file server's address typed at the prompt, with a no-break space
    after it, is refused; the address of a video, given on the command
    line, passes. *)
Lemma url_validation_typed :
  (main Sample.flaky Sample.bare_command_line
     (Sample.typing [Line "  ftp://files.example.org/a.mp4  "])
   = (Exc (SystemExit 1),
      emit (EvPrint invalid_url_message)
        (snd (opening Sample.flaky Sample.bare_command_line
                (Sample.typing [Line "  ftp://files.example.org/a.mp4  "]))))
   /\ clock (snd (opening Sample.flaky Sample.bare_command_line
                    (Sample.typing [Line "  ftp://files.example.org/a.mp4  "])))
      = clock (Sample.typing [Line "  ftp://files.example.org/a.mp4  "])
   /\ exists evs,
        trace (snd (opening Sample.flaky Sample.bare_command_line
                      (Sample.typing [Line "  ftp://files.example.org/a.mp4  "])))
        = (trace (Sample.typing [Line "  ftp://files.example.org/a.mp4  "])
           ++ evs)%list
        /\ Forall (fun ev => is_call ev = false) evs)
  /\ main Sample.flaky (Sample.command_line Sample.video_url) (Sample.typing [])
     = dispatch Sample.flaky (Sample.command_line Sample.video_url)
         Sample.video_url
         (snd (opening Sample.flaky (Sample.command_line Sample.video_url)
                 (Sample.typing []))).
Proof.
  split.
  - apply (url_validation Sample.flaky Sample.bare_command_line
             (Sample.typing [Line "  ftp://files.example.org/a.mp4  "])
             "ftp://files.example.org/a.mp4"
             (snd (opening Sample.flaky Sample.bare_command_line
                     (Sample.typing [Line "  ftp://files.example.org/a.mp4  "])))).
    + vm_compute. reflexivity.
    + discriminate.
    + vm_compute. reflexivity.
    + vm_compute. reflexivity.
  - apply (url_validation Sample.flaky (Sample.command_line Sample.video_url)
             (Sample.typing []) Sample.video_url
             (snd (opening Sample.flaky (Sample.command_line Sample.video_url)
                     (Sample.typing [])))).
    + vm_compute. reflexivity.
    + discriminate.
    + vm_compute. reflexivity.
    + vm_compute. reflexivity.
Defined.

(** The claim as first stated fails in both its halves, since [main] looks
    for two texts in the URL and not at its site.  A page of another site
    whose address mentions the video site is not of the video site, and
    [main] neither prints the invalid-URL message nor exits: it builds the
    downloader and has the library download.  And a video of the video
    site whose address is written in capitals is of the video site, and
    [main] prints the invalid-URL message and exits with status 1, having
    built no downloader. *)
Lemma validation_looks_for_text :
  (video_site_url Sample.other_site_url = false
   /\ exists w',
        main Sample.flaky (Sample.command_line Sample.other_site_url)
             (Sample.typing [])
        = (Ret tt, w')
        /\ existsb (prints invalid_url_message) (trace w') = false
        /\ trace w' !! 4%nat = Some (EvMkdir "./downloads")
        /\ trace w' !! 9%nat
           = Some (EvDownload
                     (<["format" := OStr "best"]>
                        (base_opts (Sample.downloader Sample.flaky)))
                     [Sample.other_site_url]))
  /\ (video_site_url Sample.capitals_url = true
      /\ main Sample.flaky (Sample.command_line Sample.capitals_url)
              (Sample.typing [])
         = (Exc (SystemExit 1),
            {| stdin := []; clock := 0;
               trace := map EvPrint banner ++ [EvPrint invalid_url_message] |})).
Proof.
  split.
  - split; [reflexivity|].
    eexists. split; [vm_compute; reflexivity|].
    split; [vm_compute; reflexivity|]. split; vm_compute; reflexivity.
  - split; vm_compute; reflexivity.
Qed.

(** *** The command line *)

























(** ** get_manual_formats *)

Section Manual.

Variable E : Env.

(** What the loop body does with one format: a format that is not listed
    is passed over; a listed one needs its [format_id]. *)
Lemma classify_cases f acc w :
  (listed f = false /\ classify f acc w = (Ret acc, w))
  \/ (listed f = true /\ fmt_format_id f = None
      /\ classify f acc w = (Exc (KeyError "'format_id'"), w))
  \/ (listed f = true /\ exists id one,
        fmt_format_id f = Some id
        /\ classify f acc w = (Ret (join_lists acc one), w)
        /\ Forall (fun v => ve_height v <> 0) (combined one ++ video one)
        /\ map ae_abr (audio one)
           = (if audio_only f then [get (fmt_abr f)] else [])).
Proof.
  assert (Hnz : forall o, truthy_num o = true -> default 0 o <> 0).
  { intros [n|]; simpl; [|done]. intros Hn. apply negb_true_iff in Hn.
    by apply Z.eqb_neq in Hn. }
  unfold classify, listed, audio_only, item_format_id, bind, ret, raise.
  destruct (not_none (get_or "none" (fmt_vcodec f))) eqn:Hv;
    destruct (not_none (get_or "none" (fmt_acodec f))) eqn:Ha;
    destruct (truthy_num (get (fmt_height f))) eqn:Ht; simpl;
    try (left; by split);
    right; (destruct (fmt_format_id f) as [id|]; [right|left; by repeat split]);
    (split; [done|]); exists id.
  - eexists {| combined := [_]; video := []; audio := [] |}.
    split; [done|]. split; [unfold join_lists; simpl; by rewrite !app_nil_r|].
    split; [|done]. repeat constructor. by apply Hnz.
  - eexists {| combined := []; video := []; audio := [_] |}.
    split; [done|]. split; [unfold join_lists; simpl; by rewrite !app_nil_r|].
    split; [|done]. constructor.
  - eexists {| combined := []; video := [_]; audio := [] |}.
    split; [done|]. split; [unfold join_lists; simpl; by rewrite !app_nil_r|].
    split; [|done]. repeat constructor. by apply Hnz.
  - eexists {| combined := []; video := []; audio := [_] |}.
    split; [done|]. split; [unfold join_lists; simpl; by rewrite !app_nil_r|].
    split; [|done]. constructor.
  - eexists {| combined := []; video := []; audio := [_] |}.
    split; [done|]. split; [unfold join_lists; simpl; by rewrite !app_nil_r|].
    split; [|done]. constructor.
Qed.

Lemma classify_loop_world formats : forall acc w,
  snd (for_each formats classify acc w) = w.
Proof.
  induction formats as [|f formats IH]; intros acc w; simpl; [done|].
  unfold bind.
  destruct (classify_cases f acc w)
    as [(_ & ->)|[(_ & _ & ->)|(_ & id & one & _ & -> & _)]]; simpl; auto.
Qed.


Lemma join_lists_assoc a b c :
  join_lists (join_lists a b) c = join_lists a (join_lists b c).
Proof. unfold join_lists. simpl. by rewrite <- !app_assoc. Qed.

Lemma join_lists_empty a : join_lists a no_formats = a.
Proof. unfold join_lists. simpl. rewrite !app_nil_r. by destruct a. Qed.

(** The whole loop: it stops at the first listed format without a
    [format_id]; else it files every listed format, in order. *)
Lemma classify_loop formats : forall acc w,
  (Exists (fun f => listed f = true /\ fmt_format_id f = None) formats
   /\ for_each formats classify acc w = (Exc (KeyError "'format_id'"), w))
  \/ (exists found,
        for_each formats classify acc w = (Ret (join_lists acc found), w)
        /\ Forall (fun f => listed f = true -> is_Some (fmt_format_id f)) formats
        /\ Forall (fun v => ve_height v <> 0) (combined found ++ video found)
        /\ map ae_abr (audio found)
           = map (fun f => get (fmt_abr f))
                 (filter (fun f => audio_only f = true) formats)).
Proof.
  induction formats as [|f formats IH]; intros acc w; simpl.
  - right. exists no_formats. rewrite join_lists_empty. by repeat split.
  - unfold bind.
    destruct (classify_cases f acc w)
      as [(Hl & ->)|[(Hl & Hid & ->)|(Hl & id & one & Hid & -> & Hnz & Habr)]].
    + destruct (IH acc w) as [(Hex & ->)|(found & -> & Hids & Hnz & Habr)].
      * left. split; [by apply Exists_cons_tl|done].
      * right. exists found. split; [done|].
        split; [constructor; [congruence|done]|]. split; [done|].
        rewrite filter_cons. destruct (decide (audio_only f = true)) as [Ha|];
          [|done].
        unfold listed, audio_only in *.
        destruct (not_none (get_or "none" (fmt_acodec f)));
          [by rewrite orb_true_r in Hl|by rewrite andb_false_r in Ha].
    + left. split; [by apply Exists_cons_hd|done].
    + destruct (IH (join_lists acc one) w)
        as [(Hex & ->)|(found & -> & Hids & Hnz' & Habr')].
      * left. split; [by apply Exists_cons_tl|done].
      * right. exists (join_lists one found).
        rewrite join_lists_assoc. split; [done|].
        split; [constructor; [by rewrite Hid|done]|]. split.
        -- unfold join_lists. simpl.
           apply Forall_app in Hnz as [? ?]. apply Forall_app in Hnz' as [? ?].
           rewrite !Forall_app. by repeat split.
        -- unfold join_lists. simpl. rewrite map_app, Habr, Habr', filter_cons.
           by destruct (audio_only f); destruct (decide _).
Qed.

End Manual.

Lemma join_lists_first a : join_lists no_formats a = a.
Proof. unfold join_lists. simpl. by destruct a. Qed.

(** The two ways [get_manual_formats] ends: with nothing, or with the
    sorted lists of what the loop filed.  Either way it has made one
    call. *)
Lemma manual_cases E url w :
  let called :=
    {| stdin := stdin w; clock := S (clock w);
       trace := trace w ++ [EvExtract quiet_opts url] |} in
  get_manual_formats E url w = (Ret no_formats, called)
  \/ exists i formats found,
       extract_info E (clock w) quiet_opts url = Returns (Some i)
       /\ get_or [] (info_formats i) = Some formats
       /\ for_each formats classify no_formats called = (Ret found, called)
       /\ Forall (fun f => listed f = true -> is_Some (fmt_format_id f)) formats
       /\ Forall (fun v => ve_height v <> 0) (combined found ++ video found)
       /\ map ae_abr (audio found)
          = map (fun f => get (fmt_abr f))
                (filter (fun f => audio_only f = true) formats)
       /\ ((length (audio found) < 2)%nat
           \/ Forall (fun a => is_Some (ae_abr a)) (audio found))
       /\ get_manual_formats E url w
          = (Ret {| combined := sort_desc ve_height (combined found);
                    video := sort_desc ve_height (video found);
                    audio := sort_desc (fun x => default 0 (ae_abr x))
                                       (audio found) |},
             called).
Proof.
  intros called.
  unfold get_manual_formats, try_, bind, call_extract, emit, tick.
  destruct (extract_info E (clock w) quiet_opts url) as [[i|]|e] eqn:Hmeta;
    cbn -[for_each]; [|by left..].
  destruct (get_or [] (info_formats i)) as [formats|] eqn:Hformats;
    cbn -[for_each]; [|by left].
  fold called.
  destruct (classify_loop formats no_formats called)
    as [(_ & ->)|(found & Hloop & Hids & Hnz & Habrs)]; cbn -[for_each];
    [by left|].
  rewrite join_lists_first in Hloop. rewrite Hloop. cbn -[for_each].
  unfold sort_audio.
  destruct ((2 <=? length (audio found))%nat && existsb _ (audio found))
    eqn:Hbad; cbn -[for_each]; [by left|].
  right. exists i, formats, found. repeat split; try done.
  apply andb_false_iff in Hbad as [Hlen|Hall].
  - left. by apply Nat.leb_gt in Hlen.
  - right. apply Forall_forall. intros a Ha.
    destruct (ae_abr a) as [n|] eqn:Habr; [by eexists|].
    assert (existsb (fun x => negb (bool_decide (is_Some (ae_abr x))))
                    (audio found) = true); [|congruence].
    apply existsb_exists. exists a. split; [by apply list_elem_of_In|].
    rewrite Habr. apply negb_true_iff, bool_decide_eq_false.
    by intros [? ?].
Qed.

Lemma sort_desc_sorted_weak {A} (key : A -> Z) l :
  StronglySorted (fun a b => key b <= key a) (sort_desc key l).
Proof.
  induction l as [|x l IH]; simpl; [constructor|].
  unfold sort_desc in *. simpl.
  generalize dependent (foldr (insert_desc key) [] l). clear l.
  intros l. induction 1 as [|y l Hl IH Hy]; simpl.
  - by repeat constructor.
  - destruct (Z.ltb (key x) (key y)) eqn:Hlt.
    + apply Z.ltb_lt in Hlt. constructor; [done|].
      rewrite insert_desc_perm. constructor; [lia|done].
    + apply Z.ltb_ge in Hlt. constructor; [by constructor|].
      constructor; [done|].
      eapply Forall_impl; [exact Hy|]. simpl. intros z Hz. lia.
Qed.

(** X1. [get_manual_formats] never raises, whatever the library does
    (its bare [except] also takes Ctrl-C); it makes exactly one library call,
    the metadata query with the quiet options, and reads nothing. *)
Theorem manual_formats_always_returns E url w :
  exists manual_formats,
    get_manual_formats E url w
    = (Ret manual_formats,
       {| stdin := stdin w; clock := S (clock w);
          trace := trace w ++ [EvExtract quiet_opts url] |}).
Proof.
  destruct (manual_cases E url w) as [->|(i & fs & found & _ & _ & _ & _ & _ & _ & _ & ->)];
    eauto.
Qed.

(** X2. One format that would be listed but has no ['format_id'] empties
    the whole result: the [KeyError] ends the loop, and the three lists
    come back empty although other formats were fine. *)
Theorem manual_formats_need_every_id E url w i formats f :
  extract_info E (clock w) quiet_opts url = Returns (Some i) ->
  info_formats i = Val formats ->
  f ∈ formats ->
  listed f = true ->
  fmt_format_id f = None ->
  fst (get_manual_formats E url w) = Ret no_formats.
Proof.
  intros Hmeta Hformats Hf Hlisted Hid.
  destruct (manual_cases E url w)
    as [->|(i' & fs & found & Hmeta' & Hfs & _ & Hids & _)]; [done|].
  rewrite Hmeta in Hmeta'. injection Hmeta' as <-.
  rewrite Hformats in Hfs. injection Hfs as <-.
  rewrite Forall_forall in Hids. destruct (Hids f Hf Hlisted) as [id Hsome].
  congruence.
Qed.

(** X3. The lists [get_manual_formats] returns are in decreasing order:
    [combined] and [video] by height, and every height in them is a true
    number (not zero); [audio] by bitrate. *)
Theorem manual_formats_sorted E url w :
  exists manual_formats,
    fst (get_manual_formats E url w) = Ret manual_formats
    /\ StronglySorted (fun a b => ve_height b <= ve_height a)
                      (combined manual_formats)
    /\ StronglySorted (fun a b => ve_height b <= ve_height a)
                      (video manual_formats)
    /\ StronglySorted (fun a b => default 0 (ae_abr b) <= default 0 (ae_abr a))
                      (audio manual_formats)
    /\ Forall (fun v => ve_height v <> 0)
              (combined manual_formats ++ video manual_formats).
Proof.
  destruct (manual_cases E url w)
    as [->|(i & fs & found & _ & _ & _ & _ & Hnz & _ & _ & ->)].
  - exists no_formats. repeat split; constructor.
  - eexists. split; [done|]. simpl.
    split; [apply sort_desc_sorted_weak|].
    split; [apply sort_desc_sorted_weak|].
    split; [apply (sort_desc_sorted_weak (fun x => default 0 (ae_abr x)))|].
    by rewrite !sort_desc_perm.
Qed.

(** X4. When there are two audio formats or more, one of them without a
    bitrate empties the whole result, video lists included: the sort of
    the audio list compares [None] and raises. *)
Theorem manual_formats_need_every_bitrate E url w i formats f :
  extract_info E (clock w) quiet_opts url = Returns (Some i) ->
  info_formats i = Val formats ->
  (2 <= length (filter (fun f => audio_only f = true) formats))%nat ->
  f ∈ formats ->
  audio_only f = true ->
  get (fmt_abr f) = None ->
  fst (get_manual_formats E url w) = Ret no_formats.
Proof.
  intros Hmeta Hformats Htwo Hf Haudio Habr.
  destruct (manual_cases E url w)
    as [->|(i' & fs & found & Hmeta' & Hfs & _ & _ & _ & Habrs & Hok & _)];
    [done|].
  rewrite Hmeta in Hmeta'. injection Hmeta' as <-.
  rewrite Hformats in Hfs. injection Hfs as <-.
  assert (Hlen : length (audio found)
                 = length (filter (fun f => audio_only f = true) formats))
    by (by rewrite <- (length_map ae_abr), Habrs, length_map).
  destruct Hok as [Hshort|Hall]; [lia|].
  assert (Hin : None ∈ map ae_abr (audio found)).
  { rewrite Habrs, <- Habr. apply list_elem_of_fmap. exists f.
    split; [done|]. by apply list_elem_of_filter. }
  apply list_elem_of_fmap in Hin as (a & Ha & Hin).
  rewrite Forall_forall in Hall. destruct (Hall a Hin) as [n Hn]. congruence.
Qed.

(** A stream without identifier hides the 1080p stream listed before it. *)
Lemma manual_formats_need_every_id_sample :
  fst (get_manual_formats (More.serving More.nameless) Sample.video_url
         (Sample.typing []))
  = Ret no_formats.
Proof.
  apply (manual_formats_need_every_id (More.serving More.nameless)
           Sample.video_url (Sample.typing [])
           (More.info_with More.nameless) More.nameless
           (More.video_stream None 720)).
  - reflexivity.
  - reflexivity.
  - apply list_elem_of_In. simpl. tauto.
  - reflexivity.
  - reflexivity.
Defined.

(** An audio track without bitrate hides the video stream as well. *)
Lemma manual_formats_need_every_bitrate_sample :
  fst (get_manual_formats (More.serving More.two_tracks) Sample.video_url
         (Sample.typing []))
  = Ret no_formats.
Proof.
  apply (manual_formats_need_every_bitrate (More.serving More.two_tracks)
           Sample.video_url (Sample.typing [])
           (More.info_with More.two_tracks) More.two_tracks
           (More.audio_track "139" Absent)).
  - reflexivity.
  - reflexivity.
  - vm_compute. lia.
  - apply list_elem_of_In. simpl. tauto.
  - reflexivity.
  - reflexivity.
Defined.

(** ** The menu: lines and options *)

Lemma numbered_snoc options s :
  numbered (options ++ [s]) = (numbered options ++ [(S (length options), s)])%list.
Proof. unfold numbered. rewrite imap_app. simpl. by rewrite Nat.add_0_r. Qed.

Lemma aligned_silent m evs evs' :
  aligned m evs -> menu_rows evs' = [] -> aligned m (evs ++ evs').
Proof.
  intros [Hrows Hnum] Hnone. split; [|done].
  unfold menu_rows in *. by rewrite omap_app, Hnone, app_nil_r.
Qed.

Lemma keeps_add_option r sel :
  row_selector r = sel -> keeps_aligned (add_option r sel).
Proof.
  intros Hsel m w evs m' w' [Hrows Hnum].
  unfold add_option, bind, log, ret, emit. simpl. intros [= <- <-]. simpl.
  exists [EvRow (option_num m) r]. split; [done|]. split; simpl.
  - unfold menu_rows in *. rewrite omap_app, Hrows, numbered_snoc. simpl.
    by rewrite Hsel, Hnum.
  - rewrite length_app. simpl. lia.
Qed.

Lemma keeps_skip : keeps_aligned ret.
Proof.
  intros m w evs m' w' Hal [= <- <-]. exists [].
  rewrite !app_nil_r. by split.
Qed.

(** A line that needs the extension in upper case first. *)
Lemma keeps_after_ext ext (c : Menu -> M Menu) :
  keeps_aligned c -> keeps_aligned (fun m => upper_ext ext ;;; c m).
Proof.
  intros Hc m w evs m' w' Hal. unfold bind, upper_ext.
  destruct ext; simpl; [|discriminate]. by apply Hc.
Qed.

Lemma keeps_for_each_in {X} (body : X -> Menu -> M Menu) (l : list X) :
  Forall (fun x => keeps_aligned (body x)) l ->
  keeps_aligned (for_each l body).
Proof.
  induction 1 as [|x l Hx _ IH]; simpl; [apply keeps_skip|].
  intros m w evs m' w' Hal. unfold bind.
  destruct (body x m w) as [[m1|e] w1] eqn:Hrun; [|discriminate].
  intros Hrest.
  destruct (Hx m w evs m1 w1 Hal Hrun) as (evs1 & Htr1 & Hal1).
  destruct (IH m1 w1 (evs ++ evs1)%list m' w' Hal1 Hrest) as (evs2 & Htr2 & Hal2).
  exists (evs1 ++ evs2)%list. rewrite Htr2, Htr1, <- !app_assoc.
  split; [done|]. by rewrite app_assoc.
Qed.

Lemma keeps_for_each {X} (body : X -> Menu -> M Menu) (l : list X) :
  (forall x, keeps_aligned (body x)) ->
  keeps_aligned (for_each l body).
Proof. intros Hbody. apply keeps_for_each_in, Forall_forall. auto. Qed.

Lemma keeps_section {X} title (l : list X) (row : X -> Menu -> M Menu) :
  (forall x, keeps_aligned (row x)) ->
  keeps_aligned (menu_section title l row).
Proof.
  intros Hrow m w evs m' w' Hal. unfold menu_section.
  destruct l as [|x l]; [apply keeps_skip; done|].
  unfold bind, print. cbn -[for_each take nl repeat_str]. intros Hrun.
  assert (Hal0 : aligned m (evs ++ [EvPrint (nl ++ title);
                                    EvPrint (repeat_str "-" 70)]))
    by (by apply aligned_silent).
  destruct (keeps_for_each row (take 5 (x :: l)) Hrow m _ _ m' w' Hal0 Hrun)
    as (evs' & Htr & Hal').
  eexists ([_; _] ++ evs')%list. rewrite Htr. unfold emit. cbn [trace].
  rewrite <- !app_assoc. split; [reflexivity|].
  by rewrite <- app_assoc in Hal'.
Qed.

Lemma keeps_smart_row f : keeps_aligned (smart_row f).
Proof.
  unfold smart_row. destruct (Z.ltb 0 (height f));
    [by apply keeps_add_option|apply keeps_skip].
Qed.

Lemma keeps_combined_row f : keeps_aligned (combined_row f).
Proof. apply keeps_after_ext. by apply keeps_add_option. Qed.

Lemma keeps_video_row f : keeps_aligned (video_row f).
Proof. apply keeps_after_ext. by apply keeps_add_option. Qed.

Lemma keeps_audio_row f : keeps_aligned (audio_row f).
Proof. apply keeps_after_ext. by apply keeps_add_option. Qed.

Lemma keeps_quick_row q : q ∈ quick_options -> keeps_aligned (quick_row q).
Proof.
  intros Hq. apply keeps_add_option.
  apply list_elem_of_In in Hq. simpl in Hq.
  destruct Hq as [<-|[<-|[<-|[]]]]; reflexivity.
Qed.

(** One more step of the menu, from a world reached with aligned lines. *)
Lemma then_aligned c w0 m w m' w' :
  keeps_aligned c ->
  (exists evs, trace w = (trace w0 ++ evs)%list /\ aligned m evs) ->
  c m w = (Ret m', w') ->
  exists evs, trace w' = (trace w0 ++ evs)%list /\ aligned m' evs.
Proof.
  intros Hc (evs & Htr & Hal) Hrun.
  destruct (Hc m w evs m' w' Hal Hrun) as (evs' & Htr' & Hal').
  exists (evs ++ evs')%list. by rewrite Htr', Htr, <- app_assoc.
Qed.

Lemma print_aligned line w0 m w :
  (exists evs, trace w = (trace w0 ++ evs)%list /\ aligned m evs) ->
  exists evs, trace (emit (EvPrint line) w) = (trace w0 ++ evs)%list
              /\ aligned m evs.
Proof.
  intros (evs & Htr & Hal). exists (evs ++ [EvPrint line])%list.
  unfold emit. cbn [trace]. rewrite Htr, <- app_assoc.
  split; [done|]. by apply aligned_silent.
Qed.

(** X5. In a menu that gets built, the numbered lines are the options, in
    order and counted from one: line [k] shows the option that the picker
    reads at index [k - 1], and the counter ends one past the number of
    options. *)
Theorem menu_lines_are_the_options sf mf w m w' :
  build_menu sf mf w = (Ret m, w') ->
  exists evs,
    trace w' = (trace w ++ evs)%list
    /\ menu_rows evs = numbered (all_options m)
    /\ option_num m = S (length (all_options m)).
Proof.
  unfold build_menu, bind, print.
  cbn -[for_each unique_formats menu_section quick_options nl repeat_str].
  pose (start := {| all_options := []; option_num := 1 |}).
  assert (H0 : exists evs, trace w = (trace w ++ evs)%list /\ aligned start evs).
  { exists []. rewrite app_nil_r. by repeat split. }
  apply (print_aligned (nl ++ "🎯 CALIDADES REALES DISPONIBLES (Recomendado)"))
    in H0.
  apply (print_aligned (repeat_str "-" 70)) in H0.
  fold start.
  destruct (for_each (unique_formats sf) smart_row start _)
    as [[m1|e] w1] eqn:H1; [|discriminate].
  eapply then_aligned in H1; [|apply keeps_for_each, keeps_smart_row|exact H0].
  destruct (menu_section _ (combined mf) combined_row m1 w1)
    as [[m2|e] w2] eqn:H2; [|discriminate].
  eapply then_aligned in H2; [|apply keeps_section, keeps_combined_row|exact H1].
  destruct (menu_section _ (video mf) video_row m2 w2)
    as [[m3|e] w3] eqn:H3; [|discriminate].
  eapply then_aligned in H3; [|apply keeps_section, keeps_video_row|exact H2].
  destruct (menu_section _ (audio mf) audio_row m3 w3)
    as [[m4|e] w4] eqn:H4; [|discriminate].
  eapply then_aligned in H4; [|apply keeps_section, keeps_audio_row|exact H3].
  apply (print_aligned (nl ++ "⚡ OPCIONES RÁPIDAS")) in H4.
  apply (print_aligned (repeat_str "-" 70)) in H4.
  destruct (for_each quick_options quick_row m4 _)
    as [[m5|e] w5] eqn:H5; [|discriminate].
  eapply then_aligned in H5;
    [|apply keeps_for_each_in, Forall_forall; intros q Hq;
      by apply keeps_quick_row|exact H4].
  apply (print_aligned (nl ++ repeat_str "=" 80)) in H5.
  apply (print_aligned
           "💡 NOTA: Las opciones marcadas con 🎯 muestran las calidades REALES")
    in H5.
  apply (print_aligned
           "   disponibles, incluyendo 2K/4K que YouTube a veces oculta en la API")
    in H5.
  intros [= <- <-]. destruct H5 as (evs & Htr & Hrows & Hnum). eauto.
Qed.

(** A menu with one detected format, one video stream, one audio track and
    the quick options: six lines, six options. *)
Lemma menu_lines_are_the_options_sample :
  exists evs,
    trace (snd (build_menu Menus.detected Menus.manual (Sample.typing [])))
    = (trace (Sample.typing []) ++ evs)%list
    /\ menu_rows evs
       = numbered (all_options {| all_options := Menus.options; option_num := 7 |})
    /\ option_num {| all_options := Menus.options; option_num := 7 |}
       = S (length (all_options
                      {| all_options := Menus.options; option_num := 7 |})).
Proof.
  apply (menu_lines_are_the_options Menus.detected Menus.manual
           (Sample.typing [])
           {| all_options := Menus.options; option_num := 7 |}
           (snd (build_menu Menus.detected Menus.manual (Sample.typing [])))).
  vm_compute. reflexivity.
Defined.

(** ** Detection: where the entries come from *)

Section Entries.

Variable E : Env.

Lemma kept_of_candidate answer c :
  kept answer c = []
  \/ exists f, kept answer c = [f] /\ (selector f, description f) = c.
Proof.
  destruct c as [sel desc]. unfold kept, probe_entries. simpl.
  destruct answer as [[ti|]|e]; auto.
  destruct (info_requested_formats ti) as [| |fmts]; auto.
  - destruct (get (info_height ti)) as [h|]; auto.
    destruct (Z.eqb h 0); simpl; [by left|right].
    eexists. split; reflexivity.
  - destruct (video_format fmts); [right|by left].
    eexists. split; reflexivity.
Qed.

Lemma gathered_sublist opts url candidates : forall n,
  map (fun f => (selector f, description f)) (gathered E opts url n candidates)
  `sublist_of` candidates.
Proof.
  induction candidates as [|c rest IH]; intros n; simpl; [constructor|].
  destruct (kept_of_candidate
              (extract_info E n (<["format" := OStr (fst c)]> opts) url) c)
    as [->|(f & -> & <-)]; simpl.
  - apply sublist_cons, IH.
  - apply sublist_skip, IH.
Qed.

(** The three ways detection ends, by the answer to the metadata query. *)
Lemma detection_cases url w :
  match extract_info E (clock w) quiet_opts url with
  | Returns (Some i) =>
      fst (test_format_availability E url w)
      = Ret (Some {| info := i;
                     available_formats :=
                       gathered E test_opts url (S (clock w)) test_formats |})
  | Returns None => fst (test_format_availability E url w) = Ret None
  | Raises e =>
      test_format_availability E url w
      = if is_Exception e
        then (Ret None,
              {| stdin := stdin w; clock := S (clock w);
                 trace := trace w
                   ++ [detecting; EvExtract quiet_opts url;
                       EvPrint ("❌ Error al detectar formatos: " ++ str_exn e)] |})
        else (Exc e,
              {| stdin := stdin w; clock := S (clock w);
                 trace := trace w ++ [detecting; EvExtract quiet_opts url] |})
  end.
Proof.
  destruct (extract_info E (clock w) quiet_opts url) as [[i|]|e] eqn:Hmeta.
  - by rewrite (detection_runs E url w i Hmeta).
  - unfold test_format_availability, try_, bind, print, call_extract.
    cbn -[for_each test_formats]. by rewrite Hmeta.
  - unfold test_format_availability, try_, bind, print, call_extract, emit, tick.
    cbn -[for_each test_formats]. rewrite Hmeta. cbn.
    destruct (is_Exception e); cbn; by rewrite <- !app_assoc.
Qed.

(** X6. Whatever detection returns, its entries come from the fixed
    candidates, in their order and at most one for each: there are at most
    nine, and each carries the selector and the label of its candidate. *)
Theorem detected_formats_come_from_candidates url w smart_formats :
  fst (test_format_availability E url w) = Ret (Some smart_formats) ->
  map (fun f => (selector f, description f)) (available_formats smart_formats)
  `sublist_of` test_formats
  /\ (length (available_formats smart_formats) <= 9)%nat.
Proof.
  intros Hrun. pose proof (detection_cases url w) as Hcases.
  destruct (extract_info E (clock w) quiet_opts url) as [[i|]|e].
  - rewrite Hcases in Hrun. injection Hrun as <-. simpl.
    pose proof (gathered_sublist test_opts url test_formats (S (clock w)))
      as Hsub.
    split; [done|]. apply sublist_length in Hsub.
    by rewrite length_map in Hsub.
  - congruence.
  - rewrite Hcases in Hrun. by destruct (is_Exception e).
Qed.

End Entries.

(** With the library that fails the second and the fifth call, seven of
    the nine candidates give an entry. *)
Lemma detected_formats_come_from_candidates_flaky :
  map (fun f => (selector f, description f))
      (gathered Sample.flaky test_opts Sample.video_url 1 test_formats)
  `sublist_of` test_formats
  /\ (length (gathered Sample.flaky test_opts Sample.video_url 1 test_formats)
      <= 9)%nat.
Proof.
  apply (detected_formats_come_from_candidates Sample.flaky Sample.video_url
           (Sample.typing [])
           {| info := Sample.hd_info;
              available_formats :=
                gathered Sample.flaky test_opts Sample.video_url 1 test_formats |}).
  vm_compute. reflexivity.
Defined.

(** ** The picker, answer by answer *)

(** X7. The picker reads the answers until one decides: every answer before
    it is refused (neither a quit nor a number in range), the deciding one
    is Ctrl-C or ['q'] (the picker returns [None]) or a number in range (it
    returns the option at that index); if the answers run out first, it
    ends with [EOFError].  It prompts once for each answer it reads, and
    once more when none is left. *)
Theorem picker_stops_at_first_decisive_answer (E : Env)
    (all_options : list string) (ins : list InputEvent) :
  let run := ask E all_options ins in
  exists refused,
    Forall (fun a => exists s, a = Line s /\ rejected E all_options s) refused
    /\ length (filter (fun ev => is_input ev = true) (fst (fst run)))
       = S (length refused)
    /\ ((ins = refused /\ snd (fst run) = Exc EOFError /\ snd run = [])
        \/ exists last d,
             ins = (refused ++ last :: snd run)%list
             /\ decides E all_options last d
             /\ snd (fst run) = decision_result d).
Proof.
  induction ins as [|[s|] ins IH]; simpl.
  - exists []. split; [constructor|]. split; [done|]. by left.
  - destruct (String.eqb (PyStr.lower (PyStr.strip (python E) s)) "q") eqn:Hq.
    { exists []. split; [constructor|]. split; [done|]. right.
      exists (Line s), Quit. simpl. by rewrite Hq. }
    assert (Hnq : PyStr.lower (PyStr.strip (python E) s) <> "q")
      by (by apply String.eqb_neq).
    destruct IH as (refused & Hrefused & Hprompts & Hend).
    assert (Hmore : rejected E all_options s ->
      exists refused0,
        Forall (fun a => exists s, a = Line s /\ rejected E all_options s) refused0
        /\ S (length (filter (fun ev => is_input ev = true)
                             (fst (fst (ask E all_options ins)))))
           = S (length refused0)
        /\ ((Line s :: ins = refused0
             /\ snd (fst (ask E all_options ins)) = Exc EOFError
             /\ snd (ask E all_options ins) = [])
            \/ exists last d,
                 Line s :: ins = (refused0 ++ last :: snd (ask E all_options ins))%list
                 /\ decides E all_options last d
                 /\ snd (fst (ask E all_options ins)) = decision_result d)).
    { intros Hrej. exists (Line s :: refused).
      split; [constructor; eauto|]. split; [simpl; by rewrite Hprompts|].
      destruct Hend as [(-> & ? & ?)|(last & d & Hins & ? & ?)]; [by left|].
      right. exists last, d. split; [|done]. simpl. by rewrite <- Hins. }
    destruct (PyStr.int (python E) (PyStr.strip (python E) s)) as [c|] eqn:Hint.
    + destruct (Z.leb 0 (c - 1) && _) eqn:Hr.
      * destruct (in_range_lookup all_options c Hr) as [Hc [sel Hsel]].
        rewrite Hsel. simpl.
        exists []. split; [constructor|]. split; [done|]. right.
        exists (Line s), (Pick sel). simpl. rewrite Hq.
        split; [done|]. split; [|done]. exists c. by rewrite Hsel.
      * destruct (ask E all_options ins) as [[evs r] rest]. simpl in *.
        apply Hmore. split; [done|]. right. exists c. split; [done|].
        apply andb_false_iff in Hr. rewrite Z.leb_gt, Z.ltb_ge in Hr. lia.
    + destruct (ask E all_options ins) as [[evs r] rest]. simpl in *.
      apply Hmore. split; [done|]. by left.
  - exists []. split; [constructor|]. split; [done|]. right.
    by exists CtrlC, Quit.
Qed.

(** ** Downloads that do not happen *)

(** X8. Without an explicit format, no download is attempted unless the
    picker gave a selector: when [select_quality] returns [None] or raises,
    [download_video] and [download_playlist] only print, and call neither
    the library nor the file system again. *)
Theorem no_download_without_choice E self url w :
  (forall s, fst (select_quality E url w) <> Ret (Some s)) ->
  (clock (snd (download_video E self url None w))
   = clock (snd (select_quality E url w))
   /\ exists evs,
        trace (snd (download_video E self url None w))
        = (trace (snd (select_quality E url w)) ++ evs)%list
        /\ Forall (fun ev => is_call ev = false) evs)
  /\ (clock (snd (download_playlist E self url None w))
      = clock (snd (select_quality E url w))
      /\ exists evs,
           trace (snd (download_playlist E self url None w))
           = (trace (snd (select_quality E url w)) ++ evs)%list
           /\ Forall (fun ev => is_call ev = false) evs).
Proof.
  intros Hnone.
  unfold download_video, download_playlist, try_, bind, chosen_format.
  destruct (select_quality E url w) as [[[s|]|e] w1]; simpl in *.
  - by destruct (Hnone s).
  - split; (split; [done|]); eexists [_]; (split; [done|]);
      by repeat constructor.
  - destruct (is_Exception e); simpl.
    + split; (split; [done|]).
      * eexists [_; _]. unfold print, bind, emit. simpl.
        rewrite <- app_assoc. split; [done|]. by repeat constructor.
      * eexists [_]. split; [done|]. by repeat constructor.
    + split; (split; [done|]); exists []; rewrite app_nil_r;
        (split; [done|constructor]).
Qed.

(** The user quits the menu: nothing is downloaded. *)
Lemma no_download_without_choice_quit :
  (clock (snd (download_video Sample.flaky (Sample.downloader Sample.flaky)
                 Sample.video_url None (Sample.typing [Line "q"])))
   = clock (snd (select_quality Sample.flaky Sample.video_url
                   (Sample.typing [Line "q"])))
   /\ exists evs,
        trace (snd (download_video Sample.flaky (Sample.downloader Sample.flaky)
                      Sample.video_url None (Sample.typing [Line "q"])))
        = (trace (snd (select_quality Sample.flaky Sample.video_url
                         (Sample.typing [Line "q"]))) ++ evs)%list
        /\ Forall (fun ev => is_call ev = false) evs)
  /\ (clock (snd (download_playlist Sample.flaky (Sample.downloader Sample.flaky)
                    Sample.video_url None (Sample.typing [Line "q"])))
      = clock (snd (select_quality Sample.flaky Sample.video_url
                      (Sample.typing [Line "q"])))
      /\ exists evs,
           trace (snd (download_playlist Sample.flaky
                         (Sample.downloader Sample.flaky)
                         Sample.video_url None (Sample.typing [Line "q"])))
           = (trace (snd (select_quality Sample.flaky Sample.video_url
                            (Sample.typing [Line "q"]))) ++ evs)%list
           /\ Forall (fun ev => is_call ev = false) evs).
Proof.
  apply (no_download_without_choice Sample.flaky (Sample.downloader Sample.flaky)
           Sample.video_url (Sample.typing [Line "q"])).
  intros s. vm_compute. discriminate.
Defined.

(** ** The confirmation of a playlist *)

(** X9. Before a playlist with entries is downloaded, the user is asked
    once.  Only an answer that is [y], [yes], [s] or [si], in any letter
    case, lets the download go ahead with the playlist's output template;
    any other line cancels it without a library call; Ctrl-C at this
    prompt is not caught by [download_playlist] and reaches its caller. *)
Theorem playlist_confirmation E self url fs w f w1 i n a rest :
  chosen_format E url fs w = (Ret (Some f), w1) ->
  extract_info E (clock w1) (<["quiet" := OBool true]> ∅) url
  = Returns (Some i) ->
  info_entries i = Val n ->
  stdin w1 = a :: rest ->
  let asked :=
    {| stdin := rest; clock := S (clock w1);
       trace := trace w1 ++ playlist_shown url i n |} in
  match a with
  | CtrlC => download_playlist E self url fs w = (Exc KeyboardInterrupt, asked)
  | Line s =>
      if bool_decide (PyStr.lower s ∈ ["y"; "yes"; "s"; "si"])
      then exists tail,
          trace (snd (download_playlist E self url fs w))
          = (trace asked ++ playlist_starts E self f
             ++ EvDownload (playlist_opts E self f) [url] :: tail)%list
      else download_playlist E self url fs w
           = (Ret tt,
              {| stdin := rest; clock := S (clock w1);
                 trace := trace asked ++ [cancelled] |})
  end.
Proof.
  intros Hf Hmeta Hentries Hin asked.
  assert (Hconfirm :
    confirm_playlist E url w1
    = match a with
      | CtrlC => (Exc KeyboardInterrupt, asked)
      | Line s =>
          if declined s
          then (Ret false,
                {| stdin := rest; clock := S (clock w1);
                   trace := trace asked ++ [cancelled] |})
          else (Ret true, asked)
      end).
  { unfold confirm_playlist, bind, call_extract, print, input, emit, tick.
    rewrite Hmeta. cbn -[nl pretty]. rewrite Hentries. cbn -[nl pretty].
    rewrite Hin. subst asked. unfold playlist_shown.
    destruct a as [s|]; cbn -[nl pretty].
    - destruct (declined s); cbn -[nl pretty]; by rewrite <- !app_assoc.
    - by rewrite <- !app_assoc. }
  destruct a as [s|].
  - unfold declined in Hconfirm.
    destruct (bool_decide (PyStr.lower s ∈ ["y"; "yes"; "s"; "si"]));
      simpl in Hconfirm.
    + rewrite (playlist_run E self url fs w f w1 asked Hf Hconfirm).
      unfold playlist_starts.
      destruct (download E (clock asked) _ [url]) as [[]|e]; cbn [snd trace].
      * exists [EvPrint (nl ++ "🎉 ¡Playlist descargada completamente!")].
        rewrite <- app_assoc. reflexivity.
      * destruct (is_Exception e); cbn [snd trace].
        -- exists (playlist_failed e). rewrite <- app_assoc. reflexivity.
        -- exists []. reflexivity.
    + unfold download_playlist, try_, bind. by rewrite Hf, Hconfirm.
  - unfold download_playlist, try_, bind. by rewrite Hf, Hconfirm.
Qed.

(** A capital "SI" is a yes: the playlist is downloaded. *)
Lemma playlist_confirmation_si :
  exists tail,
    trace (snd (download_playlist playlist_site (Sample.downloader playlist_site)
                  Sample.video_url (Some "best") (Sample.typing [Line "SI"])))
    = (trace {| stdin := []; clock := 1;
                trace := trace (Sample.typing [Line "SI"])
                         ++ playlist_shown Sample.video_url three_videos 3 |}
       ++ playlist_starts playlist_site (Sample.downloader playlist_site) "best"
       ++ EvDownload
            (playlist_opts playlist_site (Sample.downloader playlist_site) "best")
            [Sample.video_url] :: tail)%list.
Proof.
  exact (playlist_confirmation playlist_site (Sample.downloader playlist_site)
           Sample.video_url (Some "best") (Sample.typing [Line "SI"]) "best"
           (Sample.typing [Line "SI"]) three_videos 3 (Line "SI") []
           eq_refl eq_refl eq_refl eq_refl).
Defined.

(** ** main after the URL *)

(** X10. Once the URL is accepted, [main] builds the downloader outside
    its [try]: if the folder cannot be created, the error of the file
    system ends [main] and nothing else happens.  After that, whatever the
    chosen download does, [main] ends normally (Ctrl-C and every
    [Exception] are caught and reported), unless something raises
    [SystemExit]. *)
Theorem dispatch_outcomes E args url w :
  match mkdir E (clock w) (argparse.path args) with
  | Raises e =>
      dispatch E args url w
      = (Exc e,
         {| stdin := stdin w; clock := S (clock w);
            trace := trace w ++ [EvMkdir (argparse.path args)] |})
  | Returns _ =>
      fst (dispatch E args url w) = Ret tt
      \/ exists code, fst (dispatch E args url w) = Exc (SystemExit code)
  end.
Proof.
  unfold dispatch, init, bind, call_mkdir.
  destruct (mkdir E (clock w) (argparse.path args)) as [[]|e]; [|done].
  cbn -[download_audio_only download_playlist download_video nl].
  unfold try_.
  match goal with
  | |- context [match ?run with (_, _) => _ end] =>
      destruct run as [[[]|e] w1]
  end; [by left|].
  destruct e; simpl; auto. right. by eexists.
Qed.

(** The disk is read-only: [main] stops at the folder, before any query. *)
Lemma dispatch_outcomes_read_only :
  dispatch read_only_disk (Sample.command_line Sample.video_url)
           Sample.video_url (Sample.typing [])
  = (Exc (OSError "[Errno 30] Read-only file system"),
     {| stdin := []; clock := 1; trace := [EvMkdir "./downloads"] |}).
Proof.
  exact (dispatch_outcomes read_only_disk (Sample.command_line Sample.video_url)
           Sample.video_url (Sample.typing [])).
Defined.

(** ** Audio only *)

(** X11. [download_audio_only] asks nothing and chooses nothing: it makes
    exactly one library call, a download of the URL with the base options
    where ['format'] is ['bestaudio/best'] and an MP3 extraction at 320 is
    the post-processor; around the call it only prints. *)
Theorem audio_download_call E self url w :
  (exists r before after,
      download_audio_only E self url w
      = (r, {| stdin := stdin w; clock := S (clock w);
               trace := trace w ++ before
                        ++ EvDownload (audio_opts self) [url] :: after |})
      /\ Forall (fun ev => is_call ev = false /\ is_input ev = false)
                (before ++ after))
  /\ audio_opts self !! "format" = Some (OStr "bestaudio/best")
  /\ audio_opts self !! "postprocessors"
     = Some (ODicts [[("key", "FFmpegExtractAudio"); ("preferredcodec", "mp3");
                      ("preferredquality", "320")]])
  /\ forall k, k <> "format" -> k <> "postprocessors" ->
               audio_opts self !! k = base_opts self !! k.
Proof.
  split; [|split; [|split]].
  - rewrite audio_run.
    destruct (download E (clock w) (audio_opts self) [url]) as [[]|e].
    + eexists _, [_; _; _], [_]. rewrite <- app_assoc. split; [reflexivity|].
      by repeat constructor.
    + destruct (is_Exception e).
      * eexists _, [_; _; _], (audio_failed e). rewrite <- app_assoc.
        split; [reflexivity|]. by repeat constructor.
      * eexists _, [_; _; _], []. split; [reflexivity|]. by repeat constructor.
  - unfold audio_opts. apply lookup_insert_eq.
  - unfold audio_opts. rewrite lookup_insert_ne by done. apply lookup_insert_eq.
  - intros k Hf Hp. unfold audio_opts. by rewrite !lookup_insert_ne.
Qed.

(** ** Ctrl-C while the metadata is fetched *)

(** X12. An exception that is not an [Exception] (Ctrl-C) raised by the
    metadata query of detection is not caught there: [select_quality] ends
    with it before the second query is made, and [download_video] and
    [download_playlist] hand it on without printing anything. *)
Theorem interrupt_during_metadata E self url w e :
  extract_info E (clock w) quiet_opts url = Raises e ->
  is_Exception e = false ->
  let stopped :=
    {| stdin := stdin w; clock := S (clock w);
       trace := trace w ++ [detecting; EvExtract quiet_opts url] |} in
  select_quality E url w = (Exc e, stopped)
  /\ download_video E self url None w = (Exc e, stopped)
  /\ download_playlist E self url None w = (Exc e, stopped).
Proof.
  intros Hmeta He stopped.
  pose proof (detection_cases E url w) as Hrun. rewrite Hmeta, He in Hrun.
  assert (Hsel : select_quality E url w = (Exc e, stopped))
    by (unfold select_quality, bind; by rewrite Hrun).
  split; [done|].
  unfold download_video, download_playlist, try_, bind, chosen_format.
  rewrite Hsel. simpl. by rewrite He.
Qed.

Lemma interrupt_during_metadata_sample :
  select_quality interrupted Sample.video_url (Sample.typing [Line "1"])
  = (Exc KeyboardInterrupt,
     {| stdin := [Line "1"]; clock := 1;
        trace := [detecting; EvExtract quiet_opts Sample.video_url] |})
  /\ download_video interrupted (Sample.downloader interrupted)
       Sample.video_url None (Sample.typing [Line "1"])
     = (Exc KeyboardInterrupt,
        {| stdin := [Line "1"]; clock := 1;
           trace := [detecting; EvExtract quiet_opts Sample.video_url] |})
  /\ download_playlist interrupted (Sample.downloader interrupted)
       Sample.video_url None (Sample.typing [Line "1"])
     = (Exc KeyboardInterrupt,
        {| stdin := [Line "1"]; clock := 1;
           trace := [detecting; EvExtract quiet_opts Sample.video_url] |}).
Proof.
  exact (interrupt_during_metadata interrupted (Sample.downloader interrupted)
           Sample.video_url (Sample.typing [Line "1"]) KeyboardInterrupt
           eq_refl eq_refl).
Defined.

(** ** Numbers shown, numbers typed *)

(** A text of ASCII characters has one character for each byte. *)
Lemma split_plain s :
  Forall (fun a => (N_of_ascii a < 128)%N) (list_ascii_of_string s) ->
  PyStr.split s = (EmptyString, map plain (list_ascii_of_string s)).
Proof.
  induction s as [|a s IH]; [done|].
  cbn [list_ascii_of_string PyStr.split map].
  intros Hs. apply Forall_cons in Hs as [Ha Hs]. rewrite (IH Hs).
  unfold PyStr.is_continuation, PyStr.code_point, plain.
  assert ((128 <=? N_of_ascii a)%N = false) as -> by (apply N.leb_gt; lia).
  assert ((N_of_ascii a <? 128)%N = true) as -> by (apply N.ltb_lt; lia).
  done.
Qed.

Lemma chars_plain s :
  Forall (fun a => (N_of_ascii a < 128)%N) (list_ascii_of_string s) ->
  PyStr.chars s = map plain (list_ascii_of_string s).
Proof. intros Hs. unfold PyStr.chars. by rewrite (split_plain s Hs). Qed.

Lemma text_plain (l : list ascii) :
  PyStr.text (map plain l) = string_of_list_ascii l.
Proof. induction l as [|a l IH]; [done|]. simpl. by rewrite IH. Qed.

Lemma strip_keeps (blank : PyStr.Char -> bool) (cs : list PyStr.Char) :
  Forall (fun c => blank c = false) cs ->
  PyStr.rstrip blank (PyStr.lstrip blank cs) = cs.
Proof.
  intros Hcs.
  assert (PyStr.lstrip blank cs = cs) as ->.
  { destruct Hcs as [|c cs Hc _]; [done|]. simpl. by rewrite Hc. }
  induction Hcs as [|c cs Hc Hcs IH]; [done|]. simpl. rewrite IH.
  destruct cs; [by rewrite Hc|done].
Qed.

(** What the script's text functions see in an ASCII digit. *)
Lemma plain_digit py a :
  is_digit a = true ->
  PyStr.digit_of py (plain a) = Some (Z.of_N (N_of_ascii a) - 48)
  /\ PyStr.is_space py (plain a) = false
  /\ PyStr.int_space py (plain a) = false
  /\ PyStr.is_code 45 (plain a) = false
  /\ PyStr.is_code 43 (plain a) = false
  /\ PyStr.lower_ascii a <> "q"%char
  /\ (N_of_ascii a < 128)%N.
Proof.
  destruct a as [[] [] [] [] [] [] [] []]; vm_compute;
    intros Hd; try discriminate; repeat split; discriminate.
Qed.

Lemma pretty_N_char_digit d :
  (d < 10)%N ->
  is_digit (pretty_N_char d) = true
  /\ Z.of_N (N_of_ascii (pretty_N_char d)) - 48 = Z.of_N d.
Proof.
  intros Hd.
  assert (d = 0 \/ d = 1 \/ d = 2 \/ d = 3 \/ d = 4 \/ d = 5 \/ d = 6
          \/ d = 7 \/ d = 8 \/ d = 9)%N as Hcases by lia.
  destruct Hcases as [->|[->|[->|[->|[->|[->|[->|[->|[->| ->]]]]]]]]];
    by vm_compute.
Qed.

(** [pretty] writes digits only. *)
Lemma pretty_N_go_digits x : forall s,
  Forall (fun a => is_digit a = true) (list_ascii_of_string s) ->
  Forall (fun a => is_digit a = true) (list_ascii_of_string (pretty_N_go x s)).
Proof.
  induction (N.lt_wf_0 x) as [x _ IH]; intros s Hs.
  destruct (decide (0 < x)%N) as [Hx|Hx].
  - rewrite pretty_N_go_step by done. apply IH; [by apply N.div_lt|].
    simpl. constructor; [|done].
    apply pretty_N_char_digit. by apply N.mod_lt.
  - assert (x = 0%N) as -> by lia. by rewrite pretty_N_go_0.
Qed.

(** Reading back the digits that [pretty] writes. *)
Lemma read_pretty_go x : forall s,
  (0 < x)%N ->
  read_digits (list_ascii_of_string (pretty_N_go x s)) 0
  = read_digits (list_ascii_of_string s) (Z.of_N x).
Proof.
  induction (N.lt_wf_0 x) as [x _ IH]; intros s Hx.
  rewrite pretty_N_go_step by done.
  assert (Hmod : (x `mod` 10 < 10)%N) by (by apply N.mod_lt).
  destruct (pretty_N_char_digit _ Hmod) as [_ Hval].
  assert (Hx10 : Z.of_N x = 10 * Z.of_N (x `div` 10) + Z.of_N (x `mod` 10)).
  { rewrite (N.div_mod x 10) at 1 by done. lia. }
  destruct (decide (0 < x `div` 10)%N) as [Hdiv|Hdiv].
  - rewrite IH by (done || by apply N.div_lt).
    unfold read_digits. simpl. by rewrite Hval, Hx10.
  - assert (x `div` 10 = 0)%N as Hzero by lia.
    rewrite Hzero in *. rewrite pretty_N_go_0.
    unfold read_digits. simpl. by rewrite Hval, Hx10.
Qed.

Lemma digits_plain py (l : list ascii) : forall acc count b,
  Forall (fun a => is_digit a = true) l ->
  l <> [] \/ b = true ->
  PyStr.digits py acc count b (map plain l)
  = Some (read_digits l acc, (count + length l)%nat).
Proof.
  induction l as [|a l IH]; intros acc count b Hl Hb.
  - destruct Hb as [Hne| ->]; [done|]. simpl. by rewrite Nat.add_0_r.
  - apply Forall_cons in Hl as [Ha Hl].
    destruct (plain_digit py a Ha) as (Hd & _).
    cbn [map PyStr.digits]. rewrite Hd, IH by (done || by right).
    unfold read_digits. simpl. do 2 f_equal. lia.
Qed.

Lemma length_bytes s : length (list_ascii_of_string s) = String.length s.
Proof. induction s as [|a s IH]; [done|]. simpl. by rewrite IH. Qed.

(** A numeral of at most 640 digits is read as its number, whatever the
    interpreter's tables and limit, and is no quit. *)
Lemma numeral_read py (n : nat) :
  (String.length (pretty (S n)) <= 640)%nat ->
  PyStr.strip py (pretty (S n)) = pretty (S n)
  /\ String.eqb (PyStr.lower (pretty (S n))) "q" = false
  /\ PyStr.int py (pretty (S n)) = Some (Z.of_nat (S n)).
Proof.
  intros Hshort.
  assert (Hdigits : Forall (fun a => is_digit a = true)
                      (list_ascii_of_string (pretty (S n)))).
  { unfold pretty, pretty_nat, pretty, pretty_N.
    destruct (decide (N.of_nat (S n) = 0%N)) as [Hz|_]; [lia|].
    by apply pretty_N_go_digits. }
  assert (Hvalue : read_digits (list_ascii_of_string (pretty (S n))) 0
                   = Z.of_nat (S n)).
  { unfold pretty, pretty_nat, pretty, pretty_N.
    destruct (decide (N.of_nat (S n) = 0%N)) as [Hz|_]; [lia|].
    rewrite read_pretty_go by lia. unfold read_digits. simpl. lia. }
  assert (Hchars : PyStr.chars (pretty (S n))
                   = map plain (list_ascii_of_string (pretty (S n)))).
  { apply chars_plain. eapply Forall_impl; [exact Hdigits|].
    intros a Ha. by apply (plain_digit py) in Ha as (_ & _ & _ & _ & _ & _ & ?). }
  rewrite <- (length_bytes (pretty (S n))) in Hshort.
  unfold PyStr.strip, PyStr.int. rewrite Hchars.
  rewrite !strip_keeps.
  2:{ apply Forall_map. eapply Forall_impl; [exact Hdigits|].
      intros a Ha. by apply (plain_digit py) in Ha as (_ & _ & ? & _). }
  2:{ apply Forall_map. eapply Forall_impl; [exact Hdigits|].
      intros a Ha. by apply (plain_digit py) in Ha as (_ & ? & _). }
  rewrite text_plain, string_of_list_ascii_of_string.
  split; [done|].
  destruct (list_ascii_of_string (pretty (S n))) as [|a l] eqn:Hl.
  { unfold read_digits in Hvalue. simpl in Hvalue. lia. }
  pose proof Hdigits as Hall.
  apply Forall_cons in Hdigits as [Ha _].
  destruct (plain_digit py a Ha) as (_ & _ & _ & Hminus & Hplus & Hq & _).
  split.
  - apply String.eqb_neq.
    rewrite <- (string_of_list_ascii_of_string (pretty (S n))), Hl.
    simpl. intros [= Hlow _]. by apply Hq.
  - cbn [map]. rewrite Hminus, Hplus.
    change (plain a :: map plain l) with (map plain (a :: l)).
    unfold PyStr.number. rewrite digits_plain by (done || by left).
    rewrite Hvalue. unfold PyStr.over_limit.
    assert ((Nat.max 640 (PyStr.int_max_str_digits py) <? 0 + length (a :: l))%nat
            = false) as -> by (apply Nat.ltb_ge; lia).
    by rewrite andb_false_r.
Qed.

(** X13. Typing the number of a line picks that line: for an option at
    index [k], the numeral of [k + 1] as the only answer makes the picker
    print the confirmation and return that option, prompting once.  (The
    numeral has at most 640 digits: a longer one may be over the
    interpreter's limit.) *)
Theorem typing_the_number_picks_the_line (E : Env) (all_options : list string)
    (k : nat) (selected_format : string) (rest : list InputEvent) :
  all_options !! k = Some selected_format ->
  (String.length (pretty (S k)) <= 640)%nat ->
  ask E all_options (Line (pretty (S k)) :: rest)
  = ([EvInput (prompt all_options);
      EvPrint ("✅ Seleccionado: " ++ selected_format)],
     Ret (Some selected_format), rest).
Proof.
  intros Hk Hshort.
  destruct (numeral_read (python E) k Hshort) as (Hstrip & Hq & Hint).
  cbn [ask]. rewrite Hstrip, Hq, Hint.
  assert (Hlen : (k < length all_options)%nat)
    by (apply lookup_lt_is_Some; eauto).
  assert (Z.leb 0 (Z.of_nat (S k) - 1)
          && Z.ltb (Z.of_nat (S k) - 1) (Z.of_nat (length all_options)) = true)
    as ->.
  { apply andb_true_iff. rewrite Z.leb_le, Z.ltb_lt. lia. }
  replace (Z.to_nat (Z.of_nat (S k) - 1)) with k by lia.
  by rewrite Hk.
Qed.

Lemma typing_the_number_picks_the_line_sample :
  ask Sample.offline Menus.options [Line (pretty 2%nat); Line "1"]
  = ([EvInput (prompt Menus.options); EvPrint ("✅ Seleccionado: " ++ "137+bestaudio")],
     Ret (Some "137+bestaudio"), [Line "1"]).
Proof.
  apply (typing_the_number_picks_the_line Sample.offline Menus.options 1
           "137+bestaudio" [Line "1"]).
  - reflexivity.
  - vm_compute. lia.
Defined.

(** ** The progress hook *)

Lemma basename_no_slash (p : Hook.text) : Hook.slash ∉ Hook.basename p.
Proof.
  induction p as [|a r IH]; simpl; [apply not_elem_of_nil|].
  case_bool_decide; [exact IH|done].
Qed.

Lemma shorten_fits limit keep (name : Hook.text) :
  (keep + 3 <= limit)%nat ->
  Hook.slash ∉ name ->
  (length (Hook.shorten limit keep name) <= limit)%nat
  /\ (Hook.slash ∉ Hook.shorten limit keep name)
  /\ ((length name <= limit)%nat -> Hook.shorten limit keep name = name).
Proof.
  intros Hkeep Hname. unfold Hook.shorten.
  destruct (limit <? length name)%nat eqn:Hlong.
  - apply Nat.ltb_lt in Hlong. split; [|split].
    + rewrite length_app, length_take. simpl. lia.
    + rewrite not_elem_of_app. split.
      * intros Hin. apply Hname. by eapply subseteq_take.
      * intros Hin. apply list_elem_of_In in Hin. simpl in Hin.
        unfold Hook.slash in Hin. intuition discriminate.
    + lia.
  - apply Nat.ltb_ge in Hlong. by repeat split.
Qed.

(** A path is a folder part, empty or ending with a slash, followed by
    its last component, which holds no slash. *)
Lemma basename_split (p : Hook.text) :
  exists dir,
    p = (dir ++ Hook.basename p)%list
    /\ (dir = [] \/ last dir = Some Hook.slash).
Proof.
  induction p as [|a r IH]; [by exists []; split; [|left]|].
  cbn [Hook.basename]. case_bool_decide as Hslash; [|by exists []; split; [|left]].
  destruct IH as (dir & Hr & Hdir). exists (a :: dir). split.
  - simpl. by rewrite <- Hr.
  - right. destruct Hdir as [->|Hlast].
    + simpl in Hr. rewrite Hr in Hslash.
      apply elem_of_cons in Hslash as [->|Hin]; [done|].
      by apply basename_no_slash in Hin.
    + destruct dir as [|b dir]; [done|]. exact Hlast.
Qed.

(** X14. The name the progress hook shows is the last component of the
    path: the path is a folder part, empty or ending with a slash, followed
    by a name without slash.  On a progress line a name of more than 40
    characters is replaced by its first 37 characters and three dots, on
    the closing line a name of more than 50 by its first 47 and three
    dots; a shorter name is shown whole.  So the name shown never exceeds
    40, respectively 50, characters.  The rest of the line is fixed: the
    percentage, the speed and the size as the library gives them. *)
Theorem progress_name_fits (d : Hook.Progress) (line : Hook.text) :
  Hook._progress_hook d = Ret (Some line) ->
  exists dir base name,
    get_or [] (Hook.filename d) = Some (dir ++ base)%list
    /\ (dir = [] \/ last dir = Some Hook.slash)
    /\ (Hook.slash ∉ base)
    /\ ((Hook.status d = Val (Hook.lit "downloading")
         /\ name = (if (40 <? length base)%nat
                    then (take 37 base ++ Hook.lit "...")%list else base)
         /\ (length name <= 40)%nat
         /\ line = ([13%N; Hook.inbox_tray] ++ Hook.lit " " ++ name
                    ++ Hook.lit " | "
                    ++ Hook.str_text (get_or (Hook.lit "N/A") (Hook._percent_str d))
                    ++ Hook.lit " | "
                    ++ Hook.str_text (get_or (Hook.lit "N/A") (Hook._speed_str d))
                    ++ Hook.lit " | " ++ Hook.str_text (Hook.size_of d))%list)
        \/ (Hook.status d = Val (Hook.lit "finished")
            /\ name = (if (50 <? length base)%nat
                       then (take 47 base ++ Hook.lit "...")%list else base)
            /\ (length name <= 50)%nat
            /\ line = ([13%N; Hook.check_mark] ++ Hook.lit " Completado: "
                       ++ name ++ replicate 20 32%N ++ [10%N])%list)).
Proof.
  unfold Hook._progress_hook, Hook.file_of.
  destruct (Hook.status d) as [| |s]; try discriminate.
  case_bool_decide as Hdown; [|case_bool_decide as Hfin; [|discriminate]].
  - destruct (get_or [] (Hook.filename d)) as [p|]; [|discriminate].
    intros [= <-].
    destruct (shorten_fits 40 37 (Hook.basename p)) as (Hlen & _ & _);
      [lia|apply basename_no_slash|].
    destruct (basename_split p) as (dir & Hp & Hdir).
    exists dir, (Hook.basename p), (Hook.shorten 40 37 (Hook.basename p)).
    split; [by rewrite <- Hp|]. split; [done|].
    split; [apply basename_no_slash|]. left. subst s. by repeat split.
  - destruct (get_or [] (Hook.filename d)) as [p|]; [|discriminate].
    intros [= <-].
    destruct (shorten_fits 50 47 (Hook.basename p)) as (Hlen & _ & _);
      [lia|apply basename_no_slash|].
    destruct (basename_split p) as (dir & Hp & Hdir).
    exists dir, (Hook.basename p), (Hook.shorten 50 47 (Hook.basename p)).
    split; [by rewrite <- Hp|]. split; [done|].
    split; [apply basename_no_slash|]. right. subst s. by repeat split.
Qed.

(** A path of 67 characters, of which 57 are the file name: the line
    shows 37 of them and three dots. *)
Lemma progress_name_fits_long :
  exists dir base name,
    get_or [] (Hook.filename Hook.long_download) = Some (dir ++ base)%list
    /\ (dir = [] \/ last dir = Some Hook.slash)
    /\ (Hook.slash ∉ base)
    /\ ((Hook.status Hook.long_download = Val (Hook.lit "downloading")
         /\ name = (if (40 <? length base)%nat
                    then (take 37 base ++ Hook.lit "...")%list else base)
         /\ (length name <= 40)%nat
         /\ ([13%N; Hook.inbox_tray]
             ++ Hook.lit " A very long title of a video that goe... |  42.0% | 1.21MiB/s | ~10.00MiB")%list
            = ([13%N; Hook.inbox_tray] ++ Hook.lit " " ++ name
               ++ Hook.lit " | "
               ++ Hook.str_text
                    (get_or (Hook.lit "N/A") (Hook._percent_str Hook.long_download))
               ++ Hook.lit " | "
               ++ Hook.str_text
                    (get_or (Hook.lit "N/A") (Hook._speed_str Hook.long_download))
               ++ Hook.lit " | "
               ++ Hook.str_text (Hook.size_of Hook.long_download))%list)
        \/ (Hook.status Hook.long_download = Val (Hook.lit "finished")
            /\ name = (if (50 <? length base)%nat
                       then (take 47 base ++ Hook.lit "...")%list else base)
            /\ (length name <= 50)%nat
            /\ ([13%N; Hook.inbox_tray]
                ++ Hook.lit " A very long title of a video that goe... |  42.0% | 1.21MiB/s | ~10.00MiB")%list
               = ([13%N; Hook.check_mark] ++ Hook.lit " Completado: "
                  ++ name ++ replicate 20 32%N ++ [10%N])%list)).
Proof.
  apply (progress_name_fits Hook.long_download).
  vm_compute. reflexivity.
Defined.

(** ** format_filesize *)

Lemma scale_spec units : forall x,
  0 < Filesize.den x ->
  exists k,
    (k <= length units)%nat
    /\ Filesize.scale units x
       = (nth k units "TB",
          {| Filesize.num := Filesize.num x;
             Filesize.den := 1024 ^ Z.of_nat k * Filesize.den x |})
    /\ ((k < length units)%nat ->
        Filesize.num x < 1024 * (1024 ^ Z.of_nat k * Filesize.den x))
    /\ ((0 < k)%nat -> 1024 ^ Z.of_nat k * Filesize.den x <= Filesize.num x).
Proof.
  induction units as [|u units IH]; intros x Hden; simpl.
  - exists 0%nat. split; [done|]. split; [|split; intros; lia].
    destruct x. simpl. f_equal. f_equal. lia.
  - destruct (Z.ltb (Filesize.num x) (1024 * Filesize.den x)) eqn:Hlt.
    + apply Z.ltb_lt in Hlt. exists 0%nat. split; [lia|].
      split; [|split; intros; lia].
      destruct x. simpl. f_equal. f_equal. lia.
    + apply Z.ltb_ge in Hlt.
      destruct (IH {| Filesize.num := Filesize.num x;
                      Filesize.den := 1024 * Filesize.den x |})
        as (k & Hk & -> & Hup & Hlow); [simpl; lia|].
      simpl in *. exists (S k). split; [lia|].
      assert (Hpow : 1024 ^ Z.of_nat (S k) = 1024 * 1024 ^ Z.of_nat k)
        by (rewrite Nat2Z.inj_succ, Z.pow_succ_r; lia).
      rewrite Hpow. split; [|split].
      * f_equal. f_equal. lia.
      * intros Hlen. specialize (Hup ltac:(lia)). lia.
      * intros _. destruct k as [|k]; [simpl in *; lia|].
        specialize (Hlow ltac:(lia)). lia.
Qed.

Lemma tenths_nearest x :
  0 < Filesize.den x ->
  2 * Z.abs (10 * Filesize.num x - Filesize.tenths x * Filesize.den x)
  <= Filesize.den x.
Proof.
  intros Hden. unfold Filesize.tenths.
  pose proof (Z.div_mod (10 * Filesize.num x) (Filesize.den x) ltac:(lia)) as Hdm.
  pose proof (Z.mod_pos_bound (10 * Filesize.num x) (Filesize.den x) Hden) as Hr.
  set (q := 10 * Filesize.num x / Filesize.den x) in *.
  set (r := (10 * Filesize.num x) mod Filesize.den x) in *.
  destruct (Z.ltb (2 * r) (Filesize.den x)) eqn:H1; [apply Z.ltb_lt in H1; nia|].
  apply Z.ltb_ge in H1.
  destruct (Z.ltb (Filesize.den x) (2 * r)) eqn:H2; [apply Z.ltb_lt in H2; nia|].
  apply Z.ltb_ge in H2. destruct (Z.even q); nia.
Qed.

(** X15. For a size of [n] bytes, not zero (and below 2^53, where the
    arithmetic is exact), [format_filesize] shows the size in the first of
    B, KB, MB, GB in which it is below 1024, in TB from 1024^4 bytes on,
    and the number it prints, with one decimal, is within 0.05 of the size
    in that unit. *)
Theorem filesize_unit_and_precision (n : Z) :
  n <> 0 ->
  Z.abs n < 2 ^ 53 ->
  exists (k : nat) (t : Z),
    (k <= 4)%nat
    /\ Filesize.format_filesize (Some n)
       = "~" ++ Filesize.render t ++ " " ++ nth k Filesize.units "TB"
    /\ ((k < 4)%nat -> n < 1024 ^ Z.of_nat (S k))
    /\ ((0 < k)%nat -> 1024 ^ Z.of_nat k <= n)
    /\ 2 * Z.abs (10 * n - t * 1024 ^ Z.of_nat k) <= 1024 ^ Z.of_nat k.
Proof.
  intros Hn _. unfold Filesize.format_filesize.
  apply Z.eqb_neq in Hn. rewrite Hn.
  destruct (scale_spec Filesize.units {| Filesize.num := n; Filesize.den := 1 |})
    as (k & Hk & -> & Hup & Hlow); [simpl; lia|].
  simpl in Hk, Hup, Hlow.
  exists k, (Filesize.tenths {| Filesize.num := n;
                                Filesize.den := 1024 ^ Z.of_nat k * 1 |}).
  split; [done|]. split; [done|].
  assert (Hpos : 0 < 1024 ^ Z.of_nat k) by (apply Z.pow_pos_nonneg; lia).
  split; [|split].
  - intros Hlt. specialize (Hup Hlt).
    rewrite Nat2Z.inj_succ, Z.pow_succ_r by lia. lia.
  - intros Hlt. specialize (Hlow Hlt). lia.
  - pose proof (tenths_nearest {| Filesize.num := n;
                                  Filesize.den := 1024 ^ Z.of_nat k * 1 |}) as Hnear.
    simpl in Hnear. rewrite Z.mul_1_r in *. apply Hnear. lia.
Qed.

(** Three million bytes are shown as 2.9 MB. *)
Lemma filesize_unit_and_precision_sample :
  exists (k : nat) (t : Z),
    (k <= 4)%nat
    /\ Filesize.format_filesize (Some 3000000)
       = "~" ++ Filesize.render t ++ " " ++ nth k Filesize.units "TB"
    /\ ((k < 4)%nat -> 3000000 < 1024 ^ Z.of_nat (S k))
    /\ ((0 < k)%nat -> 1024 ^ Z.of_nat k <= 3000000)
    /\ 2 * Z.abs (10 * 3000000 - t * 1024 ^ Z.of_nat k) <= 1024 ^ Z.of_nat k.
Proof.
  apply (filesize_unit_and_precision 3000000); [discriminate|reflexivity].
Defined.

(** ** The options of the menu *)

(** A section whose lines all get printed appends the selectors of its
    lines. *)
Lemma rows_append {X} (row : X -> Menu -> M Menu) (sel : X -> string)
    (l : list X) :
  (forall x m w m' w',
      row x m w = (Ret m', w') ->
      all_options m' = (all_options m ++ [sel x])%list) ->
  forall m w m' w',
    for_each l row m w = (Ret m', w') ->
    all_options m' = (all_options m ++ map sel l)%list.
Proof.
  intros Hrow. induction l as [|x l IH]; intros m w m' w'; simpl.
  - intros [= <- _]. by rewrite app_nil_r.
  - unfold bind. destruct (row x m w) as [[m1|e] w1] eqn:Hx; [|discriminate].
    intros Hrest. rewrite (IH _ _ _ _ Hrest), (Hrow _ _ _ _ _ Hx).
    by rewrite <- app_assoc.
Qed.

Lemma add_option_appends r sel m w m' w' :
  add_option r sel m w = (Ret m', w') ->
  all_options m' = (all_options m ++ [sel])%list.
Proof. unfold add_option, bind, log, ret. simpl. by intros [= <- _]. Qed.

Lemma ext_row_appends ext r sel m w m' w' :
  (upper_ext ext ;;; add_option r sel m) w = (Ret m', w') ->
  all_options m' = (all_options m ++ [sel])%list.
Proof.
  unfold bind, upper_ext. destruct ext; simpl; [|discriminate].
  apply add_option_appends.
Qed.

Lemma section_appends {X} title (l : list X) (row : X -> Menu -> M Menu)
    (sel : X -> string) :
  (forall x m w m' w',
      row x m w = (Ret m', w') ->
      all_options m' = (all_options m ++ [sel x])%list) ->
  forall m w m' w',
    menu_section title l row m w = (Ret m', w') ->
    all_options m' = (all_options m ++ map sel (take 5 l))%list.
Proof.
  intros Hrow m w m' w'. unfold menu_section.
  destruct l as [|x l].
  - intros [= <- _]. by rewrite app_nil_r.
  - unfold bind, print. cbn -[for_each take nl repeat_str].
    by apply rows_append.
Qed.

(** X16. The options of a menu that gets built are, in this order: the
    selectors of the detected formats, one per height from the highest
    down; the identifiers of at most five combined formats; those of at
    most five video streams, each followed by ['+bestaudio']; those of at
    most five audio tracks; and the three quick selectors. *)
Theorem menu_options_in_order sf mf w m w' :
  build_menu sf mf w = (Ret m, w') ->
  all_options m
  = (map selector (unique_formats sf) ++ manual_options mf
     ++ ["best"; "bestvideo+bestaudio/best"; "worst"])%list.
Proof.
  unfold build_menu, bind, print, manual_options.
  cbn -[for_each unique_formats menu_section quick_options nl repeat_str take].
  rewrite smart_loop.
  2:{ apply Forall_forall. intros f Hf.
      apply unique_formats_spec in Hf. tauto. }
  cbn -[for_each unique_formats menu_section quick_options nl repeat_str take].
  destruct (menu_section _ (combined mf) combined_row _ _)
    as [[m2|e] w2] eqn:H2; [|discriminate].
  apply (section_appends _ _ _ ve_format_id) in H2;
    [|intros x ?????; by eapply ext_row_appends].
  destruct (menu_section _ (video mf) video_row m2 w2)
    as [[m3|e] w3] eqn:H3; [|discriminate].
  apply (section_appends _ _ _ (fun f => ve_format_id f ++ "+bestaudio")) in H3;
    [|intros x ?????; by eapply ext_row_appends].
  destruct (menu_section _ (audio mf) audio_row m3 w3)
    as [[m4|e] w4] eqn:H4; [|discriminate].
  apply (section_appends _ _ _ ae_format_id) in H4;
    [|intros x ?????; by eapply ext_row_appends].
  rewrite quick_loop. cbn -[unique_formats take]. intros [= <- _].
  cbn -[unique_formats take]. rewrite H4, H3, H2. cbn -[unique_formats take].
  by rewrite <- !app_assoc.
Qed.

Lemma menu_options_in_order_sample :
  all_options {| all_options := Menus.options; option_num := 7 |}
  = (map selector (unique_formats Menus.detected)
     ++ manual_options Menus.manual
     ++ ["best"; "bestvideo+bestaudio/best"; "worst"])%list.
Proof.
  apply (menu_options_in_order Menus.detected Menus.manual (Sample.typing [])
           {| all_options := Menus.options; option_num := 7 |}
           (snd (build_menu Menus.detected Menus.manual (Sample.typing [])))).
  vm_compute. reflexivity.
Defined.

(** ** main at the prompt, and interrupted *)

Lemma lstrip_blanks (blank : PyStr.Char -> bool) (cs : list PyStr.Char) :
  Forall (fun c => blank c = true) cs -> PyStr.lstrip blank cs = [].
Proof. induction 1 as [|c cs Hc _ IH]; [done|]. simpl. by rewrite Hc. Qed.

(** X17. When no URL comes with the command line, what is typed at the
    prompt decides: a line that is empty or made of blank characters only
    (blank as [str.isspace] has it, above ASCII too) ends [main] with
    ["URL requerida"] and status 1, without any call; Ctrl-C or the end of
    the input at this prompt is not caught ([main]'s [try] only covers the
    download) and ends [main] with [KeyboardInterrupt] or [EOFError]. *)
Theorem url_prompt_outcomes E args w :
  truthy_str (argparse.url args) = false ->
  let asked := (trace w ++ map EvPrint banner ++ [EvInput url_prompt])%list in
  match stdin w with
  | [] =>
      main E args w
      = (Exc EOFError, {| stdin := []; clock := clock w; trace := asked |})
  | CtrlC :: rest =>
      main E args w
      = (Exc KeyboardInterrupt,
         {| stdin := rest; clock := clock w; trace := asked |})
  | Line s :: rest =>
      Forall (fun c => PyStr.is_space (python E) c = true) (PyStr.chars s) ->
      main E args w
      = (Exc (SystemExit 1),
         {| stdin := rest; clock := clock w;
            trace := asked ++ [EvPrint "❌ URL requerida"] |})
  end.
Proof.
  intros Habsent asked. rewrite main_after_opening, opening_runs, Habsent.
  subst asked. cbn [greeted trace]. rewrite <- app_assoc.
  destruct (stdin w) as [|[s|] rest]; try done.
  intros Hblank. unfold PyStr.strip. by rewrite (lstrip_blanks _ _ Hblank).
Qed.

(** Nothing on the command line, and only blanks typed: a blank, a
    no-break space and an ideographic space. *)
Lemma url_prompt_outcomes_blank :
  main Sample.flaky Sample.bare_command_line (Sample.typing [Line "  　"])
  = (Exc (SystemExit 1),
     {| stdin := []; clock := 0;
        trace := (trace (Sample.typing [Line "  　"]) ++ map EvPrint banner
                  ++ [EvInput url_prompt])
                 ++ [EvPrint "❌ URL requerida"] |}).
Proof.
  apply (url_prompt_outcomes Sample.flaky Sample.bare_command_line
           (Sample.typing [Line "  　"])); [reflexivity|].
  vm_compute. repeat constructor.
Defined.

(** X18. Ctrl-C during an audio download does not crash [main]: with
    [-a], once the folder exists, a [KeyboardInterrupt] raised by the
    library's download passes through [download_audio_only], is caught by
    [main], which prints that the download was interrupted and ends
    normally. *)
Theorem interrupted_audio_download E args url w :
  argparse.audio args = true ->
  mkdir E (clock w) (argparse.path args) = Returns tt ->
  download E (S (clock w)) (audio_opts (new_downloader E (argparse.path args)))
           [url]
  = Raises KeyboardInterrupt ->
  exists evs,
    dispatch E args url w
    = (Ret tt,
       {| stdin := stdin w; clock := S (S (clock w));
          trace := trace w
                   ++ EvMkdir (argparse.path args) :: evs
                   ++ [EvDownload
                         (audio_opts (new_downloader E (argparse.path args)))
                         [url];
                       EvPrint (nl ++ nl
                                ++ "👋 Descarga interrumpida por el usuario")] |})
    /\ Forall (fun ev => is_call ev = false /\ is_input ev = false) evs.
Proof.
  intros Haudio Hmkdir Hdown.
  unfold dispatch, init, bind, call_mkdir, try_. rewrite Hmkdir, Haudio.
  cbn -[download_audio_only nl]. rewrite audio_run.
  cbn -[nl repeat_str audio_opts]. rewrite Hdown.
  cbn -[nl repeat_str audio_opts]. unfold print, emit.
  cbn -[nl repeat_str audio_opts].
  eexists [_; _; _]. split.
  - rewrite <- !app_assoc. reflexivity.
  - by repeat constructor.
Qed.

Lemma interrupted_audio_download_sample :
  exists evs,
    dispatch interrupted (audio_command_line Sample.video_url)
             Sample.video_url (Sample.typing [])
    = (Ret tt,
       {| stdin := stdin (Sample.typing []);
          clock := S (S (clock (Sample.typing [])));
          trace := trace (Sample.typing [])
                   ++ EvMkdir (argparse.path (audio_command_line Sample.video_url))
                   :: evs
                   ++ [EvDownload
                         (audio_opts
                            (new_downloader interrupted
                               (argparse.path
                                  (audio_command_line Sample.video_url))))
                         [Sample.video_url];
                       EvPrint (nl ++ nl
                                ++ "👋 Descarga interrumpida por el usuario")] |})
    /\ Forall (fun ev => is_call ev = false /\ is_input ev = false) evs.
Proof.
  apply (interrupted_audio_download interrupted
           (audio_command_line Sample.video_url) Sample.video_url
           (Sample.typing [])); reflexivity.
Defined.
